(** * The property extractor and the property validator

    A shallow embedding of [extract_api_properties.py] and
    [validate_properties.py].  Both scripts work on documents produced by
    [yaml.safe_load] and [json.load], so the embedding starts with the
    Python values such documents are made of and the few operations the
    scripts apply to them ([in], subscripting, [.get], iteration,
    truthiness, [str]).  Exceptions are values of an error monad; the
    console, [sys.exit] and the uncaught-exception behaviour of the
    interpreter are threaded through a second monad over a [world]. *)

From Stdlib Require Import List String Ascii ZArith Bool Lia.
From Stdlib Require Import DecimalString.
Import ListNotations.
Open Scope string_scope.
Open Scope Z_scope.

Set Implicit Arguments.
Set Warnings "-register-all".
Unset Elimination Schemes.

(** ** Python values *)

(** The values a document is built from: null, booleans, integers,
    text, sequences and mappings.  A mapping is the list of its items in
    insertion order, which is the order Python iterates a dict in.
    Floats, timestamps and binary scalars are not represented. *)
Inductive pyval : Type :=
| VNone : pyval
| VBool (b : bool) : pyval
| VInt (n : Z) : pyval
| VStr (s : string) : pyval
| VList (xs : list pyval) : pyval
| VDict (items : list (pyval * pyval)) : pyval.

Set Elimination Schemes.

(** Insertion-ordered dicts with values of any type (the validator keeps
    records in one). *)
Definition dict (V : Type) : Type := list (pyval * V).

(** [a == b].  Booleans are integers ([True == 1]); sequences compare
    element by element; mappings compare as sets of items. *)
Fixpoint py_eqb (a b : pyval) {struct a} : bool :=
  match a, b with
  | VNone, VNone => true
  | VBool x, VBool y => Bool.eqb x y
  | VBool x, VInt n => Z.b2z x =? n
  | VInt n, VBool x => n =? Z.b2z x
  | VInt m, VInt n => m =? n
  | VStr s, VStr t => String.eqb s t
  | VList xs, VList ys =>
      (fix all2 (xs ys : list pyval) {struct xs} : bool :=
         match xs, ys with
         | [], [] => true
         | x :: xs', y :: ys' => py_eqb x y && all2 xs' ys'
         | _, _ => false
         end) xs ys
  | VDict d, VDict e =>
      (Nat.eqb (List.length d) (List.length e)) &&
      (fix every (d : list (pyval * pyval)) {struct d} : bool :=
         match d with
         | [] => true
         | (k, v) :: d' =>
             (fix find (e : list (pyval * pyval)) : bool :=
                match e with
                | [] => false
                | (k', v') :: e' => if py_eqb k k' then py_eqb v v' else find e'
                end) e && every d'
         end) d
  | _, _ => false
  end.

(** Lists and dicts are unhashable: they raise [TypeError] when used as
    a dict key. *)
Definition hashable (v : pyval) : bool :=
  match v with
  | VList _ | VDict _ => false
  | _ => true
  end.

Section Dict.
Variable V : Type.

(** [d.get(k)] on the item list: the first item whose key equals [k]. *)
Fixpoint dict_get (k : pyval) (d : dict V) : option V :=
  match d with
  | [] => None
  | (k', v) :: d' => if py_eqb k k' then Some v else dict_get k d'
  end.

Definition dict_contains (k : pyval) (d : dict V) : bool :=
  match dict_get k d with Some _ => true | None => false end.

(** [d[k] = v]: an existing key keeps its place (and its key object)
    and takes the new value; a new key goes to the end. *)
Fixpoint dict_set (k : pyval) (v : V) (d : dict V) : dict V :=
  match d with
  | [] => [(k, v)]
  | (k', v') :: d' =>
      if py_eqb k k' then (k', v) :: d' else (k', v') :: dict_set k v d'
  end.

Definition dict_keys (d : dict V) : list pyval := map fst d.
End Dict.

(** ** Exceptions *)

Inductive exn_kind : Type :=
| FileNotFoundError | YAMLError | JSONDecodeError
| TypeError | AttributeError | KeyError | IndexError | OSError.

(** An exception: its class and [str(e)]. *)
Record exn : Type := Exn { exn_class : exn_kind; exn_text : string }.

Inductive res (A : Type) : Type :=
| Ok (a : A)
| Err (e : exn).
Arguments Ok {A} a.
Arguments Err {A} e.

Definition rbind {A B : Type} (c : res A) (f : A -> res B) : res B :=
  match c with
  | Ok a => f a
  | Err e => Err e
  end.

Declare Scope res_scope.
Delimit Scope res_scope with res.
Notation "x <- c ;; k" := (rbind c (fun x => k))
  (at level 61, c at next level, right associativity) : res_scope.

(** ** Operations on values *)

(** [type(v).__name__], as it appears in the interpreter's messages. *)
Definition type_name (v : pyval) : string :=
  match v with
  | VNone => "NoneType"
  | VBool _ => "bool"
  | VInt _ => "int"
  | VStr _ => "str"
  | VList _ => "list"
  | VDict _ => "dict"
  end.

(** [bool(v)]. *)
Definition truthy (v : pyval) : bool :=
  match v with
  | VNone => false
  | VBool b => b
  | VInt n => negb (n =? 0)
  | VStr s => negb (String.eqb s "")
  | VList xs => match xs with [] => false | _ => true end
  | VDict d => match d with [] => false | _ => true end
  end.

(** [t in s] on text: [t] occurs in [s]. *)
Fixpoint is_substring (t s : string) : bool :=
  String.prefix t s ||
  match s with
  | EmptyString => false
  | String _ s' => is_substring t s'
  end.

Definition unhashable (v : pyval) : exn :=
  Exn TypeError ("unhashable type: '" ++ type_name v ++ "'").

(** [x in c]. *)
Definition py_in (x c : pyval) : res bool :=
  match c with
  | VList xs => Ok (existsb (py_eqb x) xs)
  | VDict d => if hashable x then Ok (dict_contains x d) else Err (unhashable x)
  | VStr s =>
      match x with
      | VStr t => Ok (is_substring t s)
      | _ => Err (Exn TypeError
                ("'in <string>' requires string as left operand, not " ++ type_name x))
      end
  | _ => Err (Exn TypeError
            ("argument of type '" ++ type_name c ++ "' is not iterable"))
  end.

(** [xs[i]] on a sequence of length [n]: a negative index counts from
    the end. *)
Definition seq_index {A : Type} (xs : list A) (i : Z) : option A :=
  let n := Z.of_nat (List.length xs) in
  let j := if i <? 0 then i + n else i in
  if (0 <=? j) && (j <? n) then nth_error xs (Z.to_nat j) else None.

(** An integer index: [int], or [bool] as its subclass. *)
Definition as_index (k : pyval) : option Z :=
  match k with
  | VInt i => Some i
  | VBool b => Some (Z.b2z b)
  | _ => None
  end.

(** The characters of a text, each as a text of its own.  Text is held
    as the bytes of its UTF-8 form. *)
Fixpoint chars (s : string) : list string :=
  match s with
  | EmptyString => []
  | String c s' => String c EmptyString :: chars s'
  end.

(** ** [str] and [repr] *)

Definition str_of_Z (n : Z) : string := NilZero.string_of_int (Z.to_int n).

Definition nibble (n : N) : ascii :=
  ascii_of_N (if (n <? 10)%N then 48 + n else 87 + n)%N.

(** One character of [repr(s)] with [q] the enclosing quote. *)
Definition repr_char (q c : ascii) : string :=
  let n := N_of_ascii c in
  if Ascii.eqb c "\"%char then "\\"
  else if Ascii.eqb c q then String "\"%char (String q EmptyString)
  else if (n =? 9)%N then "\t"
  else if (n =? 10)%N then "\n"
  else if (n =? 13)%N then "\r"
  else if ((n <? 32) || (n =? 127))%N
       then String "\"%char (String "x"%char
              (String (nibble (n / 16)) (String (nibble (n mod 16)) EmptyString)))
  else String c EmptyString.

Definition has_char (c : ascii) (s : string) : bool :=
  existsb (Ascii.eqb c) (list_ascii_of_string s).

Definition dquote : ascii := ascii_of_nat 34.

(** [repr(s)] for text: single quotes, unless the text has a single
    quote and no double quote. *)
Definition repr_str (s : string) : string :=
  let q := if has_char "'"%char s && negb (has_char dquote s)
           then dquote else "'"%char in
  String q (String.concat "" (map (repr_char q) (list_ascii_of_string s))
            ++ String q EmptyString).

Fixpoint py_repr (v : pyval) : string :=
  match v with
  | VNone => "None"
  | VBool b => if b then "True" else "False"
  | VInt n => str_of_Z n
  | VStr s => repr_str s
  | VList xs => "[" ++ String.concat ", " (map py_repr xs) ++ "]"
  | VDict d =>
      "{" ++ String.concat ", "
               (map (fun item => py_repr (fst item) ++ ": " ++ py_repr (snd item)) d)
          ++ "}"
  end.

(** [str(v)], which is what an f-string field [{v}] inserts. *)
Definition py_str (v : pyval) : string :=
  match v with
  | VStr s => s
  | _ => py_repr v
  end.

Definition not_subscriptable (c : pyval) : exn :=
  Exn TypeError ("'" ++ type_name c ++ "' object is not subscriptable").

(** [c[k]]. *)
Definition py_getitem (c k : pyval) : res pyval :=
  match c with
  | VDict d =>
      if hashable k then
        match dict_get k d with
        | Some v => Ok v
        | None => Err (Exn KeyError (py_repr k))
        end
      else Err (unhashable k)
  | VList xs =>
      match as_index k with
      | Some i =>
          match seq_index xs i with
          | Some v => Ok v
          | None => Err (Exn IndexError "list index out of range")
          end
      | None => Err (Exn TypeError
                  ("list indices must be integers or slices, not " ++ type_name k))
      end
  | VStr s =>
      match as_index k with
      | Some i =>
          match seq_index (chars s) i with
          | Some ch => Ok (VStr ch)
          | None => Err (Exn IndexError "string index out of range")
          end
      | None => Err (Exn TypeError
                  ("string indices must be integers, not '" ++ type_name k ++ "'"))
      end
  | _ => Err (not_subscriptable c)
  end.

Definition no_attribute (c : pyval) (attr : string) : exn :=
  Exn AttributeError
      ("'" ++ type_name c ++ "' object has no attribute '" ++ attr ++ "'").

(** [c.get(key, default)]: only dicts have the method. *)
Definition py_get (c : pyval) (key : string) (default : pyval) : res pyval :=
  match c with
  | VDict d => Ok (match dict_get (VStr key) d with Some v => v | None => default end)
  | _ => Err (no_attribute c "get")
  end.

(** [c.items()]. *)
Definition py_items (c : pyval) : res (list (pyval * pyval)) :=
  match c with
  | VDict d => Ok d
  | _ => Err (no_attribute c "items")
  end.

(** The elements [for x in c] runs over. *)
Definition py_iter (c : pyval) : res (list pyval) :=
  match c with
  | VList xs => Ok xs
  | VDict d => Ok (dict_keys d)
  | VStr s => Ok (map VStr (chars s))
  | _ => Err (Exn TypeError ("'" ++ type_name c ++ "' object is not iterable"))
  end.

(** A [for] loop whose body updates the loop state or raises. *)
Fixpoint for_each {A S : Type} (xs : list A) (body : A -> S -> res S) (s : S)
  : res S :=
  match xs with
  | [] => Ok s
  | x :: xs' => rbind (body x s) (for_each xs' body)
  end.

(** ** JSON documents *)

(** JSON documents.  [json.dumps] and [json.loads] go through this tree;
    the text of a tree is the [json] module's business and is taken from
    the environment. *)
Unset Elimination Schemes.
Inductive json : Type :=
| JNull : json
| JBool (b : bool) : json
| JNum (n : Z) : json
| JStr (s : string) : json
| JArr (xs : list json) : json
| JObj (members : list (string * json)) : json.
Set Elimination Schemes.

(** The encoder's treatment of a dict key: text stays, [True], [False]
    and [None] turn into [true], [false] and [null], an integer into its
    decimal form; anything else is refused. *)
Definition json_key (k : pyval) : res string :=
  match k with
  | VStr s => Ok s
  | VBool b => Ok (if b then "true" else "false")
  | VNone => Ok "null"
  | VInt n => Ok (str_of_Z n)
  | _ => Err (Exn TypeError
            ("keys must be str, int, float, bool or None, not " ++ type_name k))
  end.

Section ResMap.
Variables A B : Type.
Variable f : A -> res B.

(** [[f(x) for x in xs]], stopping at the first exception. *)
Fixpoint res_map (xs : list A) : res (list B) :=
  match xs with
  | [] => Ok []
  | x :: xs' =>
      rbind (f x) (fun y => rbind (res_map xs') (fun ys => Ok (y :: ys)))
  end.
End ResMap.

(** The document [json.dumps] writes for a value. *)
Fixpoint json_encode (v : pyval) : res json :=
  match v with
  | VNone => Ok JNull
  | VBool b => Ok (JBool b)
  | VInt n => Ok (JNum n)
  | VStr s => Ok (JStr s)
  | VList xs => rbind (res_map json_encode xs) (fun js => Ok (JArr js))
  | VDict d =>
      rbind (res_map (fun item =>
                        rbind (json_key (fst item)) (fun name =>
                        rbind (json_encode (snd item)) (fun j => Ok (name, j))))
                     d)
            (fun ms => Ok (JObj ms))
  end.

(** The value [json.loads] builds from a document: an object becomes a
    dict filled member by member, so a repeated name keeps its first
    place and its last value. *)
Fixpoint json_decode (j : json) : pyval :=
  match j with
  | JNull => VNone
  | JBool b => VBool b
  | JNum n => VInt n
  | JStr s => VStr s
  | JArr xs => VList (map json_decode xs)
  | JObj ms =>
      VDict (fold_left (fun d m => dict_set (VStr (fst m)) (json_decode (snd m)) d)
                       ms [])
  end.

(** ** Processes: console, files, [sys.exit] *)

(** What a run leaves behind: the lines printed to standard output and
    to the error stream (oldest first), and the files it wrote. *)
Record world : Type := World {
  stdout : list string;
  stderr : list string;
  written : list (string * string)
}.

Definition fresh_world : world := World [] [] [].

(** A step returns, leaves through [sys.exit] ([SystemExit] is not an
    [Exception], so no handler below catches it), or raises. *)
Inductive outcome (A : Type) : Type :=
| Ret (a : A)
| Exit (code : Z)
| Raise (e : exn).
Arguments Ret {A} a.
Arguments Exit {A} code.
Arguments Raise {A} e.

Definition M (A : Type) : Type := world -> outcome A * world.

Definition ret {A : Type} (a : A) : M A := fun w => (Ret a, w).

Definition bind {A B : Type} (c : M A) (f : A -> M B) : M B :=
  fun w =>
    match c w with
    | (Ret a, w') => f a w'
    | (Exit code, w') => (Exit code, w')
    | (Raise e, w') => (Raise e, w')
    end.

Declare Scope proc_scope.
Delimit Scope proc_scope with proc.
Notation "x <- c ;; k" := (bind c (fun x => k))
  (at level 61, c at next level, right associativity) : proc_scope.
Notation "c ;; k" := (bind c (fun _ => k))
  (at level 61, right associativity) : proc_scope.

(** [print(line)]. *)
Definition print (line : string) : M unit :=
  fun w => (Ret tt, World (stdout w ++ [line]) (stderr w) (written w)).

(** [print(line, file=sys.stderr)]. *)
Definition eprint (line : string) : M unit :=
  fun w => (Ret tt, World (stdout w) (stderr w ++ [line]) (written w)).

Definition sys_exit {A : Type} (code : Z) : M A := fun w => (Exit code, w).

Definition lift {A : Type} (c : res A) : M A :=
  fun w => match c with Ok a => (Ret a, w) | Err e => (Raise e, w) end.

(** [try: body / except ...]: [handler] gives the clause that matches
    the exception, if one does. *)
Definition try_except {A : Type} (body : M A) (handler : exn -> option (M A))
  : M A :=
  fun w =>
    match body w with
    | (Raise e, w') =>
        match handler e with
        | Some h => h w'
        | None => (Raise e, w')
        end
    | r => r
    end.

Fixpoint for_each_M {A : Type} (xs : list A) (body : A -> M unit) : M unit :=
  match xs with
  | [] => ret tt
  | x :: xs' => bind (body x) (fun _ => for_each_M xs' body)
  end.

Definition when (b : bool) (c : M unit) : M unit := if b then c else ret tt.

(** What [parser.parse_args()] makes of a command line.  [argparse]
    returns the namespace of the arguments; or, asked for [-h] or
    [--help], prints the help on standard output and leaves with status
    0; or refuses the command line (a required argument is missing, an
    option is unknown, a value is not among the [choices]), prints the
    usage and its error on the error stream and leaves with status 2.
    Which of the three a command line gives is [argparse]'s business. *)
Inductive parsed (A : Type) : Type :=
| Namespace (args : A)
| Help (text : string)
| Refused (usage message : string).
Arguments Namespace {A} args.
Arguments Help {A} text.
Arguments Refused {A} usage message.

Definition parse_args {A : Type} (command_line : parsed A) : M A :=
  match command_line with
  | Namespace args => ret args
  | Help text => bind (print text) (fun _ => sys_exit 0)
  | Refused usage message =>
      bind (eprint usage) (fun _ => bind (eprint message) (fun _ => sys_exit 2))
  end.

Definition class_name (k : exn_kind) : string :=
  match k with
  | FileNotFoundError => "FileNotFoundError"
  | YAMLError => "yaml.YAMLError"
  | JSONDecodeError => "json.decoder.JSONDecodeError"
  | TypeError => "TypeError"
  | AttributeError => "AttributeError"
  | KeyError => "KeyError"
  | IndexError => "IndexError"
  | OSError => "OSError"
  end.

(** The interpreter around a script: an exception nobody caught is
    reported on the error stream (the traceback's first and last line
    here, without the frames between them) and the status is 1; a script
    that runs to its end leaves with status 0. *)
Definition run (script : M unit) (w : world) : Z * world :=
  match script w with
  | (Ret _, w') => (0, w')
  | (Exit code, w') => (code, w')
  | (Raise e, w') =>
      (1, World (stdout w')
                (stderr w' ++ ["Traceback (most recent call last):";
                               class_name (exn_class e) ++ ": " ++ exn_text e])
                (written w'))
  end.

(** The file system and the two parsers, as a run finds them:
    [open_read path] is the text of the file or the exception [open]
    raises; [yaml_safe_load] and [json_load] parse a text or raise;
    [open_write path] tells whether the file can be opened for writing;
    [yaml_dump] is the block-style dump of a value and [json_text] the
    text of a JSON document indented by two spaces. *)
Record environment : Type := Environment {
  open_read : string -> res string;
  yaml_safe_load : string -> res pyval;
  json_load : string -> res pyval;
  open_write : string -> res unit;
  yaml_dump : pyval -> string;
  json_text : json -> string
}.

Definition exn_is (k : exn_kind) (e : exn) : bool :=
  match k, exn_class e with
  | FileNotFoundError, FileNotFoundError
  | YAMLError, YAMLError
  | JSONDecodeError, JSONDecodeError
  | TypeError, TypeError
  | AttributeError, AttributeError
  | KeyError, KeyError
  | IndexError, IndexError
  | OSError, OSError => true
  | _, _ => false
  end.

(** ** The validator ([validate_properties.py]) *)

Module Validator.

Local Open Scope proc_scope.

(** A [PropertyValidator] object. *)
Record PropertyValidator : Type := {
  config : pyval;
  validation_rules : pyval
}.

(** The dict [validate_property] returns: ["valid"], and ["error"]
    when the check failed. *)
Record validation_result : Type := {
  valid : bool;
  error : option string
}.

(** The [results] dict of [validate_all_properties]. *)
Record results : Type := {
  overall_valid : bool;
  property_results : dict validation_result;
  missing_required : list pyval;
  errors : list string;
  unknown_properties : list pyval
}.

Section WithEnvironment.
Variable env : environment.

Definition _load_config (config_file : string) : M pyval :=
  try_except
    (text <- lift (open_read env config_file);;
     lift (yaml_safe_load env text))
    (fun e =>
       if exn_is FileNotFoundError e then
         Some (print ("::error::Configuration file '" ++ config_file
                        ++ "' not found");;
               sys_exit 1)
       else if exn_is YAMLError e then
         Some (print ("::error::Invalid YAML in configuration file: "
                        ++ exn_text e);;
               sys_exit 1)
       else None).

(** [__init__]. *)
Definition init (config_file : string) : M PropertyValidator :=
  cfg <- _load_config config_file;;
  rules <- lift (py_get cfg "validation_rules" (VDict []));;
  ret {| config := cfg; validation_rules := rules |}.

Definition load_properties_from_json (json_file : string) : M (dict pyval) :=
  try_except
    (text <- lift (open_read env json_file);;
     data <- lift (json_load env text);;
     match data with
     | VDict d => ret d
     | _ => ret []
     end)
    (fun e =>
       if exn_is FileNotFoundError e then
         Some (print ("::error::Properties file '" ++ json_file
                        ++ "' not found");;
               sys_exit 1)
       else if exn_is JSONDecodeError e then
         Some (print ("::error::Invalid JSON in properties file: "
                        ++ exn_text e);;
               sys_exit 1)
       else None).
End WithEnvironment.

Section WithValidator.
Variable self : PropertyValidator.

Local Open Scope res_scope.

Definition validate_property (property_name property_value : pyval)
  : res validation_result :=
  known <- py_in property_name (validation_rules self);;
  if negb known then
    Ok {| valid := false;
          error := Some ("Property '" ++ py_str property_name
                           ++ "' is not defined in validation rules") |}
  else
    rule <- py_getitem (validation_rules self) property_name;;
    valid_values <- py_get rule "valid_values" (VList []);;
    member <- py_in property_value valid_values;;
    if negb member then
      Ok {| valid := false;
            error := Some ("Property '" ++ py_str property_name
                             ++ "' has invalid value '" ++ py_str property_value
                             ++ "'. Valid values are: " ++ py_str valid_values) |}
    else
      Ok {| valid := true; error := None |}.

(** The body of the first loop: a required rule whose property is
    not among [properties]. *)
Definition check_required (properties : dict pyval)
           (item : pyval * pyval) (r : results) : res results :=
  let (property_name, rule) := item in
  required <- py_get rule "required" (VBool false);;
  missing <- (if truthy required
              then present <- py_in property_name (VDict properties);;
                   Ok (negb present)
              else Ok false);;
  if missing then
    Ok {| overall_valid := false;
          property_results := property_results r;
          missing_required := missing_required r ++ [property_name];
          errors := errors r;
          unknown_properties := unknown_properties r |}
  else Ok r.

(** The body of the second loop. *)
Definition check_provided (item : pyval * pyval) (r : results) : res results :=
  let (property_name, property_value) := item in
  known <- py_in property_name (validation_rules self);;
  if negb known then
    Ok {| overall_valid := overall_valid r;
          property_results := property_results r;
          missing_required := missing_required r;
          errors := errors r;
          unknown_properties := unknown_properties r ++ [property_name] |}
  else
    validation_result <- validate_property property_name property_value;;
    let r' := {| overall_valid := overall_valid r;
                 property_results :=
                   dict_set property_name validation_result (property_results r);
                 missing_required := missing_required r;
                 errors := errors r;
                 unknown_properties := unknown_properties r |} in
    if negb (valid validation_result) then
      match error validation_result with
      | Some msg =>
          Ok {| overall_valid := false;
                property_results := property_results r';
                missing_required := missing_required r';
                errors := errors r' ++ [msg];
                unknown_properties := unknown_properties r' |}
      | None => Err (Exn KeyError "'error'")
      end
    else Ok r'.

Definition initial_results : results :=
  {| overall_valid := true;
     property_results := [];
     missing_required := [];
     errors := [];
     unknown_properties := [] |}.

Definition validate_all_properties (properties : dict pyval) : res results :=
  rules <- py_items (validation_rules self);;
  r <- for_each rules (check_required properties) initial_results;;
  for_each properties check_provided r.

Local Open Scope proc_scope.

Definition nl : string := String (ascii_of_nat 10) EmptyString.

Definition len {A : Type} (xs : list A) : Z := Z.of_nat (List.length xs).

Definition nonempty {A : Type} (xs : list A) : bool :=
  match xs with [] => false | _ => true end.

Definition print_github_actions_output (r : results) (properties : dict pyval)
  : M unit :=
  print "::group::Property Validation Report";;
  (if overall_valid r then print "✅ VALIDATION PASSED"
   else print "❌ VALIDATION FAILED");;
  print (nl ++ "Extracted Properties (" ++ str_of_Z (len properties) ++ "):");;
  for_each_M properties
    (fun item => print ("   " ++ py_str (fst item) ++ ": " ++ py_str (snd item)));;
  when (nonempty (property_results r))
    (print (nl ++ "Property Validation Results:");;
     for_each_M (property_results r)
       (fun item =>
          let status := if valid (snd item) then "✅" else "❌" in
          let prop_value :=
            match dict_get (fst item) properties with
            | Some v => v
            | None => VStr "N/A"
            end in
          print ("   " ++ status ++ " " ++ py_str (fst item) ++ ": "
                   ++ py_str prop_value)));;
  when (nonempty (unknown_properties r))
    (for_each_M (unknown_properties r)
       (fun prop =>
          value <- lift (py_getitem (VDict properties) prop);;
          print ("::warning::Unknown property '" ++ py_str prop
                   ++ "' with value '" ++ py_str value
                   ++ "' (not in validation rules)")));;
  for_each_M (missing_required r)
    (fun prop =>
       rule <- lift (py_getitem (validation_rules self) prop);;
       valid_values <- lift (py_get rule "valid_values" (VList []));;
       print ("::error::Missing required property '" ++ py_str prop
                ++ "'. Valid values are: " ++ py_str valid_values));;
  for_each_M (errors r) (fun error => print ("::error::" ++ error));;
  print "::endgroup::";;
  if overall_valid r then
    print "::notice::Property validation completed successfully"
  else
    let error_count := len (errors r) + len (missing_required r) in
    print ("::error::Property validation failed with " ++ str_of_Z error_count
             ++ " error(s)").
End WithValidator.

(** The parsed command line: [--config] (with its default) and
    [--properties-file]. *)
Record arguments : Type := {
  arg_config : string;
  arg_properties_file : string
}.

Definition default_config : string := "property-validation-config.yaml".

Local Open Scope proc_scope.

Definition main (env : environment) (args : arguments) : M unit :=
  validator <- init env (arg_config args);;
  properties <- load_properties_from_json env (arg_properties_file args);;
  when (negb (truthy (VDict properties)))
    (print "::warning::No properties found in input file");;
  r <- lift (validate_all_properties validator properties);;
  print_github_actions_output validator r properties;;
  let exit_code := if overall_valid r then 0 else 1 in
  print ("::debug::Exiting with code " ++ str_of_Z exit_code);;
  sys_exit exit_code.

(** [if __name__ == "__main__": main()], from the first line of
    [main]: the command line is parsed before anything is loaded, and
    [main] above is what follows [parser.parse_args()]. *)
Definition entry_point (env : environment) (command_line : parsed arguments)
  : M unit :=
  args <- parse_args command_line;;
  main env args.

End Validator.

(** ** The extractor ([extract_api_properties.py]) *)

Module Extractor.

(** *** [str.upper] and [str.lower]

    Python maps every character through the Unicode case tables.  The
    two functions below carry the part of the tables that the results of
    this file rest on: the ASCII letters, and U+212A KELVIN SIGN (bytes
    E2 84 AA), an upper-case letter whose lower case is the ASCII [k].
    Bytes of other characters are passed on as they are; no statement
    below is made about keys that contain them. *)

Definition upper_ascii (c : ascii) : ascii :=
  let n := N_of_ascii c in
  if ((97 <=? n) && (n <=? 122))%N then ascii_of_N (n - 32) else c.

Definition lower_ascii (c : ascii) : ascii :=
  let n := N_of_ascii c in
  if ((65 <=? n) && (n <=? 90))%N then ascii_of_N (n + 32) else c.

Definition is_kelvin (c1 c2 c3 : ascii) : bool :=
  ((N_of_ascii c1 =? 226) && (N_of_ascii c2 =? 132) && (N_of_ascii c3 =? 170))%N.

Definition kelvin_sign : string :=
  String (ascii_of_nat 226) (String (ascii_of_nat 132)
    (String (ascii_of_nat 170) EmptyString)).

Fixpoint str_upper (s : string) : string :=
  match s with
  | EmptyString => EmptyString
  | String c s' => String (upper_ascii c) (str_upper s')
  end.

Fixpoint str_lower (s : string) : string :=
  match s with
  | EmptyString => EmptyString
  | String c1 s1 =>
      match s1 with
      | String c2 (String c3 rest) =>
          if is_kelvin c1 c2 c3 then String "k"%char (str_lower rest)
          else String (lower_ascii c1) (str_lower s1)
      | _ => String (lower_ascii c1) (str_lower s1)
      end
  end.

(** [k.upper()] and [k.lower()]: methods of text only. *)
Definition py_upper (k : pyval) : res string :=
  match k with
  | VStr s => Ok (str_upper s)
  | _ => Err (no_attribute k "upper")
  end.

Definition py_lower (k : pyval) : res string :=
  match k with
  | VStr s => Ok (str_lower s)
  | _ => Err (no_attribute k "lower")
  end.

Local Open Scope res_scope.

(** [properties[k] = v]. *)
Definition py_setitem (properties : dict pyval) (k v : pyval) : res (dict pyval) :=
  if hashable k then Ok (dict_set k v properties) else Err (unhashable k).

(** The body of the loop over [additionalProperties]. *)
Definition collect (prop : pyval) (properties : dict pyval) : res (dict pyval) :=
  has_name <- py_in (VStr "name") prop;;
  has_both <- (if has_name then py_in (VStr "value") prop else Ok false);;
  if has_both then
    value <- py_getitem prop (VStr "value");;
    name <- py_getitem prop (VStr "name");;
    py_setitem properties name value
  else Ok properties.

(** What [extract_properties_from_yaml] does with the loaded document
    (the statements between [safe_load] and [return]). *)
Definition extract (data : pyval) : res (dict pyval) :=
  has_data <- py_in (VStr "data") data;;
  located <- (if has_data
              then inner <- py_getitem data (VStr "data");;
                   py_in (VStr "additionalProperties") inner
              else Ok false);;
  if located then
    inner <- py_getitem data (VStr "data");;
    records <- py_getitem inner (VStr "additionalProperties");;
    props <- py_iter records;;
    for_each props collect []
  else Ok [].

(** One line per property, [key(k)] before [sep] and [str(v)] after. *)
Fixpoint format_lines (key : pyval -> res string) (sep : string)
         (properties : dict pyval) : res (list string) :=
  match properties with
  | [] => Ok []
  | (k, v) :: rest =>
      name <- key k;;
      lines <- format_lines key sep rest;;
      Ok ((name ++ sep ++ py_str v)%string :: lines)
  end.

Definition nl : string := String (ascii_of_nat 10) EmptyString.

Section WithEnvironment.
Variable env : environment.

Local Open Scope proc_scope.

Definition extract_properties_from_yaml (yaml_file_path : string) : M (dict pyval) :=
  try_except
    (text <- lift (open_read env yaml_file_path);;
     data <- lift (yaml_safe_load env text);;
     lift (extract data))
    (fun e =>
       if exn_is FileNotFoundError e then
         Some (eprint ("Error: File not found: " ++ yaml_file_path);; sys_exit 1)
       else if exn_is YAMLError e then
         Some (eprint ("Error parsing YAML file: " ++ exn_text e);; sys_exit 1)
       else
         Some (eprint ("Error: " ++ exn_text e);; sys_exit 1)).

(** The text [output_properties] builds before it writes or prints it. *)
Definition output_content (properties : dict pyval) (output_format : string)
  : res string :=
  if String.eqb output_format "json" then
    rbind (json_encode (VDict properties)) (fun doc => Ok (json_text env doc))
  else if String.eqb output_format "env" then
    rbind (format_lines py_upper "=" properties) (fun ls => Ok (String.concat nl ls))
  else if String.eqb output_format "yaml" then
    Ok (yaml_dump env (VDict properties))
  else if String.eqb output_format "github" then
    rbind (format_lines py_lower "=" properties) (fun ls => Ok (String.concat nl ls))
  else if String.eqb output_format "console" then
    rbind (format_lines (fun k => Ok (py_str k)) ": " properties)
          (fun ls => Ok (String.concat nl ls))
  else Ok "".

Definition write_file (path content : string) : M unit :=
  lift (open_write env path);;
  fun w => (Ret tt, World (stdout w) (stderr w) (written w ++ [(path, content)])).

Definition output_properties (properties : dict pyval) (output_format : string)
           (output_file : option string) : M unit :=
  content <- lift (output_content properties output_format);;
  match output_file with
  | Some path =>
      if negb (String.eqb path "") then
        write_file path content;;
        print ("Properties written to: " ++ path)
      else print content
  | None => print content
  end.

(** The parsed command line. *)
Record arguments : Type := {
  arg_yaml_file : string;
  arg_format : string;
  arg_output : option string;
  arg_verbose : bool
}.

Definition main (args : arguments) : M Z :=
  when (arg_verbose args)
    (eprint ("Extracting properties from: " ++ arg_yaml_file args));;
  properties <- extract_properties_from_yaml (arg_yaml_file args);;
  when (negb (truthy (VDict properties)))
    (eprint "No properties found in additionalProperties section";; sys_exit 0);;
  when (arg_verbose args)
    (eprint ("Found " ++ str_of_Z (Z.of_nat (List.length properties)) ++ " properties"));;
  output_properties properties (arg_format args) (arg_output args);;
  ret 0.

(** [sys.exit(main())]. *)
Definition script (args : arguments) : M unit :=
  code <- main args;; sys_exit code.



(** [if __name__ == '__main__': sys.exit(main())], from the first line
    of [main]: the command line is parsed before the source file is
    opened, and [main] above is what follows [parser.parse_args()]. *)
Definition entry_point (command_line : parsed arguments) : M unit :=
  code <- (args <- parse_args command_line;; main args);;
  sys_exit code.

End WithEnvironment.

End Extractor.

(** * Vocabulary of the statements *)

(** The failure [validate_property] reports for a value that is not
    among [valid_values]. *)
Definition invalid_value (name value valid_values : pyval)
  : Validator.validation_result :=
  {| Validator.valid := false;
     Validator.error :=
       Some ("Property '" ++ py_str name ++ "' has invalid value '"
               ++ py_str value ++ "'. Valid values are: "
               ++ py_str valid_values) |}.

(** Two states of the scan that differ in the unknown properties only. *)
Definition same_verdict (r r' : Validator.results) : Prop :=
  Validator.overall_valid r' = Validator.overall_valid r /\
  Validator.property_results r' = Validator.property_results r /\
  Validator.missing_required r' = Validator.missing_required r /\
  Validator.errors r' = Validator.errors r.

(** A rule as the rule document declares it: a mapping whose [required],
    when given, is a boolean and whose [valid_values], when given, is a
    sequence. *)
Definition rule_schema (rule : pyval) : bool :=
  match rule with
  | VDict fields =>
      match dict_get (VStr "required") fields with
      | None | Some (VBool _) => true
      | Some _ => false
      end &&
      match dict_get (VStr "valid_values") fields with
      | None | Some (VList _) => true
      | Some _ => false
      end
  | _ => false
  end.

(** A rule mapping: from property names to rules. *)
Definition rule_mapping (rules : list (pyval * pyval)) : bool :=
  forallb (fun item => hashable (fst item) && rule_schema (snd item)) rules.

(** A PropertySet: its names are dict keys. *)
Definition property_set (properties : dict pyval) : bool :=
  forallb (fun item => hashable (fst item)) properties.

(** The rule has [required: true]. *)
Definition required (rule : pyval) : bool :=
  match rule with
  | VDict fields =>
      match dict_get (VStr "required") fields with
      | Some (VBool b) => b
      | _ => false
      end
  | _ => false
  end.

(** The value is one of the rule's [valid_values]. *)
Definition accepts (rule value : pyval) : bool :=
  match rule with
  | VDict fields =>
      match dict_get (VStr "valid_values") fields with
      | Some (VList values) => existsb (py_eqb value) values
      | _ => false
      end
  | _ => false
  end.

(** What the first loop asks of an item of the rule mapping: a required
    rule names a property of the PropertySet. *)
Definition satisfied (properties : dict pyval) (item : pyval * pyval) : bool :=
  negb (required (snd item)) || dict_contains (fst item) properties.

(** What the second loop asks of an item of the PropertySet: if its name
    has a rule, the rule accepts its value. *)
Definition passes (rules : list (pyval * pyval)) (item : pyval * pyval) : bool :=
  match dict_get (fst item) rules with
  | Some rule => accepts rule (snd item)
  | None => true
  end.

(** ** Runs *)

(** The world after [line] went to standard output. *)
Definition printed (line : string) (w : world) : world :=
  World (stdout w ++ [line]) (stderr w) (written w).

(** The world after [line] went to the error stream. *)
Definition complained (line : string) (w : world) : world :=
  World (stdout w) (stderr w ++ [line]) (written w).

(** The extractor's first step: the verbose notice, if asked for. *)
Definition announced (args : Extractor.arguments) (w : world) : world :=
  if Extractor.arg_verbose args
  then complained ("Extracting properties from: " ++ Extractor.arg_yaml_file args) w
  else w.

(** A step that returns, whatever the world it starts in. *)
Definition returns {A : Type} (c : M A) : Prop :=
  forall w, exists a w', c w = (Ret a, w').

(** ** Sample documents

    The rule document and the runs of the scenarios the specification
    lists: one rule, [env], required, with the values [dev] and [prod]. *)

Definition env_rule : pyval :=
  VDict [(VStr "required", VBool true);
         (VStr "valid_values", VList [VStr "dev"; VStr "prod"])].

Definition sample_rules : list (pyval * pyval) := [(VStr "env", env_rule)].

Definition sample_config : pyval := VDict [(VStr "validation_rules", VDict sample_rules)].

Definition no_such_file (path : string) : exn :=
  Exn FileNotFoundError ("[Errno 2] No such file or directory: '" ++ path ++ "'").

(** A directory with [rules.yaml], [properties.json] and [api.yaml],
    each holding the document given for it; [broken.yaml] and
    [broken.json] hold text the parsers refuse.  The two dumps are
    stand-ins: the [str] of the value, not YAML or JSON text. *)
Definition sample_env (config properties api : pyval) : environment :=
  {| open_read := fun path =>
       if existsb (String.eqb path)
                  ["rules.yaml"; "properties.json"; "api.yaml"; "broken.yaml"; "broken.json"]
       then Ok path else Err (no_such_file path);
     yaml_safe_load := fun text =>
       if String.eqb text "rules.yaml" then Ok config
       else if String.eqb text "api.yaml" then Ok api
       else Err (Exn YAMLError "mapping values are not allowed here");
     json_load := fun text =>
       if String.eqb text "properties.json" then Ok properties
       else Err (Exn JSONDecodeError "Expecting value: line 1 column 1 (char 0)");
     open_write := fun _ => Ok tt;
     yaml_dump := py_str;
     json_text := fun doc => py_str (json_decode doc) |}.

Definition sample_args : Validator.arguments :=
  {| Validator.arg_config := "rules.yaml";
     Validator.arg_properties_file := "properties.json" |}.

Definition record (name value : string) : pyval :=
  VDict [(VStr "name", VStr name); (VStr "value", VStr value)].

(** The fields of a record without a [value]. *)
Definition record_without_value : list (pyval * pyval) := [(VStr "name", VStr "owner")].

(** An API definition with [data.additionalProperties]. *)
Definition api_with (records : list pyval) : list (pyval * pyval) :=
  [(VStr "type", VStr "api");
   (VStr "data", VDict [(VStr "name", VStr "PizzaShack");
                        (VStr "additionalProperties", VList records)])].

Definition extractor_args (output_format : string) : Extractor.arguments :=
  {| Extractor.arg_yaml_file := "api.yaml";
     Extractor.arg_format := output_format;
     Extractor.arg_output := None;
     Extractor.arg_verbose := false |}.

(** ** A writer and a reader of JSON text

    [json.dumps(v, indent=2)] and [json.loads] on text, to have an
    environment in which the text the extractor writes can be read
    back.  Text is UTF-8; floats are not read. *)

Definition backslash : ascii := ascii_of_nat 92.

Definition hex4 (n : N) : string :=
  String (nibble ((n / 4096) mod 16)%N) (String (nibble ((n / 256) mod 16)%N)
    (String (nibble ((n / 16) mod 16)%N) (String (nibble (n mod 16)%N) EmptyString))).

(** The escape of a code point: one [\uXXXX], or a surrogate pair above
    the basic plane. *)
Definition escape_point (n : N) : string :=
  if (n <? 65536)%N then String backslash ("u" ++ hex4 n)
  else
    let m := (n - 65536)%N in
    String backslash ("u" ++ hex4 (55296 + m / 1024)%N
      ++ String backslash ("u" ++ hex4 (56320 + m mod 1024)%N)).

(** The escape of one byte that stands for itself. *)
Definition escape_byte (c : ascii) : string :=
  let n := N_of_ascii c in
  if Ascii.eqb c dquote then String backslash (String dquote EmptyString)
  else if Ascii.eqb c backslash then String backslash (String backslash EmptyString)
  else if (n =? 8)%N then String backslash "b"
  else if (n =? 9)%N then String backslash "t"
  else if (n =? 10)%N then String backslash "n"
  else if (n =? 12)%N then String backslash "f"
  else if (n =? 13)%N then String backslash "r"
  else if ((n <? 32) || (126 <? n))%N then escape_point n
  else String c EmptyString.

(** The payload of a UTF-8 continuation byte. *)
Definition continuation (c : ascii) : option N :=
  let n := N_of_ascii c in
  if ((128 <=? n) && (n <? 192))%N then Some (n - 128)%N else None.

(** The inside of a JSON string as [json.dumps] writes it
    ([ensure_ascii]): the text is read as UTF-8, and every character
    outside the printable ASCII range is escaped. *)
Fixpoint json_escape (s : string) : string :=
  match s with
  | EmptyString => EmptyString
  | String c1 s1 =>
      let n1 := N_of_ascii c1 in
      let one := escape_byte c1 ++ json_escape s1 in
      if (n1 <? 192)%N then one
      else
        match s1 with
        | EmptyString => one
        | String c2 s2 =>
            if (n1 <? 224)%N then
              match continuation c2 with
              | Some n2 => escape_point ((n1 - 192) * 64 + n2)%N ++ json_escape s2
              | None => one
              end
            else
              match s2 with
              | EmptyString => one
              | String c3 s3 =>
                  if (n1 <? 240)%N then
                    match continuation c2, continuation c3 with
                    | Some n2, Some n3 =>
                        escape_point ((n1 - 224) * 4096 + n2 * 64 + n3)%N
                          ++ json_escape s3
                    | _, _ => one
                    end
                  else
                    match s3 with
                    | EmptyString => one
                    | String c4 s4 =>
                        match continuation c2, continuation c3, continuation c4 with
                        | Some n2, Some n3, Some n4 =>
                            escape_point ((n1 - 240) * 262144 + n2 * 4096
                                          + n3 * 64 + n4)%N
                              ++ json_escape s4
                        | _, _, _ => one
                        end
                    end
              end
        end
  end.

Definition json_quote (s : string) : string :=
  String dquote (json_escape s ++ String dquote EmptyString).

Fixpoint spaces (n : nat) : string :=
  match n with
  | O => EmptyString
  | S n' => String " "%char (spaces n')
  end.

(** A new line, indented for nesting depth [level]. *)
Definition indentation (level : nat) : string :=
  String (ascii_of_nat 10) (spaces (2 * level)).

(** [json.dumps(v, indent=2)], from the document of [v]. *)
Fixpoint json_dumps (j : json) (level : nat) {struct j} : string :=
  match j with
  | JNull => "null"
  | JBool b => if b then "true" else "false"
  | JNum n => str_of_Z n
  | JStr s => json_quote s
  | JArr [] => "[]"
  | JArr xs =>
      "[" ++ indentation (S level)
          ++ String.concat ("," ++ indentation (S level))
                           (map (fun x => json_dumps x (S level)) xs)
          ++ indentation level ++ "]"
  | JObj [] => "{}"
  | JObj ms =>
      "{" ++ indentation (S level)
          ++ String.concat ("," ++ indentation (S level))
                           (map (fun m => json_quote (fst m) ++ ": "
                                            ++ json_dumps (snd m) (S level)) ms)
          ++ indentation level ++ "}"
  end.



















(** ** Records of [additionalProperties] *)

(** The [name] and the [value] of a record ([None] stands in where the
    record has none). *)
Definition record_name (r : pyval) : pyval :=
  match r with
  | VDict fields =>
      match dict_get (VStr "name") fields with Some n => n | None => VNone end
  | _ => VNone
  end.

Definition record_value (r : pyval) : pyval :=
  match r with
  | VDict fields =>
      match dict_get (VStr "value") fields with Some v => v | None => VNone end
  | _ => VNone
  end.

(** A record with both keys, whose name can be a dict key. *)
Definition complete (r : pyval) : bool :=
  match r with
  | VDict fields =>
      match dict_get (VStr "name") fields, dict_get (VStr "value") fields with
      | Some n, Some _ => hashable n
      | _, _ => false
      end
  | _ => false
  end.

(** The names in the order in which each is first seen. *)
Definition first_seen (names : list pyval) : list pyval :=
  fold_left (fun seen k => if existsb (py_eqb k) seen then seen else (seen ++ [k])%list)
            names [].

(** No two names are equal. *)
Fixpoint distinct (names : list pyval) : bool :=
  match names with
  | [] => true
  | k :: rest => negb (existsb (py_eqb k) rest) && distinct rest
  end.

(** The value of the last record named [name], if there is one. *)
Definition last_value (name : pyval) (records : list pyval) : option pyval :=
  fold_left (fun found r => if py_eqb name (record_name r)
                            then Some (record_value r) else found)
            records None.

(** Dict keys up to [==]: [True] and [False] are the keys [1] and [0]. *)
Definition key_norm (k : pyval) : pyval :=
  match k with
  | VBool b => VInt (Z.b2z b)
  | _ => k
  end.

(** ** Values that JSON holds as they are *)

Definition is_text (v : pyval) : bool :=
  match v with VStr _ => true | _ => false end.


(** ** Keys in ASCII *)

Definition is_ascii (s : string) : bool :=
  forallb (fun c => (N_of_ascii c <? 128)%N) (list_ascii_of_string s).

(** A PropertySet whose names are ASCII texts. *)
Definition ascii_names (properties : dict pyval) : bool :=
  forallb (fun item => match fst item with VStr s => is_ascii s | _ => false end)
          properties.

(** The text of a name. *)
Definition name_text (k : pyval) : string :=
  match k with VStr s => s | _ => "" end.

(** The lines [key=value], the keys taken from [keys] and the values
    from the PropertySet, in order. *)
Definition assignment_lines (keys : list string) (properties : dict pyval)
  : list string :=
  map (fun line => (fst line ++ "=" ++ py_str (snd (snd line)))%string)
      (combine keys properties).

(** ** States of the scan *)

(** The verdict agrees with the two lists the report counts. *)
Definition consistent (r : Validator.results) : Prop :=
  Validator.overall_valid r = true <->
  Validator.errors r = [] /\ Validator.missing_required r = [].

(** A later state of the scan: an invalid verdict stays invalid and what
    was recorded stays recorded. *)
Definition grows (r r' : Validator.results) : Prop :=
  (Validator.overall_valid r = false -> Validator.overall_valid r' = false) /\
  (forall x, In x (Validator.missing_required r) ->
             In x (Validator.missing_required r')) /\
  (forall x, In x (Validator.unknown_properties r) ->
             In x (Validator.unknown_properties r')) /\
  (forall x, In x (Validator.errors r) -> In x (Validator.errors r')) /\
  (forall k, dict_contains k (Validator.property_results r) = true ->
             dict_contains k (Validator.property_results r') = true).

(** The [valid_values] the messages of a rule show. *)
Definition rule_values (rule : pyval) : pyval :=
  match rule with
  | VDict fields =>
      match dict_get (VStr "valid_values") fields with
      | Some values => values
      | None => VList []
      end
  | _ => VList []
  end.

(** The error lines a property adds to the report: one when its name has
    a rule that does not accept its value. *)
Definition value_errors (rules : list (pyval * pyval)) (item : pyval * pyval)
  : list string :=
  match dict_get (fst item) rules with
  | Some rule =>
      if accepts rule (snd item) then []
      else ["Property '" ++ py_str (fst item) ++ "' has invalid value '"
              ++ py_str (snd item) ++ "'. Valid values are: "
              ++ py_str (rule_values rule)]
  | None => []
  end.

(** A step that returns after printing to standard output only. *)
Definition prints_only {A : Type} (c : M A) : Prop :=
  forall w, exists a lines,
    c w = (Ret a, World (stdout w ++ lines) (stderr w) (written w)).

(** A step that does not leave through [sys.exit]. *)
Definition no_exit {A : Type} (c : M A) : Prop :=
  forall w, match fst (c w) with Exit _ => False | _ => True end.

(** The two lines of the interpreter's report of an exception nobody
    caught. *)
Definition traceback (e : exn) : list string :=
  ["Traceback (most recent call last):";
   class_name (exn_class e) ++ ": " ++ exn_text e].

Definition is_mapping (v : pyval) : bool :=
  match v with VDict _ => true | _ => false end.

(** ** Runs of the extractor *)

(** The extractor's notice of the number of properties, if asked for. *)
Definition counted (args : Extractor.arguments) (properties : dict pyval)
           (w : world) : world :=
  if Extractor.arg_verbose args
  then complained ("Found " ++ str_of_Z (Z.of_nat (List.length properties))
                     ++ " properties") w
  else w.

(** The path [--output] names, when it names one: an empty path counts
    as none. *)
Definition output_path (output_file : option string) : option string :=
  match output_file with
  | Some path => if String.eqb path "" then None else Some path
  | None => None
  end.

(** The world after the content went to the file, with its confirmation
    on standard output, or to standard output itself. *)
Definition delivered (output_file : option string) (content : string) (w : world)
  : world :=
  match output_path output_file with
  | Some path =>
      World (stdout w ++ ["Properties written to: " ++ path]) (stderr w)
            (written w ++ [(path, content)])
  | None => printed content w
  end.

(** * Properties *)

(** ** Keys *)

Lemma py_eqb_refl_hashable (k : pyval) : hashable k = true -> py_eqb k k = true.
Proof.
  destruct k as [| b | n | s | xs | d]; simpl; try discriminate; intros _.
  - reflexivity.
  - now destruct b.
  - apply Z.eqb_refl.
  - apply String.eqb_refl.
Qed.

Lemma py_eqb_sym_hashable (k k' : pyval) :
  hashable k = true -> py_eqb k' k = py_eqb k k'.
Proof.
  destruct k as [| b | n | s | xs | d]; simpl; try discriminate; intros _;
    destruct k' as [| b' | n' | s' | xs' | d']; simpl;
    first [ reflexivity
          | now destruct b, b'
          | apply Z.eqb_sym
          | apply String.eqb_sym
          | now destruct xs'
          | now destruct d' as [| [? ?] ?] ].
Qed.

Lemma dict_contains_get {V : Type} (k : pyval) (d : dict V) (v : V) :
  dict_get k d = Some v -> dict_contains k d = true.
Proof. unfold dict_contains. now intros ->. Qed.

Lemma dict_get_app {V : Type} (k : pyval) (d1 d2 : dict V) :
  dict_get k (d1 ++ d2)%list =
  match dict_get k d1 with Some v => Some v | None => dict_get k d2 end.
Proof.
  induction d1 as [| [k' v'] d1 IH]; simpl; [reflexivity |].
  destruct (py_eqb k k'); [reflexivity | apply IH].
Qed.

(** A key of an item of the dict is found in it. *)
Lemma dict_contains_item {V : Type} (k : pyval) (v : V) (d : dict V) :
  hashable k = true -> In (k, v) d -> dict_contains k d = true.
Proof.
  intros Hk. unfold dict_contains.
  induction d as [| [k' v'] d IH]; simpl; [tauto |].
  intros [Heq | Hin].
  - inversion Heq; subst. now rewrite py_eqb_refl_hashable.
  - destruct (py_eqb k k'); [reflexivity | now apply IH].
Qed.

Lemma dict_get_In {V : Type} (k : pyval) (v : V) (d : dict V) :
  dict_get k d = Some v -> exists k', In (k', v) d /\ py_eqb k k' = true.
Proof.
  induction d as [| [k' v'] d IH]; simpl; [discriminate |].
  destruct (py_eqb k k') eqn:E.
  - intros [= ->]. exists k'. auto.
  - intros H. destruct (IH H) as (k'' & Hin & He). exists k''. auto.
Qed.

(** ** The value check *)

Section ValueCheck.
Import Validator.
Variable self : PropertyValidator.
Variable rules : list (pyval * pyval).
Hypothesis rules_dict : validation_rules self = VDict rules.

Lemma validate_property_known (name value rule values : pyval) (member : bool) :
  hashable name = true ->
  dict_get name rules = Some rule ->
  py_get rule "valid_values" (VList []) = Ok values ->
  py_in value values = Ok member ->
  validate_property self name value =
  Ok (if member then {| valid := true; error := None |}
      else invalid_value name value values).
Proof.
  intros Hh Hget Hvals Hin. unfold validate_property.
  rewrite rules_dict. simpl. rewrite Hh. simpl.
  rewrite (dict_contains_get _ _ Hget). simpl.
  rewrite Hget. simpl. rewrite Hvals. simpl. rewrite Hin. simpl.
  now destruct member.
Qed.

Lemma validate_property_unknown (name value : pyval) :
  hashable name = true ->
  dict_contains name rules = false ->
  validate_property self name value =
  Ok {| valid := false;
        error := Some ("Property '" ++ py_str name
                         ++ "' is not defined in validation rules") |}.
Proof.
  intros Hh Hc. unfold validate_property.
  rewrite rules_dict. simpl. rewrite Hh. simpl. now rewrite Hc.
Qed.

End ValueCheck.

Lemma dict_get_set_same {V : Type} (k : pyval) (v : V) (d : dict V) :
  hashable k = true -> dict_get k (dict_set k v d) = Some v.
Proof.
  intros Hk. induction d as [| [k' v'] d IH]; simpl.
  - now rewrite py_eqb_refl_hashable.
  - destruct (py_eqb k k') eqn:E; simpl; rewrite E; [reflexivity | exact IH].
Qed.

(** C2. A rule that is in the rule mapping and whose [valid_values] is
    missing or the empty list rejects every value: [validate_property]
    answers invalid with a message that names the property, the value and
    the accepted values [[]], and the scan records that answer, appends
    the message to the errors and turns the verdict to invalid. *)
Theorem empty_valid_values_reject_every_value
        (self : Validator.PropertyValidator) (rules rule : list (pyval * pyval))
        (name value : pyval) (r : Validator.results) :
  Validator.validation_rules self = VDict rules ->
  hashable name = true ->
  dict_get name rules = Some (VDict rule) ->
  dict_get (VStr "valid_values") rule = None \/
  dict_get (VStr "valid_values") rule = Some (VList []) ->
  let message := "Property '" ++ py_str name ++ "' has invalid value '"
                   ++ py_str value ++ "'. Valid values are: []" in
  Validator.validate_property self name value =
    Ok {| Validator.valid := false; Validator.error := Some message |} /\
  exists r',
    Validator.check_provided self (name, value) r = Ok r' /\
    Validator.overall_valid r' = false /\
    Validator.errors r' = (Validator.errors r ++ [message])%list /\
    dict_get name (Validator.property_results r') =
      Some {| Validator.valid := false; Validator.error := Some message |}.
Proof.
  intros Hrules Hh Hget Hvals message.
  assert (Hvp : Validator.validate_property self name value =
                Ok (invalid_value name value (VList []))).
  { apply (validate_property_known self Hrules name value (member := false) Hh Hget).
    - simpl. destruct Hvals as [-> | ->]; reflexivity.
    - reflexivity. }
  split; [exact Hvp |].
  unfold Validator.check_provided.
  rewrite Hrules. simpl. rewrite Hh. simpl.
  rewrite (dict_contains_get _ _ Hget). simpl.
  rewrite Hvp. simpl.
  eexists. split; [reflexivity |]. simpl.
  repeat split. now apply dict_get_set_same.
Qed.

Lemma empty_valid_values_reject_every_value_witness :
  let self := {| Validator.config := VNone;
                 Validator.validation_rules :=
                   VDict [(VStr "env", VDict [(VStr "required", VBool true)])] |} in
  Validator.validate_property self (VStr "env") (VStr "dev") =
    Ok {| Validator.valid := false;
          Validator.error :=
            Some "Property 'env' has invalid value 'dev'. Valid values are: []" |}.
Proof.
  intro self.
  apply (empty_valid_values_reject_every_value
           self (rules := [(VStr "env", VDict [(VStr "required", VBool true)])])
           (rule := [(VStr "required", VBool true)])
           (VStr "env") (VStr "dev") Validator.initial_results);
    [reflexivity | reflexivity | reflexivity | left; reflexivity].
Defined.

(** ** Loops *)

Lemma for_each_app {A S : Type} (xs ys : list A) (body : A -> S -> res S) (s : S) :
  for_each (xs ++ ys)%list body s = rbind (for_each xs body s) (for_each ys body).
Proof.
  revert s. induction xs as [| x xs IH]; intros s; simpl; [reflexivity |].
  destruct (body x s); simpl; [apply IH | reflexivity].
Qed.

Lemma for_each_ext {A S : Type} (xs : list A) (f g : A -> S -> res S) (s : S) :
  (forall x s', In x xs -> f x s' = g x s') ->
  for_each xs f s = for_each xs g s.
Proof.
  revert s. induction xs as [| x xs IH]; intros s H; simpl; [reflexivity |].
  rewrite (H x s (or_introl eq_refl)).
  destruct (g x s); simpl; [| reflexivity].
  apply IH. intros y s' Hy. apply H. now right.
Qed.

(** ** Unknown properties *)

Lemma dict_contains_false_item {V : Type} (k k' : pyval) (v : V) (d : dict V) :
  dict_contains k d = false -> In (k', v) d -> py_eqb k k' = false.
Proof.
  unfold dict_contains. induction d as [| [k0 v0] d IH]; simpl; [tauto |].
  destruct (py_eqb k k0) eqn:E; [discriminate |].
  intros Hd [Heq | Hin].
  - inversion Heq; subst. exact E.
  - now apply IH.
Qed.

Lemma dict_contains_skip {V : Type} (n k : pyval) (v : V) (d1 d2 : dict V) :
  py_eqb n k = false ->
  dict_contains n (d1 ++ (k, v) :: d2)%list = dict_contains n (d1 ++ d2)%list.
Proof.
  intros Hne. unfold dict_contains. rewrite !dict_get_app. simpl. now rewrite Hne.
Qed.

Section UnknownProperty.
Import Validator.
Variable self : PropertyValidator.
Variable rules : list (pyval * pyval).
Hypothesis rules_dict : validation_rules self = VDict rules.
Variables k v : pyval.
Hypothesis k_hashable : hashable k = true.
Hypothesis k_unknown : dict_contains k rules = false.

(** The scan of the unknown property itself: only the list of unknown
    properties changes. *)
Lemma check_provided_unknown (r : results) :
  check_provided self (k, v) r =
  Ok {| overall_valid := overall_valid r;
        property_results := property_results r;
        missing_required := missing_required r;
        errors := errors r;
        unknown_properties := (unknown_properties r ++ [k])%list |}.
Proof.
  unfold check_provided. rewrite rules_dict. simpl.
  rewrite k_hashable. simpl. now rewrite k_unknown.
Qed.

(** The first loop does not see the unknown property. *)
Lemma check_required_skip (p1 p2 : dict pyval) (r : results) :
  for_each rules (check_required (p1 ++ (k, v) :: p2)%list) r =
  for_each rules (check_required (p1 ++ p2)%list) r.
Proof.
  apply for_each_ext. intros [n rule] s Hin. unfold check_required.
  destruct (py_get rule "required" (VBool false)) as [req | e]; simpl; [| reflexivity].
  destruct (truthy req); [| reflexivity].
  destruct (hashable n); [| reflexivity].
  rewrite (@dict_contains_skip pyval n k v p1 p2); [reflexivity |].
  rewrite py_eqb_sym_hashable by exact k_hashable.
  exact (dict_contains_false_item k n rule rules k_unknown Hin).
Qed.

Lemma check_provided_same_verdict (item : pyval * pyval) (r r0 r' : results) :
  same_verdict r r0 ->
  check_provided self item r = Ok r' ->
  exists r0', check_provided self item r0 = Ok r0' /\ same_verdict r' r0' /\
              forall x, In x (unknown_properties r0) -> In x (unknown_properties r0').
Proof.
  intros (Ho & Hp & Hm & He). destruct item as [n x]. unfold check_provided.
  destruct (py_in n (validation_rules self)) as [known | e]; simpl; [| discriminate].
  destruct known; simpl.
  - destruct (validate_property self n x) as [vr | e]; simpl; [| discriminate].
    destruct (valid vr); simpl.
    + intros [= <-]. eexists. split; [reflexivity |]. simpl.
      rewrite Ho, Hp, Hm, He. unfold same_verdict; simpl. auto.
    + destruct (error vr); [| discriminate].
      intros [= <-]. eexists. split; [reflexivity |]. simpl.
      rewrite Hp, Hm, He. unfold same_verdict; simpl. auto.
  - intros [= <-]. eexists. split; [reflexivity |]. simpl.
    unfold same_verdict; simpl. repeat split; auto.
    intros y Hy. apply in_or_app. now left.
Qed.

Lemma scan_same_verdict (props : dict pyval) (r r0 r' : results) :
  same_verdict r r0 ->
  for_each props (check_provided self) r = Ok r' ->
  exists r0', for_each props (check_provided self) r0 = Ok r0' /\ same_verdict r' r0' /\
              forall x, In x (unknown_properties r0) -> In x (unknown_properties r0').
Proof.
  revert r r0. induction props as [| item props IH]; intros r r0 Hs; simpl.
  - intros [= <-]. exists r0. auto.
  - destruct (check_provided self item r) as [r1 | e] eqn:E; simpl; [| discriminate].
    intros Hrest.
    destruct (check_provided_same_verdict item Hs E) as (r1' & E' & Hs' & Hsub).
    rewrite E'. simpl.
    destruct (IH r1 r1' Hs' Hrest) as (r0' & E0 & Hs0 & Hsub0).
    exists r0'. auto.
Qed.

End UnknownProperty.

(** C6. A property of the PropertySet that has no entry in the rule
    mapping is listed among the unknown properties, gets no value check
    (no result and no error is recorded for it), and leaves the verdict
    what it is without the property. *)
Theorem unknown_property_never_flips_verdict
        (self : Validator.PropertyValidator) (rules : list (pyval * pyval))
        (k v : pyval) (p1 p2 : dict pyval) (r : Validator.results) :
  Validator.validation_rules self = VDict rules ->
  hashable k = true ->
  dict_contains k rules = false ->
  Validator.validate_all_properties self (p1 ++ p2)%list = Ok r ->
  exists r',
    Validator.validate_all_properties self (p1 ++ (k, v) :: p2)%list = Ok r' /\
    In k (Validator.unknown_properties r') /\
    Validator.overall_valid r' = Validator.overall_valid r /\
    Validator.property_results r' = Validator.property_results r /\
    Validator.errors r' = Validator.errors r /\
    Validator.missing_required r' = Validator.missing_required r.
Proof.
  intros Hrules Hk Hunknown. unfold Validator.validate_all_properties.
  rewrite Hrules. simpl.
  rewrite (@check_required_skip rules k v Hk Hunknown).
  destruct (for_each rules (Validator.check_required (p1 ++ p2)%list)
                     Validator.initial_results) as [r1 | e]; simpl; [| discriminate].
  rewrite !for_each_app.
  destruct (for_each p1 (Validator.check_provided self) r1) as [ra | e];
    cbn [rbind for_each]; [| discriminate].
  rewrite (@check_provided_unknown self rules Hrules k v Hk Hunknown).
  cbn [rbind]. intros Hrest.
  set (ra' := {| Validator.overall_valid := Validator.overall_valid ra;
                 Validator.property_results := Validator.property_results ra;
                 Validator.missing_required := Validator.missing_required ra;
                 Validator.errors := Validator.errors ra;
                 Validator.unknown_properties :=
                   (Validator.unknown_properties ra ++ [k])%list |}).
  assert (Hs : same_verdict ra ra') by (unfold same_verdict; simpl; auto).
  destruct (@scan_same_verdict self p2 ra ra' r Hs Hrest)
    as (r' & E & (Ho & Hp & Hm & He) & Hsub).
  exists r'. repeat split; auto.
  apply Hsub. simpl. apply in_or_app. right. now left.
Qed.

Lemma unknown_property_never_flips_verdict_witness :
  let self := {| Validator.config := VNone;
                 Validator.validation_rules :=
                   VDict [(VStr "env",
                           VDict [(VStr "required", VBool true);
                                  (VStr "valid_values", VList [VStr "dev"; VStr "prod"])])] |} in
  exists r',
    Validator.validate_all_properties
      self [(VStr "env", VStr "prod"); (VStr "extra", VStr "x")] = Ok r' /\
    In (VStr "extra") (Validator.unknown_properties r') /\
    Validator.overall_valid r' = true.
Proof.
  intro self.
  destruct (@unknown_property_never_flips_verdict
              self
              [(VStr "env",
                VDict [(VStr "required", VBool true);
                       (VStr "valid_values", VList [VStr "dev"; VStr "prod"])])]
              (VStr "extra") (VStr "x") [(VStr "env", VStr "prod")] [] _
              eq_refl eq_refl eq_refl eq_refl)
    as (r' & E & Hin & Ho & _).
  exists r'. repeat split; assumption.
Defined.

(** ** Steps that return *)

Lemma returns_ret {A : Type} (a : A) : returns (ret a).
Proof. intros w. exists a, w. reflexivity. Qed.

Lemma returns_bind {A B : Type} (c : M A) (f : A -> M B) :
  returns c -> (forall a, returns (f a)) -> returns (bind c f).
Proof.
  intros Hc Hf w. destruct (Hc w) as (a & w' & E).
  unfold bind. rewrite E. apply Hf.
Qed.

Lemma returns_print (line : string) : returns (print line).
Proof. intros w. eexists. eexists. reflexivity. Qed.

Lemma returns_lift {A : Type} (c : res A) (a : A) : c = Ok a -> returns (lift c).
Proof. intros -> w. exists a, w. reflexivity. Qed.

Lemma returns_bind_lift {A B : Type} (c : res A) (a : A) (f : A -> M B) :
  c = Ok a -> returns (f a) -> returns (bind (lift c) f).
Proof. intros -> Hf w. unfold bind, lift. apply Hf. Qed.

Lemma returns_when (b : bool) (c : M unit) : returns c -> returns (when b c).
Proof. destruct b; simpl; [auto | intros _; apply returns_ret]. Qed.

Lemma returns_for_each_M {A : Type} (xs : list A) (body : A -> M unit) :
  (forall x, In x xs -> returns (body x)) -> returns (for_each_M xs body).
Proof.
  induction xs as [| x xs IH]; intros H; simpl.
  - apply returns_ret.
  - apply returns_bind.
    + apply H. now left.
    + intros _. apply IH. intros y Hy. apply H. now right.
Qed.

Create HintDb returns.
#[local] Hint Resolve returns_ret returns_print returns_when : returns.

Lemma bind_Ret {A B : Type} (c : M A) (f : A -> M B) (w w' : world) (a : A) :
  c w = (Ret a, w') -> bind c f w = f a w'.
Proof. intros E. unfold bind. now rewrite E. Qed.
Arguments bind_Ret {A B} c f {w w' a} _.

(** ** The scan under a well-formed rule mapping *)

Lemma rule_mapping_In (rules : list (pyval * pyval)) (name rule : pyval) :
  rule_mapping rules = true -> In (name, rule) rules ->
  hashable name = true /\ rule_schema rule = true.
Proof.
  unfold rule_mapping. rewrite forallb_forall. intros H Hin.
  apply andb_prop. exact (H _ Hin).
Qed.

Lemma rule_mapping_get (rules : list (pyval * pyval)) (name rule : pyval) :
  rule_mapping rules = true -> dict_get name rules = Some rule ->
  rule_schema rule = true.
Proof.
  intros H Hget. destruct (dict_get_In _ _ Hget) as (k' & Hin & _).
  exact (proj2 (rule_mapping_In _ _ _ H Hin)).
Qed.

Lemma rule_schema_required (rule : pyval) :
  rule_schema rule = true ->
  exists req, py_get rule "required" (VBool false) = Ok req /\ truthy req = required rule.
Proof.
  destruct rule as [| | | | | fields]; simpl; try discriminate.
  intros H. apply andb_prop in H. destruct H as [H _].
  destruct (dict_get (VStr "required") fields) as [[| b | | | |] |];
    try discriminate; eexists; split; reflexivity.
Qed.

Lemma rule_schema_valid_values (rule value : pyval) :
  rule_schema rule = true ->
  exists values, py_get rule "valid_values" (VList []) = Ok values /\
                 py_in value values = Ok (accepts rule value).
Proof.
  destruct rule as [| | | | | fields]; simpl; try discriminate.
  intros H. apply andb_prop in H. destruct H as [_ H].
  destruct (dict_get (VStr "valid_values") fields) as [[| | | | values |] |];
    try discriminate; eexists; split; reflexivity.
Qed.

Section WellFormedScan.
Import Validator.
Variable self : PropertyValidator.
Variable rules : list (pyval * pyval).
Hypothesis rules_dict : validation_rules self = VDict rules.
Hypothesis rules_ok : rule_mapping rules = true.

Lemma check_required_step (properties : dict pyval) (item : pyval * pyval)
      (r : results) :
  In item rules ->
  exists r',
    check_required properties item r = Ok r' /\
    overall_valid r' = overall_valid r && satisfied properties item /\
    property_results r' = property_results r /\
    errors r' = errors r /\
    unknown_properties r' = unknown_properties r /\
    (forall x, In x (missing_required r') -> In x (missing_required r) \/ x = fst item).
Proof.
  destruct item as [name rule]. intros Hin.
  destruct (rule_mapping_In _ _ _ rules_ok Hin) as [Hh Hs].
  destruct (rule_schema_required _ Hs) as (req & Hreq & Ht).
  unfold check_required, satisfied. rewrite Hreq. cbn [rbind fst snd].
  rewrite Ht. destruct (required rule); cbn [negb orb].
  - cbn [py_in]. rewrite Hh. cbn [rbind].
    destruct (dict_contains name properties); cbn [negb].
    + exists r. rewrite andb_true_r. auto 10.
    + eexists. split; [reflexivity |]. cbn. rewrite andb_false_r.
      repeat split; auto. intros x Hx. apply in_app_or in Hx.
      destruct Hx as [Hx | [Hx | []]]; auto.
  - exists r. rewrite andb_true_r. auto 10.
Qed.

Lemma check_required_loop (properties : dict pyval) (items : list (pyval * pyval))
      (r : results) :
  (forall item, In item items -> In item rules) ->
  exists r',
    for_each items (check_required properties) r = Ok r' /\
    overall_valid r' = overall_valid r && forallb (satisfied properties) items /\
    property_results r' = property_results r /\
    errors r' = errors r /\
    unknown_properties r' = unknown_properties r /\
    (forall x, In x (missing_required r') ->
               In x (missing_required r) \/ exists rule, In (x, rule) items).
Proof.
  revert r. induction items as [| item items IH]; intros r Hsub.
  - exists r. cbn. rewrite andb_true_r. auto 10.
  - destruct (check_required_step properties item r (Hsub _ (or_introl eq_refl)))
      as (r1 & E1 & Ho1 & Hp1 & He1 & Hu1 & Hm1).
    destruct (IH r1 (fun i Hi => Hsub i (or_intror Hi)))
      as (r' & E & Ho & Hp & He & Hu & Hm).
    exists r'. cbn [for_each]. rewrite E1. cbn [rbind].
    split; [exact E |].
    cbn [forallb]. rewrite Ho, Ho1, Hp, Hp1, He, He1, Hu, Hu1, andb_assoc.
    repeat split; auto.
    intros x Hx. destruct (Hm x Hx) as [Hx1 | (rule & Hin)].
    + destruct (Hm1 x Hx1) as [? | ->]; auto.
      right. exists (snd item). left. now destruct item.
    + right. exists rule. now right.
Qed.

Lemma check_provided_step (item : pyval * pyval) (r : results) :
  hashable (fst item) = true ->
  exists r',
    check_provided self item r = Ok r' /\
    overall_valid r' = overall_valid r && passes rules item /\
    missing_required r' = missing_required r /\
    (forall x, In x (unknown_properties r') ->
               In x (unknown_properties r) \/ x = fst item).
Proof.
  destruct item as [name value]. cbn [fst]. intros Hh.
  unfold check_provided, passes. cbn [fst snd].
  rewrite rules_dict. cbn [py_in]. rewrite Hh. cbn [rbind].
  unfold dict_contains.
  destruct (dict_get name rules) as [rule |] eqn:Hget; cbn [negb].
  - destruct (rule_schema_valid_values rule value (rule_mapping_get _ _ rules_ok Hget))
      as (values & Hvals & Hmem).
    rewrite (validate_property_known self rules_dict name value Hh Hget Hvals Hmem).
    cbn [rbind]. destruct (accepts rule value); cbn.
    + eexists. split; [reflexivity |]. cbn. rewrite andb_true_r. auto.
    + eexists. split; [reflexivity |]. cbn. rewrite andb_false_r. auto.
  - eexists. split; [reflexivity |]. cbn. rewrite andb_true_r.
    repeat split; auto. intros x Hx. apply in_app_or in Hx.
    destruct Hx as [Hx | [Hx | []]]; auto.
Qed.

Lemma check_provided_loop (properties : dict pyval) (r : results) :
  property_set properties = true ->
  exists r',
    for_each properties (check_provided self) r = Ok r' /\
    overall_valid r' = overall_valid r && forallb (passes rules) properties /\
    missing_required r' = missing_required r /\
    (forall x, In x (unknown_properties r') ->
               In x (unknown_properties r) \/ exists v, In (x, v) properties).
Proof.
  revert r. induction properties as [| item properties IH]; intros r Hps.
  - exists r. cbn. rewrite andb_true_r. auto.
  - cbn in Hps. apply andb_prop in Hps. destruct Hps as [Hh Hps].
    destruct (check_provided_step item r Hh) as (r1 & E1 & Ho1 & Hm1 & Hu1).
    destruct (IH r1 Hps) as (r' & E & Ho & Hm & Hu).
    exists r'. cbn [for_each]. rewrite E1. cbn [rbind].
    split; [exact E |].
    cbn [forallb]. rewrite Ho, Ho1, Hm, Hm1, andb_assoc.
    repeat split; auto.
    intros x Hx. destruct (Hu x Hx) as [Hx1 | (v & Hin)].
    + destruct (Hu1 x Hx1) as [? | ->]; auto.
      right. exists (snd item). left. now destruct item.
    + right. exists v. now right.
Qed.

End WellFormedScan.

(** ** The report and the exit status *)

Section Report.
Import Validator.
Variable self : PropertyValidator.
Variable rules : list (pyval * pyval).
Hypothesis rules_dict : validation_rules self = VDict rules.
Hypothesis rules_ok : rule_mapping rules = true.
Variable properties : dict pyval.
Hypothesis properties_ok : property_set properties = true.

Lemma property_set_In (name value : pyval) :
  In (name, value) properties -> hashable name = true.
Proof.
  revert properties_ok. unfold property_set. rewrite forallb_forall.
  intros H Hin. exact (H _ Hin).
Qed.

(** The report is printed to its end when the names it looks up are
    names of the PropertySet and of the rule mapping. *)
Lemma print_github_actions_output_returns (r : results) :
  (forall x, In x (unknown_properties r) -> exists v, In (x, v) properties) ->
  (forall x, In x (missing_required r) -> exists rule, In (x, rule) rules) ->
  returns (print_github_actions_output self r properties).
Proof.
  intros Hu Hm. unfold print_github_actions_output.
  repeat (apply returns_bind; [| intros _]); auto with returns.
  - destruct (overall_valid r); apply returns_print.
  - apply returns_for_each_M. auto with returns.
  - apply returns_when. apply returns_bind; [apply returns_print | intros _].
    apply returns_for_each_M. auto with returns.
  - apply returns_when. apply returns_for_each_M. intros x Hx.
    destruct (Hu x Hx) as (v & Hin).
    pose proof (property_set_In _ _ Hin) as Hh.
    pose proof (dict_contains_item _ _ _ Hh Hin) as Hc. unfold dict_contains in Hc.
    destruct (dict_get x properties) as [v' |] eqn:Hget; [| discriminate].
    apply returns_bind_lift with (a := v'); [| apply returns_print].
    cbn. now rewrite Hh, Hget.
  - apply returns_for_each_M. intros x Hx.
    destruct (Hm x Hx) as (rule & Hin).
    destruct (rule_mapping_In _ _ _ rules_ok Hin) as [Hh _].
    pose proof (dict_contains_item _ _ _ Hh Hin) as Hc. unfold dict_contains in Hc.
    destruct (dict_get x rules) as [rule' |] eqn:Hget; [| discriminate].
    destruct (rule_schema_valid_values rule' VNone (rule_mapping_get _ _ rules_ok Hget))
      as (values & Hvals & _).
    apply returns_bind_lift with (a := rule').
    + rewrite rules_dict. cbn. now rewrite Hh, Hget.
    + apply returns_bind_lift with (a := values); [exact Hvals | apply returns_print].
  - apply returns_for_each_M. auto with returns.
  - destruct (overall_valid r); apply returns_print.
Qed.

End Report.

Lemma validate_all_properties_scan
      (self : Validator.PropertyValidator) (rules : list (pyval * pyval))
      (properties : dict pyval) :
  Validator.validation_rules self = VDict rules ->
  rule_mapping rules = true ->
  property_set properties = true ->
  exists r,
    Validator.validate_all_properties self properties = Ok r /\
    Validator.overall_valid r =
      forallb (satisfied properties) rules && forallb (passes rules) properties /\
    (forall x, In x (Validator.unknown_properties r) ->
               exists v, In (x, v) properties) /\
    (forall x, In x (Validator.missing_required r) ->
               exists rule, In (x, rule) rules).
Proof.
  intros Hrules Hok Hps. unfold Validator.validate_all_properties.
  rewrite Hrules. cbn [py_items rbind].
  destruct (@check_required_loop rules Hok properties rules
                                 Validator.initial_results (fun _ H => H))
    as (r1 & E1 & Ho1 & _ & _ & Hu1 & Hm1).
  destruct (@check_provided_loop self rules Hrules Hok properties r1 Hps)
    as (r & E & Ho & Hm & Hu).
  exists r. rewrite E1. cbn [rbind]. split; [exact E |].
  rewrite Ho, Ho1. cbn [Validator.overall_valid Validator.initial_results andb].
  split; [reflexivity |]. split.
  - intros x Hx. destruct (Hu x Hx) as [Hx1 | ?]; [| assumption].
    rewrite Hu1 in Hx1. destruct Hx1.
  - intros x Hx. rewrite Hm in Hx. destruct (Hm1 x Hx) as [[] | ?]. assumption.
Qed.

Lemma init_loaded (env : environment) (config_file text : string)
      (cfg : list (pyval * pyval)) (w : world) :
  open_read env config_file = Ok text ->
  yaml_safe_load env text = Ok (VDict cfg) ->
  Validator.init env config_file w =
  (Ret {| Validator.config := VDict cfg;
          Validator.validation_rules :=
            match dict_get (VStr "validation_rules") cfg with
            | Some v => v
            | None => VDict []
            end |}, w).
Proof.
  intros Hopen Hload.
  unfold Validator.init, Validator._load_config, try_except, bind, lift.
  rewrite Hopen, Hload. reflexivity.
Qed.

Lemma load_properties_loaded (env : environment) (json_file text : string)
      (data : pyval) (w : world) :
  open_read env json_file = Ok text ->
  json_load env text = Ok data ->
  Validator.load_properties_from_json env json_file w =
  (Ret (match data with VDict d => d | _ => [] end), w).
Proof.
  intros Hopen Hload.
  unfold Validator.load_properties_from_json, try_except, bind, lift.
  rewrite Hopen, Hload. now destruct data.
Qed.

(** Once both files are loaded and the scan and the report run to their
    end, the process leaves with 0 for a valid verdict and 1 otherwise. *)
Lemma main_exit_status (env : environment) (args : Validator.arguments)
      (cfg_text props_text : string) (cfg : list (pyval * pyval)) (data : pyval)
      (r : Validator.results) :
  let self := {| Validator.config := VDict cfg;
                 Validator.validation_rules :=
                   match dict_get (VStr "validation_rules") cfg with
                   | Some v => v
                   | None => VDict []
                   end |} in
  let properties := match data with VDict d => d | _ => [] end in
  open_read env (Validator.arg_config args) = Ok cfg_text ->
  yaml_safe_load env cfg_text = Ok (VDict cfg) ->
  open_read env (Validator.arg_properties_file args) = Ok props_text ->
  json_load env props_text = Ok data ->
  Validator.validate_all_properties self properties = Ok r ->
  returns (Validator.print_github_actions_output self r properties) ->
  forall w, exists w',
    Validator.main env args w =
    (Exit (if Validator.overall_valid r then 0 else 1), w').
Proof.
  intros self properties Hco Hcl Hpo Hpl Hscan Hprint w.
  unfold Validator.main.
  rewrite (bind_Ret _ _ (@init_loaded env _ _ _ w Hco Hcl)).
  rewrite (bind_Ret _ _ (@load_properties_loaded env _ _ _ w Hpo Hpl)).
  fold self. fold properties.
  assert (Hwarn : returns (when (negb (truthy (VDict properties)))
                             (print "::warning::No properties found in input file")))
    by auto with returns.
  destruct (Hwarn w) as ([] & w1 & E1). rewrite (bind_Ret _ _ E1).
  unfold bind at 1. unfold lift. rewrite Hscan.
  destruct (Hprint w1) as ([] & w2 & E2). rewrite (bind_Ret _ _ E2).
  eexists. reflexivity.
Qed.

Lemma scan_verdict_iff (rules : list (pyval * pyval)) (properties : dict pyval) :
  forallb (satisfied properties) rules && forallb (passes rules) properties = true <->
  (forall name rule,
      In (name, rule) rules -> required rule = true ->
      dict_contains name properties = true) /\
  (forall name value rule,
      In (name, value) properties -> dict_get name rules = Some rule ->
      accepts rule value = true).
Proof.
  rewrite andb_true_iff, !forallb_forall. unfold satisfied, passes. split.
  - intros [Hreq Hval]. split.
    + intros name rule Hin Hr. specialize (Hreq _ Hin). cbn in Hreq.
      rewrite Hr in Hreq. exact Hreq.
    + intros name value rule Hin Hget. specialize (Hval _ Hin). cbn in Hval.
      now rewrite Hget in Hval.
  - intros [Hreq Hval]. split.
    + intros [name rule] Hin. cbn.
      destruct (required rule) eqn:Hr; [| reflexivity]. cbn. eauto.
    + intros [name value] Hin. cbn.
      destruct (dict_get name rules) as [rule |] eqn:Hget; [| reflexivity]. eauto.
Qed.

(** C1. With a rule mapping (the [validation_rules] of the rule document,
    or the empty mapping when it has none) and a PropertySet loaded, the
    scan ends with a verdict; the verdict is valid exactly when every rule with
    [required: true] names a property of the PropertySet and every
    property that has a rule carries a value among the rule's
    [valid_values]; and the process leaves with status 0 when the verdict
    is valid and with status 1 when it is not. *)
Theorem verdict_and_exit_status
        (env : environment) (args : Validator.arguments)
        (cfg_text props_text : string)
        (cfg rules : list (pyval * pyval)) (properties : dict pyval) :
  open_read env (Validator.arg_config args) = Ok cfg_text ->
  yaml_safe_load env cfg_text = Ok (VDict cfg) ->
  py_get (VDict cfg) "validation_rules" (VDict []) = Ok (VDict rules) ->
  rule_mapping rules = true ->
  open_read env (Validator.arg_properties_file args) = Ok props_text ->
  json_load env props_text = Ok (VDict properties) ->
  property_set properties = true ->
  exists r,
    Validator.validate_all_properties
      {| Validator.config := VDict cfg;
         Validator.validation_rules := VDict rules |} properties = Ok r /\
    (Validator.overall_valid r = true <->
     (forall name rule,
         In (name, rule) rules -> required rule = true ->
         dict_contains name properties = true) /\
     (forall name value rule,
         In (name, value) properties -> dict_get name rules = Some rule ->
         accepts rule value = true)) /\
    forall w,
      fst (run (Validator.main env args) w) =
      if Validator.overall_valid r then 0 else 1.
Proof.
  intros Hco Hcl Hrules Hok Hpo Hpl Hps.
  set (self := {| Validator.config := VDict cfg;
                  Validator.validation_rules := VDict rules |}).
  destruct (@validate_all_properties_scan self rules properties eq_refl Hok Hps)
    as (r & Hscan & Hverdict & Hu & Hm).
  exists r. split; [exact Hscan |]. split.
  - rewrite Hverdict. apply scan_verdict_iff.
  - intros w.
    pose proof (@main_exit_status env args cfg_text props_text cfg
                                  (VDict properties) r Hco Hcl Hpo Hpl) as Hmain.
    cbv zeta in Hmain. cbn [py_get] in Hrules. injection Hrules as Hrules.
    rewrite Hrules in Hmain.
    destruct (Hmain Hscan
                (@print_github_actions_output_returns
                   self rules eq_refl Hok properties Hps r Hu Hm) w) as (w' & E).
    unfold run. rewrite E. reflexivity.
Qed.

Lemma verdict_and_exit_status_witness :
  exists r,
    Validator.validate_all_properties
      {| Validator.config := sample_config;
         Validator.validation_rules := VDict sample_rules |}
      [(VStr "env", VStr "staging")] = Ok r /\
    (Validator.overall_valid r = true <->
     (forall name rule,
         In (name, rule) sample_rules -> required rule = true ->
         dict_contains name [(VStr "env", VStr "staging")] = true) /\
     (forall name value rule,
         In (name, value) [(VStr "env", VStr "staging")] ->
         dict_get name sample_rules = Some rule ->
         accepts rule value = true)) /\
    forall w,
      fst (run (Validator.main
                  (sample_env sample_config (VDict [(VStr "env", VStr "staging")]) VNone)
                  sample_args) w) =
      if Validator.overall_valid r then 0 else 1.
Proof.
  apply (@verdict_and_exit_status
           (sample_env sample_config (VDict [(VStr "env", VStr "staging")]) VNone)
           sample_args "rules.yaml" "properties.json");
    reflexivity.
Defined.

(** ** A rule document without [validation_rules] *)

Lemma scan_without_rules (self : Validator.PropertyValidator)
      (properties : dict pyval) (r : Validator.results) :
  Validator.validation_rules self = VDict [] ->
  property_set properties = true ->
  for_each properties (Validator.check_provided self) r =
  Ok {| Validator.overall_valid := Validator.overall_valid r;
        Validator.property_results := Validator.property_results r;
        Validator.missing_required := Validator.missing_required r;
        Validator.errors := Validator.errors r;
        Validator.unknown_properties :=
          (Validator.unknown_properties r ++ dict_keys properties)%list |}.
Proof.
  intros Hrules. revert r.
  induction properties as [| [k v] properties IH]; intros r Hps; cbn [for_each].
  - cbn. rewrite app_nil_r. now destruct r.
  - cbn in Hps. apply andb_prop in Hps. destruct Hps as [Hk Hps].
    rewrite (@check_provided_unknown self [] Hrules k v Hk eq_refl). cbn [rbind].
    rewrite (IH _ Hps). cbn. now rewrite <- app_assoc.
Qed.

(** C9. A rule document that loads as a mapping without the key
    [validation_rules] does not stop the validator: it goes on with an
    empty rule mapping, nothing is missing, every property of the
    PropertySet is reported as unknown, the verdict is valid and the
    process leaves with status 0. *)
Theorem missing_validation_rules_key
        (env : environment) (args : Validator.arguments)
        (cfg_text props_text : string)
        (cfg : list (pyval * pyval)) (properties : dict pyval) :
  open_read env (Validator.arg_config args) = Ok cfg_text ->
  yaml_safe_load env cfg_text = Ok (VDict cfg) ->
  dict_get (VStr "validation_rules") cfg = None ->
  open_read env (Validator.arg_properties_file args) = Ok props_text ->
  json_load env props_text = Ok (VDict properties) ->
  property_set properties = true ->
  let self := {| Validator.config := VDict cfg;
                 Validator.validation_rules := VDict [] |} in
  (forall w, Validator.init env (Validator.arg_config args) w = (Ret self, w)) /\
  Validator.validate_all_properties self properties =
    Ok {| Validator.overall_valid := true;
          Validator.property_results := [];
          Validator.missing_required := [];
          Validator.errors := [];
          Validator.unknown_properties := dict_keys properties |} /\
  forall w, fst (run (Validator.main env args) w) = 0.
Proof.
  intros Hco Hcl Hnone Hpo Hpl Hps self.
  assert (Hscan : Validator.validate_all_properties self properties =
                  Ok {| Validator.overall_valid := true;
                        Validator.property_results := [];
                        Validator.missing_required := [];
                        Validator.errors := [];
                        Validator.unknown_properties := dict_keys properties |}).
  { unfold Validator.validate_all_properties. cbn [self Validator.validation_rules
      py_items rbind for_each].
    now rewrite (@scan_without_rules self properties Validator.initial_results
                                     eq_refl Hps). }
  split; [| split; [exact Hscan |]].
  - intros w. rewrite (@init_loaded env _ _ _ w Hco Hcl). now rewrite Hnone.
  - intros w.
    pose proof (fun r => @main_exit_status env args cfg_text props_text cfg
                                           (VDict properties) r Hco Hcl Hpo Hpl)
      as Hmain.
    cbv zeta in Hmain. rewrite Hnone in Hmain. fold self in Hmain.
    destruct (Hmain _ Hscan) with (w := w) as (w' & E).
    + apply (@print_github_actions_output_returns self [] eq_refl eq_refl
                                                   properties Hps).
      * cbn. intros x Hx. unfold dict_keys in Hx. apply in_map_iff in Hx.
        destruct Hx as ([k v] & <- & Hin). now exists v.
      * intros x [].
    + unfold run. rewrite E. reflexivity.
Qed.

Lemma missing_validation_rules_key_witness :
  fst (run (Validator.main
              (sample_env (VDict [(VStr "version", VInt 1)])
                          (VDict [(VStr "env", VStr "staging")]) VNone)
              sample_args) fresh_world) = 0.
Proof.
  apply (@missing_validation_rules_key
           (sample_env (VDict [(VStr "version", VInt 1)])
                       (VDict [(VStr "env", VStr "staging")]) VNone)
           sample_args "rules.yaml" "properties.json"
           [(VStr "version", VInt 1)] [(VStr "env", VStr "staging")]
           eq_refl eq_refl eq_refl eq_refl eq_refl eq_refl).
Defined.

(** ** Fatal load failures *)

Lemma exn_is_class (k : exn_kind) (e : exn) : exn_class e = k -> exn_is k e = true.
Proof. intros <-. unfold exn_is. now destruct (exn_class e). Qed.
Arguments exn_is_class {k e} _.

Lemma extractor_run (env : environment) (args : Extractor.arguments) (w : world)
      (code : Z) (w' : world) :
  Extractor.extract_properties_from_yaml env (Extractor.arg_yaml_file args)
                                         (announced args w) = (Exit code, w') ->
  run (Extractor.script env args) w = (code, w').
Proof.
  intros E. unfold announced, complained in E.
  unfold run, Extractor.script, Extractor.main, bind, when, eprint, ret.
  destruct (Extractor.arg_verbose args); rewrite E; reflexivity.
Qed.

Lemma validator_config_failure (env : environment) (args : Validator.arguments)
      (w : world) (line : string) :
  Validator._load_config env (Validator.arg_config args) w = (Exit 1, printed line w) ->
  run (Validator.main env args) w = (1, printed line w).
Proof.
  intros E. unfold run, Validator.main, Validator.init, bind. now rewrite E.
Qed.

Lemma validator_properties_failure (env : environment) (args : Validator.arguments)
      (w : world) (text line : string) (cfg : list (pyval * pyval)) :
  open_read env (Validator.arg_config args) = Ok text ->
  yaml_safe_load env text = Ok (VDict cfg) ->
  Validator.load_properties_from_json env (Validator.arg_properties_file args) w =
    (Exit 1, printed line w) ->
  run (Validator.main env args) w = (1, printed line w).
Proof.
  intros Hopen Hload E. unfold run, Validator.main.
  rewrite (bind_Ret _ _ (@init_loaded env _ _ _ w Hopen Hload)).
  unfold bind. now rewrite E.
Qed.
Arguments validator_properties_failure env args w {text line cfg} _ _ _.

(** C3, as the code has it. A missing input file, a rule document or
    source document that is not well-formed YAML, and a properties file
    that is not well-formed JSON each end the run at once with status 1.
    The extractor writes its message to the error stream and nothing to
    standard output; the validator writes its message, marked
    [::error::], to standard output and nothing to the error stream. *)
Theorem fatal_load_failures (env : environment) (w : world) :
  (forall args e,
      open_read env (Extractor.arg_yaml_file args) = Err e ->
      exn_class e = FileNotFoundError ->
      run (Extractor.script env args) w =
      (1, complained ("Error: File not found: " ++ Extractor.arg_yaml_file args)
                     (announced args w))) /\
  (forall args text e,
      open_read env (Extractor.arg_yaml_file args) = Ok text ->
      yaml_safe_load env text = Err e ->
      exn_class e = YAMLError ->
      run (Extractor.script env args) w =
      (1, complained ("Error parsing YAML file: " ++ exn_text e) (announced args w))) /\
  (forall args e,
      open_read env (Validator.arg_config args) = Err e ->
      exn_class e = FileNotFoundError ->
      run (Validator.main env args) w =
      (1, printed ("::error::Configuration file '" ++ Validator.arg_config args
                     ++ "' not found") w)) /\
  (forall args text e,
      open_read env (Validator.arg_config args) = Ok text ->
      yaml_safe_load env text = Err e ->
      exn_class e = YAMLError ->
      run (Validator.main env args) w =
      (1, printed ("::error::Invalid YAML in configuration file: " ++ exn_text e) w)) /\
  (forall args text cfg e,
      open_read env (Validator.arg_config args) = Ok text ->
      yaml_safe_load env text = Ok (VDict cfg) ->
      open_read env (Validator.arg_properties_file args) = Err e ->
      exn_class e = FileNotFoundError ->
      run (Validator.main env args) w =
      (1, printed ("::error::Properties file '" ++ Validator.arg_properties_file args
                     ++ "' not found") w)) /\
  (forall args text cfg ptext e,
      open_read env (Validator.arg_config args) = Ok text ->
      yaml_safe_load env text = Ok (VDict cfg) ->
      open_read env (Validator.arg_properties_file args) = Ok ptext ->
      json_load env ptext = Err e ->
      exn_class e = JSONDecodeError ->
      run (Validator.main env args) w =
      (1, printed ("::error::Invalid JSON in properties file: " ++ exn_text e) w)).
Proof.
  repeat split.
  - intros args e Hopen Hclass. apply extractor_run.
    unfold Extractor.extract_properties_from_yaml, try_except, bind, lift.
    rewrite Hopen, (exn_is_class Hclass). reflexivity.
  - intros args text e Hopen Hload Hclass. apply extractor_run.
    unfold Extractor.extract_properties_from_yaml, try_except, bind, lift.
    rewrite Hopen, Hload, (exn_is_class Hclass).
    destruct (exn_is FileNotFoundError e) eqn:Hfnf; [| reflexivity].
    unfold exn_is in Hfnf. rewrite Hclass in Hfnf. discriminate.
  - intros args e Hopen Hclass. apply validator_config_failure.
    unfold Validator._load_config, try_except, bind, lift.
    rewrite Hopen, (exn_is_class Hclass). reflexivity.
  - intros args text e Hopen Hload Hclass. apply validator_config_failure.
    unfold Validator._load_config, try_except, bind, lift.
    rewrite Hopen, Hload, (exn_is_class Hclass).
    destruct (exn_is FileNotFoundError e) eqn:Hfnf; [| reflexivity].
    unfold exn_is in Hfnf. rewrite Hclass in Hfnf. discriminate.
  - intros args text cfg e Hopen Hload Hpopen Hclass.
    apply (validator_properties_failure env args w Hopen Hload).
    unfold Validator.load_properties_from_json, try_except, bind, lift.
    rewrite Hpopen, (exn_is_class Hclass). reflexivity.
  - intros args text cfg ptext e Hopen Hload Hpopen Hpload Hclass.
    apply (validator_properties_failure env args w Hopen Hload).
    unfold Validator.load_properties_from_json, try_except, bind, lift.
    rewrite Hpopen, Hpload, (exn_is_class Hclass).
    destruct (exn_is FileNotFoundError e) eqn:Hfnf; [| reflexivity].
    unfold exn_is in Hfnf. rewrite Hclass in Hfnf. discriminate.
Qed.

Lemma fatal_load_failures_witness :
  run (Validator.main (sample_env sample_config (VDict []) VNone)
                      {| Validator.arg_config := "rules.yaml";
                         Validator.arg_properties_file := "broken.json" |})
      fresh_world =
  (1, printed "::error::Invalid JSON in properties file: Expecting value: line 1 column 1 (char 0)"
              fresh_world).
Proof.
  exact (proj2 (proj2 (proj2 (proj2 (proj2
           (fatal_load_failures (sample_env sample_config (VDict []) VNone)
                                fresh_world)))))
           {| Validator.arg_config := "rules.yaml";
              Validator.arg_properties_file := "broken.json" |}
           "rules.yaml" _ "broken.json" _ eq_refl eq_refl eq_refl eq_refl eq_refl).
Defined.

(** C3, as stated, fails for the validator: when the rule document is
    missing, the diagnostic is on standard output and the error stream
    stays empty. *)
Lemma validator_diagnostic_on_stdout :
  run (Validator.main (sample_env sample_config (VDict []) VNone)
                      {| Validator.arg_config := "missing.yaml";
                         Validator.arg_properties_file := "properties.json" |})
      fresh_world =
  (1, {| stdout := ["::error::Configuration file 'missing.yaml' not found"];
         stderr := [];
         written := [] |}).
Proof. reflexivity. Qed.

(** ** The extractor on a loaded document *)

Section LoadedDocument.
Variable env : environment.
Variable args : Extractor.arguments.
Variable text : string.
Variable data : pyval.
Hypothesis opened : open_read env (Extractor.arg_yaml_file args) = Ok text.
Hypothesis loaded : yaml_safe_load env text = Ok data.

(** No property: a notice on the error stream and status 0. *)
Lemma extractor_empty_run (w : world) :
  Extractor.extract data = Ok [] ->
  run (Extractor.script env args) w =
  (0, complained "No properties found in additionalProperties section"
                 (announced args w)).
Proof.
  intros E. unfold announced, complained.
  unfold run, Extractor.script, Extractor.main,
    Extractor.extract_properties_from_yaml, try_except, bind, when, eprint, ret, lift.
  destruct (Extractor.arg_verbose args); cbn [stdout stderr written];
    rewrite opened, loaded, E; reflexivity.
Qed.

(** A [TypeError] raised while the document is walked is caught by the
    last handler: a message on the error stream and status 1. *)
Lemma extractor_type_error_run (w : world) (e : exn) :
  Extractor.extract data = Err e ->
  exn_class e = TypeError ->
  run (Extractor.script env args) w =
  (1, complained ("Error: " ++ exn_text e) (announced args w)).
Proof.
  intros E Hclass. apply extractor_run.
  unfold Extractor.extract_properties_from_yaml, try_except, bind, lift.
  rewrite opened, loaded, E. unfold exn_is. rewrite Hclass. reflexivity.
Qed.

End LoadedDocument.

Lemma extract_no_data (top : list (pyval * pyval)) :
  dict_get (VStr "data") top = None -> Extractor.extract (VDict top) = Ok [].
Proof.
  intros H. unfold Extractor.extract. cbn [py_in hashable rbind].
  unfold dict_contains. now rewrite H.
Qed.

Lemma extract_no_location (top inner : list (pyval * pyval)) :
  dict_get (VStr "data") top = Some (VDict inner) ->
  dict_get (VStr "additionalProperties") inner = None ->
  Extractor.extract (VDict top) = Ok [].
Proof.
  intros Hd Hl. unfold Extractor.extract. cbn [py_in py_getitem hashable rbind].
  unfold dict_contains. rewrite Hd. cbn [rbind py_in hashable].
  unfold dict_contains. now rewrite Hl.
Qed.

Lemma extract_located (top inner : list (pyval * pyval)) (records : pyval) :
  dict_get (VStr "data") top = Some (VDict inner) ->
  dict_get (VStr "additionalProperties") inner = Some records ->
  Extractor.extract (VDict top) =
  rbind (py_iter records) (fun props => for_each props Extractor.collect []).
Proof.
  intros Hd Hl. unfold Extractor.extract. cbn [py_in py_getitem hashable rbind].
  unfold dict_contains. rewrite Hd. cbn [rbind py_in py_getitem hashable].
  unfold dict_contains. rewrite Hl. reflexivity.
Qed.

Lemma collect_incomplete (fields : list (pyval * pyval)) (props : dict pyval) :
  dict_get (VStr "name") fields = None \/ dict_get (VStr "value") fields = None ->
  Extractor.collect (VDict fields) props = Ok props.
Proof.
  intros H. unfold Extractor.collect. cbn [py_in hashable rbind].
  unfold dict_contains.
  destruct (dict_get (VStr "name") fields); cbn [rbind py_in hashable].
  - destruct H as [H | H]; [discriminate |]. unfold dict_contains. now rewrite H.
  - reflexivity.
Qed.

Lemma collect_complete (fields : list (pyval * pyval)) (name value : pyval)
      (props : dict pyval) :
  dict_get (VStr "name") fields = Some name ->
  dict_get (VStr "value") fields = Some value ->
  Extractor.collect (VDict fields) props = Extractor.py_setitem props name value.
Proof.
  intros Hn Hv. unfold Extractor.collect. cbn [py_in py_getitem hashable rbind].
  unfold dict_contains. rewrite Hn. cbn [rbind py_in hashable].
  unfold dict_contains. rewrite Hv. reflexivity.
Qed.

(** C5, as the code has it. In a source document that is a mapping: if
    it has no [data] entry, or its [data] entry is a mapping without
    [additionalProperties], the PropertySet is empty and nothing is
    raised; and a record that is a mapping without a [name] key or
    without a [value] key leaves the PropertySet as it is, so that the
    result is that of the sequence without the record. *)
Theorem incomplete_records_and_absent_location (top : list (pyval * pyval)) :
  (dict_get (VStr "data") top = None -> Extractor.extract (VDict top) = Ok []) /\
  (forall inner,
      dict_get (VStr "data") top = Some (VDict inner) ->
      dict_get (VStr "additionalProperties") inner = None ->
      Extractor.extract (VDict top) = Ok []) /\
  (forall inner before after fields,
      dict_get (VStr "data") top = Some (VDict inner) ->
      dict_get (VStr "additionalProperties") inner =
        Some (VList (before ++ VDict fields :: after)%list) ->
      dict_get (VStr "name") fields = None \/ dict_get (VStr "value") fields = None ->
      (forall props, Extractor.collect (VDict fields) props = Ok props) /\
      Extractor.extract (VDict top) =
        for_each (before ++ after)%list Extractor.collect []).
Proof.
  split; [apply extract_no_data |]. split; [apply extract_no_location |].
  intros inner before after fields Hd Hl Hmissing.
  split; [intros props; now apply collect_incomplete |].
  rewrite (extract_located _ Hd Hl). cbn [py_iter rbind].
  rewrite !for_each_app. cbn [for_each].
  destruct (for_each before Extractor.collect []) as [props | e]; cbn [rbind];
    [| reflexivity].
  now rewrite collect_incomplete.
Qed.

Lemma incomplete_records_and_absent_location_witness :
  Extractor.extract
    (VDict (api_with [record "env" "dev"; VDict record_without_value;
                      record "tier" "gold"])) =
  Ok [(VStr "env", VStr "dev"); (VStr "tier", VStr "gold")].
Proof.
  exact (proj2 (proj2 (proj2 (incomplete_records_and_absent_location
           (api_with [record "env" "dev"; VDict record_without_value;
                      record "tier" "gold"])))
           _ [record "env" "dev"] [record "tier" "gold"] record_without_value
           eq_refl eq_refl (or_intror eq_refl))).
Defined.

(** C5, as stated, fails: an empty source file parses (to [None]), it
    has no [additionalProperties] anywhere, and the extractor ends with
    an error message and status 1 instead of an empty PropertySet. *)
Lemma empty_document_is_an_error :
  Extractor.extract VNone =
    Err (Exn TypeError "argument of type 'NoneType' is not iterable") /\
  run (Extractor.script (sample_env sample_config (VDict []) VNone)
                        (extractor_args "console")) fresh_world =
  (1, {| stdout := [];
         stderr := ["Error: argument of type 'NoneType' is not iterable"];
         written := [] |}).
Proof. split; reflexivity. Qed.

(** ** Documents that are not mappings *)

(** C10, as the code has it. When the source file loads as [None], a
    boolean or an integer, the membership test raises [TypeError], the
    last handler writes its message to the error stream, and the status
    is 1.  When it loads as a sequence or a text, the membership test is
    answered: without ["data"] in it the PropertySet is empty and the
    status is 0; with ["data"] in it the subscript raises [TypeError],
    with the same message line and status 1. *)
Theorem non_mapping_document
        (env : environment) (args : Extractor.arguments) (text : string)
        (data : pyval) (w : world) :
  open_read env (Extractor.arg_yaml_file args) = Ok text ->
  yaml_safe_load env text = Ok data ->
  match data with
  | VDict _ => True
  | VNone | VBool _ | VInt _ =>
      py_in (VStr "data") data =
        Err (Exn TypeError ("argument of type '" ++ type_name data
                              ++ "' is not iterable")) /\
      run (Extractor.script env args) w =
      (1, complained ("Error: argument of type '" ++ type_name data
                        ++ "' is not iterable") (announced args w))
  | VList _ | VStr _ =>
      (py_in (VStr "data") data = Ok false ->
       Extractor.extract data = Ok [] /\
       run (Extractor.script env args) w =
       (0, complained "No properties found in additionalProperties section"
                      (announced args w))) /\
      (py_in (VStr "data") data = Ok true ->
       exists e,
         Extractor.extract data = Err e /\ exn_class e = TypeError /\
         run (Extractor.script env args) w =
         (1, complained ("Error: " ++ exn_text e) (announced args w)))
  end.
Proof.
  intros Hopen Hload.
  destruct data as [| b | n | s | xs | d]; [| | | | | exact I].
  - split; [reflexivity |].
    now apply (extractor_type_error_run env args Hopen Hload w (e := Exn TypeError _)).
  - split; [reflexivity |].
    now apply (extractor_type_error_run env args Hopen Hload w (e := Exn TypeError _)).
  - split; [reflexivity |].
    now apply (extractor_type_error_run env args Hopen Hload w (e := Exn TypeError _)).
  - split; intros Hin.
    + assert (E : Extractor.extract (VStr s) = Ok [])
        by (unfold Extractor.extract; now rewrite Hin).
      split; [exact E |]. now apply (extractor_empty_run env args Hopen Hload).
    + eexists. split; [unfold Extractor.extract; rewrite Hin; reflexivity |].
      split; [reflexivity |].
      apply (extractor_type_error_run env args Hopen Hload).
      * unfold Extractor.extract. rewrite Hin. reflexivity.
      * reflexivity.
  - split; intros Hin.
    + assert (E : Extractor.extract (VList xs) = Ok [])
        by (unfold Extractor.extract; now rewrite Hin).
      split; [exact E |]. now apply (extractor_empty_run env args Hopen Hload).
    + eexists. split; [unfold Extractor.extract; rewrite Hin; reflexivity |].
      split; [reflexivity |].
      apply (extractor_type_error_run env args Hopen Hload).
      * unfold Extractor.extract. rewrite Hin. reflexivity.
      * reflexivity.
Qed.

Lemma non_mapping_document_witness :
  run (Extractor.script (sample_env sample_config (VDict []) (VInt 42))
                        (extractor_args "json")) fresh_world =
  (1, {| stdout := [];
         stderr := ["Error: argument of type 'int' is not iterable"];
         written := [] |}).
Proof.
  exact (proj2 (@non_mapping_document
                  (sample_env sample_config (VDict []) (VInt 42))
                  (extractor_args "json") "api.yaml" (VInt 42) fresh_world
                  eq_refl eq_refl)).
Defined.

(** C10, as stated, fails for sequences: a source file that holds the
    sequence [[a, b]] yields the empty PropertySet and status 0. *)
Lemma sequence_document_is_empty :
  Extractor.extract (VList [VStr "a"; VStr "b"]) = Ok [] /\
  run (Extractor.script
         (sample_env sample_config (VDict []) (VList [VStr "a"; VStr "b"]))
         (extractor_args "json")) fresh_world =
  (0, {| stdout := [];
         stderr := ["No properties found in additionalProperties section"];
         written := [] |}).
Proof. split; reflexivity. Qed.

(** ** Keys up to [==] *)

Lemma py_eqb_key_norm (a b : pyval) :
  hashable a = true -> hashable b = true ->
  py_eqb a b = true <-> key_norm a = key_norm b.
Proof.
  destruct a as [| x | m | s | xs | d]; cbn; try discriminate; intros _;
    destruct b as [| y | n | t | ys | e]; cbn; try discriminate; intros _;
    try (split; [discriminate | discriminate]); try tauto.
  - destruct x, y; cbn; split; congruence.
  - rewrite Z.eqb_eq. split; congruence.
  - rewrite Z.eqb_eq. split; congruence.
  - rewrite Z.eqb_eq. split; congruence.
  - rewrite String.eqb_eq. split; congruence.
Qed.
Arguments py_eqb_key_norm {a b} _ _.

(** Equal keys are equal to the same keys. *)
Lemma py_eqb_congr (n k k' : pyval) :
  hashable n = true -> hashable k = true -> hashable k' = true ->
  py_eqb k k' = true -> py_eqb n k' = py_eqb n k.
Proof.
  intros Hn Hk Hk' E. apply (py_eqb_key_norm Hk Hk') in E.
  destruct (py_eqb n k) eqn:E1.
  - apply (py_eqb_key_norm Hn Hk) in E1. apply (py_eqb_key_norm Hn Hk'). congruence.
  - destruct (py_eqb n k') eqn:E2; [| reflexivity].
    apply (py_eqb_key_norm Hn Hk') in E2.
    assert (py_eqb n k = true) by (apply (py_eqb_key_norm Hn Hk); congruence).
    congruence.
Qed.
Arguments py_eqb_congr {n k k'} _ _ _ _.

Lemma dict_keys_set {V : Type} (k : pyval) (v : V) (d : dict V) :
  dict_keys (dict_set k v d) =
  if existsb (py_eqb k) (dict_keys d) then dict_keys d else (dict_keys d ++ [k])%list.
Proof.
  induction d as [| [k' v'] d IH]; cbn; [reflexivity |].
  destruct (py_eqb k k'); cbn; [reflexivity |].
  unfold dict_keys in *. rewrite IH.
  now destruct (existsb (py_eqb k) (map fst d)).
Qed.

Lemma dict_get_set {V : Type} (n k : pyval) (v : V) (d : dict V) :
  hashable n = true -> hashable k = true ->
  forallb hashable (dict_keys d) = true ->
  dict_get n (dict_set k v d) = if py_eqb n k then Some v else dict_get n d.
Proof.
  intros Hn Hk. induction d as [| [k' v'] d IH]; cbn; intros Hd; [reflexivity |].
  apply andb_prop in Hd. destruct Hd as [Hk' Hd].
  destruct (py_eqb k k') eqn:E; cbn.
  - rewrite (py_eqb_congr Hn Hk Hk' E). now destruct (py_eqb n k).
  - rewrite (IH Hd). destruct (py_eqb n k') eqn:E'; [| reflexivity].
    destruct (py_eqb n k) eqn:E''; [| reflexivity].
    assert (Hkn : py_eqb k n = true) by (now rewrite py_eqb_sym_hashable).
    rewrite (py_eqb_congr Hk Hn Hk' E') in E. congruence.
Qed.

(** ** The PropertySet of a sequence of complete records *)

Lemma complete_inv (r : pyval) :
  complete r = true ->
  exists fields,
    r = VDict fields /\
    dict_get (VStr "name") fields = Some (record_name r) /\
    dict_get (VStr "value") fields = Some (record_value r) /\
    hashable (record_name r) = true.
Proof.
  destruct r as [| | | | | fields]; try discriminate.
  unfold complete, record_name, record_value.
  destruct (dict_get (VStr "name") fields) as [n |] eqn:En; [| discriminate].
  destruct (dict_get (VStr "value") fields) as [v |] eqn:Ev; [| discriminate].
  intros Hn. exists fields. auto.
Qed.

Lemma collect_complete_record (r : pyval) (acc : dict pyval) :
  complete r = true ->
  Extractor.collect r acc = Ok (dict_set (record_name r) (record_value r) acc).
Proof.
  intros Hc. destruct (complete_inv r Hc) as (fields & Hr & Hn & Hv & Hh).
  rewrite Hr at 1. rewrite (collect_complete fields acc Hn Hv).
  unfold Extractor.py_setitem. now rewrite Hh.
Qed.

Lemma collect_loop (records : list pyval) (acc : dict pyval) :
  forallb complete records = true ->
  forallb hashable (dict_keys acc) = true ->
  exists props,
    for_each records Extractor.collect acc = Ok props /\
    dict_keys props =
      fold_left (fun seen k => if existsb (py_eqb k) seen then seen
                               else (seen ++ [k])%list)
                (map record_name records) (dict_keys acc) /\
    forall name,
      hashable name = true ->
      dict_get name props =
      fold_left (fun found r => if py_eqb name (record_name r)
                                then Some (record_value r) else found)
                records (dict_get name acc).
Proof.
  revert acc. induction records as [| r records IH]; intros acc Hc Hacc.
  - exists acc. cbn. auto.
  - cbn in Hc. apply andb_prop in Hc. destruct Hc as [Hr Hc].
    destruct (complete_inv r Hr) as (_ & _ & _ & _ & Hh).
    assert (Hacc' : forallb hashable
                      (dict_keys (dict_set (record_name r) (record_value r) acc)) = true).
    { rewrite dict_keys_set.
      destruct (existsb (py_eqb (record_name r)) (dict_keys acc)); [exact Hacc |].
      rewrite forallb_app, Hacc. cbn. now rewrite Hh. }
    destruct (IH _ Hc Hacc') as (props & E & Hkeys & Hget).
    exists props. cbn [for_each]. rewrite (collect_complete_record r acc Hr).
    cbn [rbind]. split; [exact E |]. split.
    + rewrite Hkeys, dict_keys_set. reflexivity.
    + intros name Hname. rewrite (Hget name Hname).
      cbn [fold_left]. now rewrite (@dict_get_set _ name _ _ _ Hname Hh Hacc).
Qed.

Lemma distinct_first_seen (names seen : list pyval) :
  forallb hashable names = true ->
  distinct names = true ->
  (forall k, In k names -> existsb (py_eqb k) seen = false) ->
  fold_left (fun seen k => if existsb (py_eqb k) seen then seen
                           else (seen ++ [k])%list) names seen =
  (seen ++ names)%list.
Proof.
  revert seen. induction names as [| k names IH]; intros seen Hh Hd Hnew; cbn.
  - now rewrite app_nil_r.
  - cbn in Hh, Hd. apply andb_prop in Hh, Hd.
    destruct Hh as [Hk Hh], Hd as [Hfresh Hd].
    rewrite (Hnew k (or_introl eq_refl)).
    rewrite (IH (seen ++ [k])%list Hh Hd).
    + now rewrite <- app_assoc.
    + intros k' Hin. rewrite existsb_app, (Hnew k' (or_intror Hin)). cbn.
      rewrite orb_false_r. rewrite py_eqb_sym_hashable by exact Hk.
      apply negb_true_iff in Hfresh.
      destruct (py_eqb k k') eqn:E; [| reflexivity].
      assert (existsb (py_eqb k) names = true)
        by (apply existsb_exists; exists k'; auto).
      congruence.
Qed.

Lemma complete_names_hashable (records : list pyval) :
  forallb complete records = true ->
  forallb hashable (map record_name records) = true.
Proof.
  induction records as [| r records IH]; cbn; [reflexivity |].
  intros H. apply andb_prop in H. destruct H as [Hr H].
  destruct (complete_inv r Hr) as (_ & _ & _ & _ & Hh).
  now rewrite Hh, IH.
Qed.

(** C4, as the code has it. From a source document whose
    [data.additionalProperties] is a sequence of records that each have a
    [name] and a [value], the extractor builds a PropertySet whose names
    are the names of the records, each once, in the order in which they
    are first seen; a name maps to the value of the last record that
    carries it; the size is the number of different names, which is the
    number of records when no two records share a name. *)
Theorem extracted_property_set
        (top inner : list (pyval * pyval)) (records : list pyval) :
  dict_get (VStr "data") top = Some (VDict inner) ->
  dict_get (VStr "additionalProperties") inner = Some (VList records) ->
  forallb complete records = true ->
  exists props,
    Extractor.extract (VDict top) = Ok props /\
    dict_keys props = first_seen (map record_name records) /\
    (forall name, hashable name = true ->
                  dict_get name props = last_value name records) /\
    List.length props = List.length (first_seen (map record_name records)) /\
    (distinct (map record_name records) = true ->
     List.length props = List.length records).
Proof.
  intros Hd Hl Hc.
  destruct (collect_loop records [] Hc eq_refl) as (props & E & Hkeys & Hget).
  change (dict_keys (@nil (pyval * pyval))) with (@nil pyval) in Hkeys.
  change (dict_get ?n (@nil (pyval * pyval))) with (@None pyval) in Hget.
  exists props. rewrite (extract_located _ Hd Hl). cbn [py_iter rbind].
  split; [exact E |]. split; [exact Hkeys |]. split; [exact Hget |].
  assert (Hlen : List.length props = List.length (first_seen (map record_name records))).
  { unfold first_seen. rewrite <- Hkeys. unfold dict_keys. now rewrite length_map. }
  split; [exact Hlen |].
  intros Hdist. rewrite Hlen. unfold first_seen.
  rewrite (distinct_first_seen _ [] (complete_names_hashable records Hc) Hdist)
    by reflexivity.
  cbn. now rewrite length_map.
Qed.

Lemma extracted_property_set_witness :
  exists props,
    Extractor.extract
      (VDict (api_with [record "env" "dev"; record "tier" "gold";
                        record "env" "prod"])) = Ok props /\
    dict_keys props = [VStr "env"; VStr "tier"] /\
    dict_get (VStr "env") props = Some (VStr "prod") /\
    List.length props = 2%nat.
Proof.
  destruct (@extracted_property_set
              (api_with [record "env" "dev"; record "tier" "gold";
                         record "env" "prod"])
              _ [record "env" "dev"; record "tier" "gold"; record "env" "prod"]
              eq_refl eq_refl eq_refl)
    as (props & E & Hkeys & Hget & Hlen & _).
  exists props. split; [exact E |]. split; [exact Hkeys |].
  split; [exact (Hget (VStr "env") eq_refl) | exact Hlen].
Defined.

(** C4, as stated, fails when two records share a name: three records
    with both keys, a PropertySet of size two. *)
Lemma shared_name_shrinks_property_set :
  Extractor.extract
    (VDict (api_with [record "env" "dev"; record "tier" "gold";
                      record "env" "prod"])) =
    Ok [(VStr "env", VStr "prod"); (VStr "tier", VStr "gold")] /\
  forallb complete [record "env" "dev"; record "tier" "gold";
                    record "env" "prod"] = true /\
  List.length [record "env" "dev"; record "tier" "gold"; record "env" "prod"] = 3%nat /\
  List.length [(VStr "env", VStr "prod"); (VStr "tier", VStr "gold")] = 2%nat.
Proof. repeat split. Qed.

(** ** The JSON form of a PropertySet *)

Section PyvalInduction.
Variable P : pyval -> Prop.
Hypothesis P_none : P VNone.
Hypothesis P_bool : forall b, P (VBool b).
Hypothesis P_int : forall n, P (VInt n).
Hypothesis P_str : forall s, P (VStr s).
Hypothesis P_list : forall xs, Forall P xs -> P (VList xs).
Hypothesis P_dict :
  forall d, Forall (fun item => P (fst item) /\ P (snd item)) d -> P (VDict d).

End PyvalInduction.










(** The text of a PropertySet of two properties: two members, one to a
    line, indented by two spaces. *)
Example json_text_of_two_properties :
  json_dumps (JObj [("env", JStr "dev"); ("tier", JStr "gold")]) 0 =
  String.concat Extractor.nl
    ["{";
     "  " ++ json_quote "env" ++ ": " ++ json_quote "dev" ++ ",";
     "  " ++ json_quote "tier" ++ ": " ++ json_quote "gold";
     "}"] /\
  json_quote "env" = String dquote ("env" ++ String dquote EmptyString).
Proof. split; reflexivity. Qed.

(** A name that is an integer does not come back: the encoder writes it
    as text. *)
Example integer_name_comes_back_as_text :
  rbind (json_encode (VDict [(VInt 1, VStr "x")])) (fun doc => Ok (json_decode doc)) =
  Ok (VDict [(VStr "1", VStr "x")]).
Proof. reflexivity. Qed.

(** ** The [env] and [github] formats *)

Lemma upper_lower_ascii (c : ascii) :
  Extractor.upper_ascii (Extractor.lower_ascii c) = Extractor.upper_ascii c.
Proof. destruct c as [[] [] [] [] [] [] [] []]; reflexivity. Qed.

Lemma upper_upper_ascii (c : ascii) :
  Extractor.upper_ascii (Extractor.upper_ascii c) = Extractor.upper_ascii c.
Proof. destruct c as [[] [] [] [] [] [] [] []]; reflexivity. Qed.

Lemma str_upper_idempotent (s : string) :
  Extractor.str_upper (Extractor.str_upper s) = Extractor.str_upper s.
Proof.
  induction s as [| c s IH]; cbn; [reflexivity |].
  now rewrite upper_upper_ascii, IH.
Qed.

(** On an ASCII character [str.lower] works byte by byte. *)
Lemma str_lower_cons (c : ascii) (s : string) :
  (N_of_ascii c <? 128)%N = true ->
  Extractor.str_lower (String c s) =
  String (Extractor.lower_ascii c) (Extractor.str_lower s).
Proof.
  intros Hc. destruct s as [| c2 [| c3 rest]]; try reflexivity.
  cbn [Extractor.str_lower]. unfold Extractor.is_kelvin.
  replace (N_of_ascii c =? 226)%N with false; [reflexivity |].
  symmetry. apply N.eqb_neq. apply N.ltb_lt in Hc. lia.
Qed.

Lemma str_upper_lower (s : string) :
  is_ascii s = true ->
  Extractor.str_upper (Extractor.str_lower s) = Extractor.str_upper s.
Proof.
  unfold is_ascii. induction s as [| c s IH]; [reflexivity |].
  cbn [list_ascii_of_string forallb]. intros H.
  apply andb_prop in H. destruct H as [Hc Hs].
  rewrite (str_lower_cons c s Hc). cbn [Extractor.str_upper].
  now rewrite upper_lower_ascii, (IH Hs).
Qed.

(** The lines of a format whose key function is a method of text. *)
Lemma format_lines_text (f : string -> string) (key : pyval -> res string)
      (properties : dict pyval) :
  (forall s, key (VStr s) = Ok (f s)) ->
  forallb is_text (dict_keys properties) = true ->
  Extractor.format_lines key "=" properties =
  Ok (assignment_lines (map (fun item => f (name_text (fst item))) properties)
                       properties).
Proof.
  intros Hkey. induction properties as [| [k v] properties IH]; [reflexivity |].
  cbn [dict_keys map forallb fst]. intros H.
  apply andb_prop in H. destruct H as [Hk H].
  destruct k as [| | | s | |]; try discriminate.
  cbn [Extractor.format_lines]. rewrite Hkey. cbn [rbind].
  unfold dict_keys in IH. rewrite (IH H). reflexivity.
Qed.

Lemma ascii_names_text (properties : dict pyval) :
  ascii_names properties = true ->
  forallb is_text (dict_keys properties) = true.
Proof.
  induction properties as [| [k v] properties IH]; [reflexivity |].
  unfold dict_keys in *. cbn [ascii_names map forallb fst]. intros H.
  apply andb_prop in H. destruct H as [Hk H].
  rewrite (IH H). now destruct k.
Qed.

(** C8, as the code has it. For a PropertySet whose names are ASCII
    texts, the [env] format writes the lines [KEY=value] with the names
    in upper case, the [github] format the lines [key=value] with the
    names in lower case, over the same names in the same order, and
    upper-casing the keys of the one gives the upper-cased keys of the
    other. *)
Theorem env_and_github_keys (env : environment) (properties : dict pyval) :
  ascii_names properties = true ->
  let names := map (fun item => name_text (fst item)) properties in
  let env_keys := map Extractor.str_upper names in
  let github_keys := map Extractor.str_lower names in
  Extractor.output_content env properties "env" =
    Ok (String.concat Extractor.nl (assignment_lines env_keys properties)) /\
  Extractor.output_content env properties "github" =
    Ok (String.concat Extractor.nl (assignment_lines github_keys properties)) /\
  map Extractor.str_upper env_keys = map Extractor.str_upper github_keys.
Proof.
  intros Hascii names env_keys github_keys.
  pose proof (ascii_names_text properties Hascii) as Htext.
  split; [| split].
  - unfold Extractor.output_content. cbn [String.eqb Ascii.eqb Bool.eqb].
    rewrite (format_lines_text Extractor.str_upper Extractor.py_upper properties
                               (fun s => eq_refl) Htext).
    cbn [rbind]. unfold env_keys, names. now rewrite map_map.
  - unfold Extractor.output_content. cbn [String.eqb Ascii.eqb Bool.eqb].
    rewrite (format_lines_text Extractor.str_lower Extractor.py_lower properties
                               (fun s => eq_refl) Htext).
    cbn [rbind]. unfold github_keys, names. now rewrite map_map.
  - unfold env_keys, github_keys, names. rewrite !map_map.
    apply map_ext_in. intros [k v] Hin. cbn [fst].
    unfold ascii_names in Hascii. rewrite forallb_forall in Hascii.
    specialize (Hascii _ Hin). cbn [fst] in Hascii.
    destruct k as [| | | s | |]; try discriminate. cbn [name_text].
    now rewrite str_upper_idempotent, (str_upper_lower s Hascii).
Qed.

Lemma env_and_github_keys_witness :
  Extractor.output_content (sample_env sample_config (VDict []) VNone)
                           [(VStr "Env", VStr "dev"); (VStr "tier", VStr "gold")]
                           "env" =
    Ok ("ENV=dev" ++ Extractor.nl ++ "TIER=gold") /\
  Extractor.output_content (sample_env sample_config (VDict []) VNone)
                           [(VStr "Env", VStr "dev"); (VStr "tier", VStr "gold")]
                           "github" =
    Ok ("env=dev" ++ Extractor.nl ++ "tier=gold") /\
  map Extractor.str_upper ["ENV"; "TIER"] = map Extractor.str_upper ["env"; "tier"].
Proof.
  exact (@env_and_github_keys
           (sample_env sample_config (VDict []) VNone)
           [(VStr "Env", VStr "dev"); (VStr "tier", VStr "gold")] eq_refl).
Defined.

(** C8, as stated, fails for a name outside ASCII: the Kelvin sign is an
    upper-case letter, so the [env] key is the sign itself, while its
    lower case, the [github] key, is the letter [k], whose upper case is
    the letter [K]. *)
Lemma kelvin_sign_key :
  Extractor.output_content (sample_env sample_config (VDict []) VNone)
                           [(VStr Extractor.kelvin_sign, VStr "273")] "env" =
    Ok (Extractor.kelvin_sign ++ "=273") /\
  Extractor.output_content (sample_env sample_config (VDict []) VNone)
                           [(VStr Extractor.kelvin_sign, VStr "273")] "github" =
    Ok "k=273" /\
  map Extractor.str_upper [Extractor.kelvin_sign] <> map Extractor.str_upper ["k"].
Proof. repeat split. discriminate. Qed.

(** * Further properties of the validator *)

(** ** What every scan that ends keeps *)

Lemma grows_refl (r : Validator.results) : grows r r.
Proof. unfold grows. auto 10. Qed.

Lemma grows_trans (r1 r2 r3 : Validator.results) :
  grows r1 r2 -> grows r2 r3 -> grows r1 r3.
Proof.
  intros (A1 & B1 & C1 & D1 & E1) (A2 & B2 & C2 & D2 & E2).
  unfold grows. repeat split; auto.
Qed.

(** A loop whose steps are related by a preorder relates its ends. *)
Lemma for_each_related {A S : Type} (R : S -> S -> Prop) (xs : list A)
      (body : A -> S -> res S) (s s' : S) :
  (forall x, R x x) ->
  (forall x y z, R x y -> R y z -> R x z) ->
  (forall x t t', In x xs -> body x t = Ok t' -> R t t') ->
  for_each xs body s = Ok s' -> R s s'.
Proof.
  intros Hrefl Htrans. revert s. induction xs as [| x xs IH]; intros s Hstep; cbn.
  - intros [= <-]. apply Hrefl.
  - destruct (body x s) as [t | e] eqn:E; cbn; [| discriminate].
    intros Hrest. apply (Htrans s t s').
    + exact (Hstep x s t (or_introl eq_refl) E).
    + apply IH; [| exact Hrest]. intros y u u' Hy. apply Hstep. now right.
Qed.

(** A loop whose steps keep an invariant keeps it. *)
Lemma for_each_invariant {A S : Type} (P : S -> Prop) (xs : list A)
      (body : A -> S -> res S) (s s' : S) :
  (forall x t t', In x xs -> P t -> body x t = Ok t' -> P t') ->
  P s -> for_each xs body s = Ok s' -> P s'.
Proof.
  revert s. induction xs as [| x xs IH]; intros s Hstep Hs; cbn.
  - now intros [= <-].
  - destruct (body x s) as [t | e] eqn:E; cbn; [| discriminate].
    apply IH.
    + intros y u u' Hy. apply Hstep. now right.
    + exact (Hstep x s t (or_introl eq_refl) Hs E).
Qed.

Lemma dict_contains_set_mono {V : Type} (n k : pyval) (v : V) (d : dict V) :
  dict_contains n d = true -> dict_contains n (dict_set k v d) = true.
Proof.
  unfold dict_contains. induction d as [| [k' v'] d IH]; cbn; [discriminate |].
  destruct (py_eqb k k'); cbn; destruct (py_eqb n k'); auto.
Qed.

Section AnyScan.
Import Validator.
Variable self : PropertyValidator.
Variable properties : dict pyval.

Lemma check_required_facts (item : pyval * pyval) (r r' : results) :
  check_required properties item r = Ok r' ->
  grows r r' /\ (consistent r -> consistent r').
Proof.
  destruct item as [name rule]. unfold check_required.
  destruct (py_get rule "required" (VBool false)) as [req | e]; cbn [rbind];
    [| discriminate].
  destruct (truthy req).
  - destruct (py_in name (VDict properties)) as [present | e]; cbn [rbind];
      [| discriminate].
    destruct present; cbn [negb].
    + intros [= <-]. split; [apply grows_refl | auto].
    + intros [= <-]. split.
      * unfold grows. cbn. repeat split; auto.
        intros x Hx. apply in_or_app. now left.
      * intros _. unfold consistent. cbn. split; [discriminate |].
        intros [_ H]. now destruct (missing_required r).
  - cbn [rbind]. intros [= <-]. split; [apply grows_refl | auto].
Qed.

Lemma check_provided_facts (item : pyval * pyval) (r r' : results) :
  check_provided self item r = Ok r' ->
  grows r r' /\ (consistent r -> consistent r').
Proof.
  destruct item as [name value]. unfold check_provided.
  destruct (py_in name (validation_rules self)) as [known | e]; cbn [rbind];
    [| discriminate].
  destruct known; cbn [negb].
  - destruct (validate_property self name value) as [vr | e]; cbn [rbind];
      [| discriminate].
    destruct (valid vr); cbn [negb].
    + intros [= <-]. split.
      * unfold grows. cbn. repeat split; auto.
        intros k. apply dict_contains_set_mono.
      * unfold consistent. cbn. auto.
    + destruct (error vr) as [msg |]; [| discriminate].
      intros [= <-]. split.
      * unfold grows. cbn. repeat split; auto.
        -- intros x Hx. apply in_or_app. now left.
        -- intros k. apply dict_contains_set_mono.
      * intros _. unfold consistent. cbn. split; [discriminate |].
        intros [H _]. now destruct (errors r).
  - intros [= <-]. split.
    + unfold grows. cbn. repeat split; auto.
      intros x Hx. apply in_or_app. now left.
    + unfold consistent. cbn. auto.
Qed.

Lemma required_loop_grows (items : list (pyval * pyval)) (r r' : results) :
  for_each items (check_required properties) r = Ok r' -> grows r r'.
Proof.
  apply (for_each_related grows); [apply grows_refl | apply grows_trans |].
  intros x t t' _ E. exact (proj1 (check_required_facts x t E)).
Qed.

Lemma provided_loop_grows (items : list (pyval * pyval)) (r r' : results) :
  for_each items (check_provided self) r = Ok r' -> grows r r'.
Proof.
  apply (for_each_related grows); [apply grows_refl | apply grows_trans |].
  intros x t t' _ E. exact (proj1 (check_provided_facts x t E)).
Qed.

End AnyScan.

Lemma scan_consistent
      (self : Validator.PropertyValidator) (properties : dict pyval)
      (r : Validator.results) :
  Validator.validate_all_properties self properties = Ok r -> consistent r.
Proof.
  unfold Validator.validate_all_properties.
  destruct (py_items (Validator.validation_rules self)) as [rules | e]; cbn [rbind];
    [| discriminate].
  destruct (for_each rules (Validator.check_required properties)
                     Validator.initial_results) as [r1 | e] eqn:E1; cbn [rbind];
    [| discriminate].
  intros E2.
  assert (H1 : consistent r1).
  { apply (for_each_invariant consistent rules
             (Validator.check_required properties) Validator.initial_results);
      [| unfold consistent; cbn; tauto | exact E1].
    intros x t t' _ Ht E. exact (proj2 (@check_required_facts properties x t t' E) Ht). }
  apply (for_each_invariant consistent properties
           (Validator.check_provided self) r1); [| exact H1 | exact E2].
  intros x t t' _ Ht E. exact (proj2 (@check_provided_facts self x t t' E) Ht).
Qed.

(** X1. Whenever the scan ends, its verdict is valid exactly when it
    recorded no error and no missing required property: the lists the
    report counts and the verdict never disagree. *)
Theorem verdict_agrees_with_lists
        (self : Validator.PropertyValidator) (properties : dict pyval)
        (r : Validator.results) :
  Validator.validate_all_properties self properties = Ok r ->
  (Validator.overall_valid r = true <->
   Validator.errors r = [] /\ Validator.missing_required r = []).
Proof. exact (@scan_consistent self properties r). Qed.

Lemma verdict_agrees_with_lists_witness :
  exists r,
    Validator.validate_all_properties
      {| Validator.config := sample_config;
         Validator.validation_rules := VDict sample_rules |}
      [(VStr "env", VStr "staging")] = Ok r /\
    (Validator.overall_valid r = true <->
     Validator.errors r = [] /\ Validator.missing_required r = []).
Proof.
  eexists. split; [reflexivity |].
  apply (@verdict_agrees_with_lists
           {| Validator.config := sample_config;
              Validator.validation_rules := VDict sample_rules |}
           [(VStr "env", VStr "staging")]).
  reflexivity.
Defined.

(** X2. A rule whose [required] is true and whose property is not in the
    PropertySet is always reported: whatever the other rules and
    properties are, if the scan ends, the name is among the missing
    required properties and the verdict is invalid. *)
Theorem required_and_absent_is_reported
        (self : Validator.PropertyValidator) (rules : list (pyval * pyval))
        (properties : dict pyval) (name rule req : pyval) (r : Validator.results) :
  Validator.validation_rules self = VDict rules ->
  In (name, rule) rules ->
  py_get rule "required" (VBool false) = Ok req ->
  truthy req = true ->
  dict_contains name properties = false ->
  Validator.validate_all_properties self properties = Ok r ->
  In name (Validator.missing_required r) /\ Validator.overall_valid r = false.
Proof.
  intros Hrules Hin Hreq Htrue Habsent. unfold Validator.validate_all_properties.
  rewrite Hrules. cbn [py_items rbind].
  destruct (in_split _ _ Hin) as (l1 & l2 & ->).
  rewrite for_each_app. cbn [for_each].
  destruct (for_each l1 (Validator.check_required properties)
                     Validator.initial_results) as [ra | e]; cbn [rbind];
    [| discriminate].
  destruct (Validator.check_required properties (name, rule) ra) as [rb | e] eqn:Eb;
    cbn [rbind]; [| discriminate].
  destruct (for_each l2 (Validator.check_required properties) rb) as [r1 | e] eqn:E1;
    cbn [rbind]; [| discriminate].
  intros E2.
  assert (Hb : In name (Validator.missing_required rb) /\
               Validator.overall_valid rb = false).
  { revert Eb. unfold Validator.check_required. rewrite Hreq. cbn [rbind].
    rewrite Htrue. cbn [py_in].
    destruct (hashable name); cbn [rbind]; [| discriminate].
    rewrite Habsent. cbn [negb]. intros [= <-]. cbn. split; [| reflexivity].
    apply in_or_app. right. now left. }
  destruct Hb as [Hmiss Hinv].
  destruct (@required_loop_grows properties l2 rb r1 E1) as (A1 & B1 & _).
  destruct (@provided_loop_grows self properties r1 r E2) as (A2 & B2 & _).
  auto.
Qed.

Lemma required_and_absent_is_reported_witness :
  exists r,
    Validator.validate_all_properties
      {| Validator.config := sample_config;
         Validator.validation_rules := VDict sample_rules |}
      [(VStr "extra", VStr "x")] = Ok r /\
    In (VStr "env") (Validator.missing_required r) /\
    Validator.overall_valid r = false.
Proof.
  eexists. split; [reflexivity |].
  apply (@required_and_absent_is_reported
           {| Validator.config := sample_config;
              Validator.validation_rules := VDict sample_rules |}
           sample_rules [(VStr "extra", VStr "x")] (VStr "env") env_rule (VBool true));
    try reflexivity.
  now left.
Defined.

(** X3. No property is passed over: if the scan ends, every property of
    the PropertySet is either listed as unknown (its name has no rule) or
    has a recorded result (its name has a rule), also when properties
    before it failed their check. *)
Theorem every_property_is_evaluated
        (self : Validator.PropertyValidator) (rules : list (pyval * pyval))
        (properties : dict pyval) (name value : pyval) (r : Validator.results) :
  Validator.validation_rules self = VDict rules ->
  Validator.validate_all_properties self properties = Ok r ->
  In (name, value) properties ->
  (dict_contains name rules = false /\ In name (Validator.unknown_properties r)) \/
  (dict_contains name rules = true /\
   dict_contains name (Validator.property_results r) = true).
Proof.
  intros Hrules Hscan Hin. revert Hscan. unfold Validator.validate_all_properties.
  rewrite Hrules. cbn [py_items rbind].
  destruct (for_each rules (Validator.check_required properties)
                     Validator.initial_results) as [r1 | e]; cbn [rbind];
    [| discriminate].
  destruct (in_split _ _ Hin) as (l1 & l2 & ->).
  rewrite for_each_app. cbn [for_each].
  destruct (for_each l1 (Validator.check_provided self) r1) as [ra | e]; cbn [rbind];
    [| discriminate].
  destruct (Validator.check_provided self (name, value) ra) as [rb | e] eqn:Eb;
    cbn [rbind]; [| discriminate].
  intros E2.
  destruct (@provided_loop_grows self l2 rb r E2) as (_ & _ & Hu & _ & Hp).
  revert Eb. unfold Validator.check_provided. rewrite Hrules. cbn [py_in].
  destruct (hashable name) eqn:Hh; cbn [rbind]; [| discriminate].
  destruct (dict_contains name rules); cbn [negb].
  - destruct (Validator.validate_property self name value) as [vr | e];
      cbn [rbind]; [| discriminate].
    intros Eb. right. split; [reflexivity |]. apply Hp.
    assert (Hset : dict_contains name
                     (dict_set name vr (Validator.property_results ra)) = true)
      by (unfold dict_contains; now rewrite dict_get_set_same).
    destruct (Validator.valid vr); cbn [negb] in Eb.
    + injection Eb as <-. exact Hset.
    + destruct (Validator.error vr); [| discriminate].
      injection Eb as <-. exact Hset.
  - intros [= <-]. left. split; [reflexivity |]. apply Hu. cbn.
    apply in_or_app. right. now left.
Qed.

Lemma every_property_is_evaluated_witness :
  exists r,
    Validator.validate_all_properties
      {| Validator.config := sample_config;
         Validator.validation_rules := VDict sample_rules |}
      [(VStr "env", VStr "staging"); (VStr "extra", VStr "x")] = Ok r /\
    In (VStr "extra") (Validator.unknown_properties r).
Proof.
  eexists. split; [reflexivity |].
  destruct (@every_property_is_evaluated
              {| Validator.config := sample_config;
                 Validator.validation_rules := VDict sample_rules |}
              sample_rules
              [(VStr "env", VStr "staging"); (VStr "extra", VStr "x")]
              (VStr "extra") (VStr "x") _ eq_refl eq_refl
              (or_intror (or_introl eq_refl)))
    as [[_ H] | [H _]]; [exact H | discriminate H].
Defined.

(** ** The three lists of the report *)

Lemma rule_schema_values (rule value : pyval) :
  rule_schema rule = true ->
  py_get rule "valid_values" (VList []) = Ok (rule_values rule) /\
  py_in value (rule_values rule) = Ok (accepts rule value).
Proof.
  destruct rule as [| | | | | fields]; cbn; try discriminate.
  intros H. apply andb_prop in H. destruct H as [_ H].
  destruct (dict_get (VStr "valid_values") fields) as [[| | | | values |] |];
    try discriminate; split; reflexivity.
Qed.

Section ExactScan.
Import Validator.
Variable self : PropertyValidator.
Variable rules : list (pyval * pyval).
Hypothesis rules_dict : validation_rules self = VDict rules.
Hypothesis rules_ok : rule_mapping rules = true.

Lemma required_loop_exact (properties : dict pyval) (items : list (pyval * pyval))
      (r : results) :
  (forall item, In item items -> In item rules) ->
  exists r',
    for_each items (check_required properties) r = Ok r' /\
    missing_required r' =
      (missing_required r ++
       map fst (filter (fun item => negb (satisfied properties item)) items))%list /\
    errors r' = errors r /\
    unknown_properties r' = unknown_properties r.
Proof.
  revert r. induction items as [| [name rule] items IH]; intros r Hsub.
  - exists r. cbn. rewrite app_nil_r. auto.
  - destruct (rule_mapping_In _ _ _ rules_ok (Hsub _ (or_introl eq_refl))) as [Hh Hs].
    destruct (rule_schema_required _ Hs) as (req & Hreq & Ht).
    cbn [for_each filter]. unfold check_required at 1, satisfied at 1.
    rewrite Hreq. cbn [rbind fst snd]. rewrite Ht.
    destruct (required rule); cbn [negb orb].
    + cbn [py_in]. rewrite Hh. cbn [rbind].
      destruct (dict_contains name properties); cbn [negb rbind].
      * apply IH. intros i Hi. apply Hsub. now right.
      * destruct (IH {| overall_valid := false;
                        property_results := property_results r;
                        missing_required := (missing_required r ++ [name])%list;
                        errors := errors r;
                        unknown_properties := unknown_properties r |}
                     (fun i Hi => Hsub i (or_intror Hi)))
          as (r' & E & Hm & He & Hu).
        exists r'. split; [exact E |]. cbn in Hm, He, Hu.
        rewrite Hm, <- app_assoc. auto.
    + cbn [rbind]. apply IH. intros i Hi. apply Hsub. now right.
Qed.

Lemma provided_loop_exact (properties : dict pyval) (r : results) :
  property_set properties = true ->
  exists r',
    for_each properties (check_provided self) r = Ok r' /\
    missing_required r' = missing_required r /\
    unknown_properties r' =
      (unknown_properties r ++
       map fst (filter (fun item => negb (dict_contains (fst item) rules))
                       properties))%list /\
    errors r' = (errors r ++ flat_map (value_errors rules) properties)%list.
Proof.
  revert r. induction properties as [| [name value] properties IH]; intros r Hps.
  - exists r. cbn. rewrite !app_nil_r. auto.
  - cbn in Hps. apply andb_prop in Hps. destruct Hps as [Hh Hps].
    cbn [for_each filter flat_map fst]. unfold check_provided at 1, value_errors at 1.
    cbn [fst snd]. rewrite rules_dict. cbn [py_in]. rewrite Hh. cbn [rbind].
    unfold dict_contains at 1 2.
    destruct (dict_get name rules) as [rule |] eqn:Hget; cbn [negb].
    + destruct (rule_schema_values rule value (rule_mapping_get _ _ rules_ok Hget))
        as (Hvals & Hmem).
      rewrite (validate_property_known self rules_dict name value Hh Hget Hvals Hmem).
      cbn [rbind]. cbv zeta. unfold invalid_value.
      destruct (accepts rule value); cbn [valid error negb rbind property_results
        missing_required errors unknown_properties overall_valid].
      * match goal with |- context [for_each properties _ ?s] =>
          destruct (IH s Hps) as (r' & E & Hm & Hu & He) end.
        exists r'. split; [exact E |]. cbn in Hm, Hu, He. cbn [app]. auto.
      * match goal with |- context [for_each properties _ ?s] =>
          destruct (IH s Hps) as (r' & E & Hm & Hu & He) end.
        exists r'. split; [exact E |]. cbn in Hm, Hu, He.
        rewrite He, <- app_assoc. auto.
    + cbn [rbind].
      match goal with |- context [for_each properties _ ?s] =>
          destruct (IH s Hps) as (r' & E & Hm & Hu & He) end.
      exists r'. split; [exact E |]. cbn in Hm, Hu, He.
      rewrite Hu, <- app_assoc. auto.
Qed.

End ExactScan.

(** X4. With a well-formed rule mapping and PropertySet, the scan ends
    and its three lists are exactly: the names of the required rules
    without a property, in the order of the rule document; the names of
    the properties without a rule, in the order of the PropertySet; and
    one message for each property whose rule does not accept its value,
    in the order of the PropertySet. *)
Theorem report_lists
        (self : Validator.PropertyValidator) (rules : list (pyval * pyval))
        (properties : dict pyval) :
  Validator.validation_rules self = VDict rules ->
  rule_mapping rules = true ->
  property_set properties = true ->
  exists r,
    Validator.validate_all_properties self properties = Ok r /\
    Validator.missing_required r =
      map fst (filter (fun item => negb (satisfied properties item)) rules) /\
    Validator.unknown_properties r =
      map fst (filter (fun item => negb (dict_contains (fst item) rules)) properties) /\
    Validator.errors r = flat_map (value_errors rules) properties.
Proof.
  intros Hrules Hok Hps. unfold Validator.validate_all_properties.
  rewrite Hrules. cbn [py_items rbind].
  destruct (@required_loop_exact rules Hok properties rules
                                 Validator.initial_results (fun _ H => H))
    as (r1 & E1 & Hm1 & He1 & Hu1).
  destruct (@provided_loop_exact self rules Hrules Hok properties r1 Hps)
    as (r & E & Hm & Hu & He).
  exists r. rewrite E1. cbn [rbind]. split; [exact E |].
  rewrite Hm, Hm1, Hu, Hu1, He, He1. cbn. auto.
Qed.

Lemma report_lists_witness :
  exists r,
    Validator.validate_all_properties
      {| Validator.config := sample_config;
         Validator.validation_rules := VDict sample_rules |}
      [(VStr "extra", VStr "x"); (VStr "env", VStr "staging")] = Ok r /\
    Validator.missing_required r = [] /\
    Validator.unknown_properties r = [VStr "extra"] /\
    Validator.errors r =
      ["Property 'env' has invalid value 'staging'. Valid values are: ['dev', 'prod']"].
Proof.
  exact (@report_lists
           {| Validator.config := sample_config;
              Validator.validation_rules := VDict sample_rules |}
           sample_rules [(VStr "extra", VStr "x"); (VStr "env", VStr "staging")]
           eq_refl eq_refl eq_refl).
Defined.

(** ** The exit status of the validator *)

Lemma no_exit_ret {A : Type} (a : A) : no_exit (ret a).
Proof. intros w. exact I. Qed.

Lemma no_exit_print (line : string) : no_exit (print line).
Proof. intros w. exact I. Qed.

Lemma no_exit_lift {A : Type} (c : res A) : no_exit (lift c).
Proof. intros w. unfold lift. now destruct c. Qed.

Lemma no_exit_bind {A B : Type} (c : M A) (f : A -> M B) :
  no_exit c -> (forall a, no_exit (f a)) -> no_exit (bind c f).
Proof.
  intros Hc Hf w. specialize (Hc w). unfold bind.
  destruct (c w) as [[a | code | e] w']; cbn in *; [apply Hf | contradiction | exact I].
Qed.

Lemma no_exit_when (b : bool) (c : M unit) : no_exit c -> no_exit (when b c).
Proof. destruct b; cbn; [auto | intros _; apply no_exit_ret]. Qed.

Lemma no_exit_for_each_M {A : Type} (xs : list A) (body : A -> M unit) :
  (forall x, no_exit (body x)) -> no_exit (for_each_M xs body).
Proof.
  intros H. induction xs as [| x xs IH]; cbn; [apply no_exit_ret |].
  apply no_exit_bind; auto.
Qed.

Create HintDb no_exit.
#[local] Hint Resolve no_exit_ret no_exit_print no_exit_lift no_exit_when
  no_exit_for_each_M : no_exit.

(** The report never leaves the process by itself. *)
Lemma print_github_actions_output_no_exit
      (self : Validator.PropertyValidator) (r : Validator.results)
      (properties : dict pyval) :
  no_exit (Validator.print_github_actions_output self r properties).
Proof.
  unfold Validator.print_github_actions_output.
  repeat (apply no_exit_bind; [| intros ?]); auto with no_exit.
  - destruct (Validator.overall_valid r); apply no_exit_print.
  - apply no_exit_when. apply no_exit_bind; auto with no_exit.
  - apply no_exit_when. apply no_exit_for_each_M. intros x.
    apply no_exit_bind; auto with no_exit.
  - apply no_exit_for_each_M. intros x.
    repeat (apply no_exit_bind; [| intros ?]); auto with no_exit.
  - destruct (Validator.overall_valid r); apply no_exit_print.
Qed.

(** Loading the rule document returns without a trace, or leaves with
    status 1, or raises. *)
Lemma init_outcome (env : environment) (config_file : string) (w : world) :
  match Validator.init env config_file w with
  | (Ret _, w') => w' = w
  | (Exit code, _) => code = 1
  | (Raise _, _) => True
  end.
Proof.
  unfold Validator.init, Validator._load_config, try_except, bind, lift.
  destruct (open_read env config_file) as [text | e].
  - destruct (yaml_safe_load env text) as [cfg | e].
    + destruct (py_get cfg "validation_rules" (VDict [])); reflexivity.
    + destruct (exn_is FileNotFoundError e); [reflexivity |].
      destruct (exn_is YAMLError e); reflexivity.
  - destruct (exn_is FileNotFoundError e); [reflexivity |].
    destruct (exn_is YAMLError e); reflexivity.
Qed.

Lemma load_properties_outcome (env : environment) (json_file : string) (w : world) :
  match Validator.load_properties_from_json env json_file w with
  | (Ret _, w') => w' = w
  | (Exit code, _) => code = 1
  | (Raise _, _) => True
  end.
Proof.
  unfold Validator.load_properties_from_json, try_except, bind, lift.
  destruct (open_read env json_file) as [text | e].
  - destruct (json_load env text) as [data | e].
    + destruct data; reflexivity.
    + destruct (exn_is FileNotFoundError e); [reflexivity |].
      destruct (exn_is JSONDecodeError e); reflexivity.
  - destruct (exn_is FileNotFoundError e); [reflexivity |].
    destruct (exn_is JSONDecodeError e); reflexivity.
Qed.

(** Every run of the validator either ends with status 1, or has loaded
    both files, ended the scan and leaves with the status of the
    verdict. *)
Lemma main_outcome (env : environment) (args : Validator.arguments) (w : world) :
  fst (run (Validator.main env args) w) = 1 \/
  exists self properties r,
    Validator.init env (Validator.arg_config args) w = (Ret self, w) /\
    Validator.load_properties_from_json env (Validator.arg_properties_file args) w =
      (Ret properties, w) /\
    Validator.validate_all_properties self properties = Ok r /\
    fst (run (Validator.main env args) w) =
      if Validator.overall_valid r then 0 else 1.
Proof.
  remember (fst (run (Validator.main env args) w)) as status eqn:Hstatus.
  unfold run, Validator.main in Hstatus.
  pose proof (init_outcome env (Validator.arg_config args) w) as Hi.
  unfold bind at 1 in Hstatus.
  destruct (Validator.init env (Validator.arg_config args) w)
    as [[self | code | e] w1] eqn:Ei;
    [subst w1 | subst code; now left | now left].
  pose proof (load_properties_outcome env (Validator.arg_properties_file args) w)
    as Hl.
  unfold bind at 1 in Hstatus.
  destruct (Validator.load_properties_from_json env
              (Validator.arg_properties_file args) w)
    as [[properties | code | e] w1] eqn:El;
    [subst w1 | subst code; now left | now left].
  assert (Hwarn : returns (when (negb (truthy (VDict properties)))
                             (print "::warning::No properties found in input file")))
    by auto with returns.
  destruct (Hwarn w) as ([] & w2 & E2). rewrite (bind_Ret _ _ E2) in Hstatus.
  unfold bind at 1, lift in Hstatus.
  destruct (Validator.validate_all_properties self properties) as [r | e] eqn:Es;
    [| now left].
  pose proof (print_github_actions_output_no_exit self r properties w2) as Hp.
  unfold bind at 1 in Hstatus.
  destruct (Validator.print_github_actions_output self r properties w2)
    as [[[] | code | e] w3]; cbn in Hp; [| contradiction | now left].
  right. exists self, properties, r. repeat split; assumption.
Qed.

(** A command line takes the run to the namespace's [main], to the help
    and status 0, or to the usage error and status 2. *)
Lemma validator_entry_point_runs
      (env : environment) (command_line : parsed Validator.arguments) (w : world) :
  run (Validator.entry_point env command_line) w =
  match command_line with
  | Namespace args => run (Validator.main env args) w
  | Help text => (0, printed text w)
  | Refused usage message => (2, complained message (complained usage w))
  end.
Proof. destruct command_line; reflexivity. Qed.

(** X5. The validator never reports success by accident: if a run ends
    with status 0, then either the command line asked for the help, or
    the command line was parsed, both files were loaded, the scan ended,
    and its verdict is valid with no error and no missing required
    property recorded. *)
Theorem exit_zero_means_valid_or_help
        (env : environment) (command_line : parsed Validator.arguments) (w : world) :
  fst (run (Validator.entry_point env command_line) w) = 0 ->
  (exists text, command_line = Help text) \/
  exists args self properties r,
    command_line = Namespace args /\
    Validator.init env (Validator.arg_config args) w = (Ret self, w) /\
    Validator.load_properties_from_json env (Validator.arg_properties_file args) w =
      (Ret properties, w) /\
    Validator.validate_all_properties self properties = Ok r /\
    Validator.overall_valid r = true /\
    Validator.errors r = [] /\ Validator.missing_required r = [].
Proof.
  rewrite validator_entry_point_runs.
  destruct command_line as [args | text | usage message]; cbn [fst].
  - intros Hzero. right.
    destruct (main_outcome env args w)
      as [H1 | (self & properties & r & Hi & Hl & Hs & Hc)].
    + rewrite H1 in Hzero. discriminate.
    + assert (Hv : Validator.overall_valid r = true).
      { destruct (Validator.overall_valid r); [reflexivity |].
        rewrite Hc in Hzero. discriminate. }
      destruct (proj1 (@scan_consistent _ _ _ Hs) Hv) as [He Hm].
      exists args, self, properties, r. repeat split; assumption.
  - intros _. left. now exists text.
  - discriminate.
Qed.

Lemma exit_zero_means_valid_or_help_witness :
  (exists text, Namespace sample_args = Help text) \/
  exists args self properties r,
    Namespace sample_args = Namespace args /\
    Validator.init (sample_env sample_config (VDict [(VStr "env", VStr "prod")]) VNone)
                   (Validator.arg_config args) fresh_world = (Ret self, fresh_world) /\
    Validator.load_properties_from_json
      (sample_env sample_config (VDict [(VStr "env", VStr "prod")]) VNone)
      (Validator.arg_properties_file args) fresh_world = (Ret properties, fresh_world) /\
    Validator.validate_all_properties self properties = Ok r /\
    Validator.overall_valid r = true /\
    Validator.errors r = [] /\ Validator.missing_required r = [].
Proof.
  exact (@exit_zero_means_valid_or_help
           (sample_env sample_config (VDict [(VStr "env", VStr "prod")]) VNone)
           (Namespace sample_args) fresh_world eq_refl).
Defined.

(** X6. Whatever the command line and the files hold, a run of the
    validator ends with status 0, 1 or 2: with 2 when [argparse] refuses
    the command line (and then only the usage and the error went out, to
    the error stream), with 0 when the help is asked for (and then only
    the help went out, to standard output), and with 0 or 1 once the
    command line is parsed. *)
Theorem validator_status_is_zero_one_or_two
        (env : environment) (command_line : parsed Validator.arguments) (w : world) :
  match command_line with
  | Refused usage message =>
      run (Validator.entry_point env command_line) w =
      (2, complained message (complained usage w))
  | Help text =>
      run (Validator.entry_point env command_line) w = (0, printed text w)
  | Namespace args =>
      fst (run (Validator.entry_point env command_line) w) = 0 \/
      fst (run (Validator.entry_point env command_line) w) = 1
  end.
Proof.
  rewrite validator_entry_point_runs.
  destruct command_line as [args | text | usage message]; try reflexivity.
  destruct (main_outcome env args w) as [H1 | (self & properties & r & _ & _ & _ & Hc)].
  - now right.
  - rewrite Hc. destruct (Validator.overall_valid r); auto.
Qed.

(** ** Rule documents of the wrong shape *)

(** X7. A rule document that loads, but not as a mapping (an empty file
    loads as [None]), is not reported as a load failure: [__init__]
    raises [AttributeError], nobody catches it, and the run ends with
    status 1, the interpreter's report on the error stream and nothing on
    standard output. *)
Theorem rule_document_not_a_mapping
        (env : environment) (args : Validator.arguments) (text : string)
        (cfg : pyval) (w : world) :
  open_read env (Validator.arg_config args) = Ok text ->
  yaml_safe_load env text = Ok cfg ->
  is_mapping cfg = false ->
  run (Validator.main env args) w =
  (1, World (stdout w)
            (stderr w ++ traceback (no_attribute cfg "get"))
            (written w)).
Proof.
  intros Hopen Hload Hshape.
  unfold run, Validator.main, Validator.init, Validator._load_config,
    try_except, bind, lift.
  rewrite Hopen, Hload.
  destruct cfg; try discriminate; reflexivity.
Qed.

Lemma rule_document_not_a_mapping_witness :
  run (Validator.main (sample_env VNone (VDict []) VNone) sample_args) fresh_world =
  (1, {| stdout := [];
         stderr := ["Traceback (most recent call last):";
                    "AttributeError: 'NoneType' object has no attribute 'get'"];
         written := [] |}).
Proof.
  exact (@rule_document_not_a_mapping
           (sample_env VNone (VDict []) VNone) sample_args "rules.yaml" VNone
           fresh_world eq_refl eq_refl eq_refl).
Defined.

Lemma required_loop_prefix (properties : dict pyval)
      (before : list (pyval * pyval)) (r : Validator.results) :
  rule_mapping before = true ->
  exists r', for_each before (Validator.check_required properties) r = Ok r'.
Proof.
  intros Hok.
  destruct (@required_loop_exact before Hok properties before r (fun _ H => H))
    as (r' & E & _).
  now exists r'.
Qed.

(** X8. A rule that is not a mapping (a rule name followed by nothing
    loads as [None]) stops the scan: once the rules before it are
    checked, [rule.get] raises [AttributeError], so no verdict is
    reached, whatever the PropertySet holds. *)
Theorem rule_not_a_mapping
        (self : Validator.PropertyValidator)
        (before after : list (pyval * pyval)) (name rule : pyval)
        (properties : dict pyval) :
  Validator.validation_rules self = VDict (before ++ (name, rule) :: after)%list ->
  rule_mapping before = true ->
  is_mapping rule = false ->
  Validator.validate_all_properties self properties = Err (no_attribute rule "get").
Proof.
  intros Hrules Hbefore Hshape. unfold Validator.validate_all_properties.
  rewrite Hrules. cbn [py_items rbind]. rewrite for_each_app.
  destruct (required_loop_prefix properties before Validator.initial_results Hbefore)
    as (r' & ->).
  cbn [rbind for_each]. unfold Validator.check_required.
  destruct rule; try discriminate; reflexivity.
Qed.

Lemma rule_not_a_mapping_witness :
  Validator.validate_all_properties
    {| Validator.config := VNone;
       Validator.validation_rules := VDict [(VStr "env", env_rule); (VStr "tier", VNone)] |}
    [(VStr "env", VStr "prod")] =
  Err (Exn AttributeError "'NoneType' object has no attribute 'get'").
Proof.
  exact (@rule_not_a_mapping
           {| Validator.config := VNone;
              Validator.validation_rules :=
                VDict [(VStr "env", env_rule); (VStr "tier", VNone)] |}
           [(VStr "env", env_rule)] [] (VStr "tier") VNone
           [(VStr "env", VStr "prod")] eq_refl eq_refl eq_refl).
Defined.

(** ** Where the validator writes *)

Lemma prints_only_ret {A : Type} (a : A) : prints_only (ret a).
Proof. intros w. exists a, []. unfold ret. rewrite app_nil_r. now destruct w. Qed.

Lemma prints_only_print (line : string) : prints_only (print line).
Proof. intros w. exists tt, [line]. reflexivity. Qed.

Lemma prints_only_bind {A B : Type} (c : M A) (f : A -> M B) :
  prints_only c -> (forall a, prints_only (f a)) -> prints_only (bind c f).
Proof.
  intros Hc Hf w. destruct (Hc w) as (a & l1 & E1).
  destruct (Hf a (World (stdout w ++ l1) (stderr w) (written w))) as (b & l2 & E2).
  exists b, (l1 ++ l2)%list. unfold bind. rewrite E1, E2. cbn.
  now rewrite app_assoc.
Qed.

Lemma prints_only_bind_lift {A B : Type} (c : res A) (a : A) (f : A -> M B) :
  c = Ok a -> prints_only (f a) -> prints_only (bind (lift c) f).
Proof. intros -> Hf w. unfold bind, lift. apply Hf. Qed.

Lemma prints_only_when (b : bool) (c : M unit) :
  prints_only c -> prints_only (when b c).
Proof. destruct b; cbn; [auto | intros _; apply prints_only_ret]. Qed.

Lemma prints_only_for_each_M {A : Type} (xs : list A) (body : A -> M unit) :
  (forall x, In x xs -> prints_only (body x)) -> prints_only (for_each_M xs body).
Proof.
  induction xs as [| x xs IH]; intros H; cbn.
  - apply prints_only_ret.
  - apply prints_only_bind.
    + apply H. now left.
    + intros _. apply IH. intros y Hy. apply H. now right.
Qed.

Create HintDb prints.
#[local] Hint Resolve prints_only_ret prints_only_print prints_only_when : prints.

Lemma print_github_actions_output_prints_only
      (self : Validator.PropertyValidator) (rules : list (pyval * pyval))
      (properties : dict pyval) (r : Validator.results) :
  Validator.validation_rules self = VDict rules ->
  rule_mapping rules = true ->
  property_set properties = true ->
  (forall x, In x (Validator.unknown_properties r) -> exists v, In (x, v) properties) ->
  (forall x, In x (Validator.missing_required r) -> exists rule, In (x, rule) rules) ->
  prints_only (Validator.print_github_actions_output self r properties).
Proof.
  intros Hrules Hok Hps Hu Hm. unfold Validator.print_github_actions_output.
  repeat (apply prints_only_bind; [| intros _]); auto with prints.
  - destruct (Validator.overall_valid r); apply prints_only_print.
  - apply prints_only_for_each_M. auto with prints.
  - apply prints_only_when.
    apply prints_only_bind; [apply prints_only_print | intros _].
    apply prints_only_for_each_M. auto with prints.
  - apply prints_only_when. apply prints_only_for_each_M. intros x Hx.
    destruct (Hu x Hx) as (v & Hin).
    pose proof (@property_set_In properties Hps x v Hin) as Hh.
    pose proof (dict_contains_item _ _ _ Hh Hin) as Hc. unfold dict_contains in Hc.
    destruct (dict_get x properties) as [v' |] eqn:Hget; [| discriminate].
    apply prints_only_bind_lift with (a := v'); [| apply prints_only_print].
    cbn. now rewrite Hh, Hget.
  - apply prints_only_for_each_M. intros x Hx.
    destruct (Hm x Hx) as (rule & Hin).
    destruct (rule_mapping_In _ _ _ Hok Hin) as [Hh _].
    pose proof (dict_contains_item _ _ _ Hh Hin) as Hc. unfold dict_contains in Hc.
    destruct (dict_get x rules) as [rule' |] eqn:Hget; [| discriminate].
    destruct (rule_schema_valid_values rule' VNone (rule_mapping_get _ _ Hok Hget))
      as (values & Hvals & _).
    apply prints_only_bind_lift with (a := rule').
    + rewrite Hrules. cbn. now rewrite Hh, Hget.
    + apply prints_only_bind_lift with (a := values);
        [exact Hvals | apply prints_only_print].
  - apply prints_only_for_each_M. auto with prints.
  - destruct (Validator.overall_valid r); apply prints_only_print.
Qed.

(** The run of the validator on loaded files, line by line: the warning
    about an empty PropertySet, the report, the line with the status. *)
Lemma main_run_lines
      (env : environment) (args : Validator.arguments)
      (cfg_text props_text : string)
      (cfg rules : list (pyval * pyval)) (data : pyval) (w : world) :
  open_read env (Validator.arg_config args) = Ok cfg_text ->
  yaml_safe_load env cfg_text = Ok (VDict cfg) ->
  py_get (VDict cfg) "validation_rules" (VDict []) = Ok (VDict rules) ->
  rule_mapping rules = true ->
  open_read env (Validator.arg_properties_file args) = Ok props_text ->
  json_load env props_text = Ok data ->
  property_set (match data with VDict d => d | _ => [] end) = true ->
  exists r report,
    Validator.validate_all_properties
      {| Validator.config := VDict cfg; Validator.validation_rules := VDict rules |}
      (match data with VDict d => d | _ => [] end) = Ok r /\
    run (Validator.main env args) w =
    (if Validator.overall_valid r then 0 else 1,
     World (stdout w
              ++ (if truthy (VDict (match data with VDict d => d | _ => [] end))
                  then [] else ["::warning::No properties found in input file"])
              ++ report
              ++ ["::debug::Exiting with code "
                    ++ str_of_Z (if Validator.overall_valid r then 0 else 1)])
           (stderr w) (written w)).
Proof.
  intros Hco Hcl Hrules Hok Hpo Hpl Hps.
  set (properties := match data with VDict d => d | _ => [] end) in *.
  set (self := {| Validator.config := VDict cfg;
                  Validator.validation_rules := VDict rules |}).
  destruct (@validate_all_properties_scan self rules properties eq_refl Hok Hps)
    as (r & Hscan & _ & Hu & Hm).
  pose proof (@print_github_actions_output_prints_only
                self rules properties r eq_refl Hok Hps Hu Hm) as Hprint.
  set (l1 := if truthy (VDict properties) then []
             else ["::warning::No properties found in input file"]).
  assert (E1 : when (negb (truthy (VDict properties)))
                    (print "::warning::No properties found in input file") w =
               (Ret tt, World (stdout w ++ l1) (stderr w) (written w))).
  { unfold l1. destruct (truthy (VDict properties)); cbn; [| reflexivity].
    unfold ret. rewrite app_nil_r. now destruct w. }
  destruct (Hprint (World (stdout w ++ l1) (stderr w) (written w))) as ([] & l2 & E2).
  exists r, l2. split; [exact Hscan |].
  unfold run, Validator.main.
  rewrite (bind_Ret _ _ (@init_loaded env _ _ _ w Hco Hcl)).
  rewrite (bind_Ret _ _ (@load_properties_loaded env _ _ _ w Hpo Hpl)).
  fold properties. cbn [py_get] in Hrules. injection Hrules as Hrules.
  rewrite Hrules. fold self.
  rewrite (bind_Ret _ _ E1). unfold bind at 1, lift. rewrite Hscan.
  rewrite (bind_Ret _ _ E2). unfold bind, print, sys_exit. cbn.
  now rewrite <- !app_assoc.
Qed.

(** X9. With both files loaded and a well-formed rule mapping, the
    validator writes to standard output only: the error stream and the
    files are left as they were, and the last line written states the
    exit status, which is 0 for a valid verdict and 1 otherwise. *)
Theorem validator_writes_to_stdout_only
        (env : environment) (args : Validator.arguments)
        (cfg_text props_text : string)
        (cfg rules : list (pyval * pyval)) (data : pyval) (w : world) :
  open_read env (Validator.arg_config args) = Ok cfg_text ->
  yaml_safe_load env cfg_text = Ok (VDict cfg) ->
  py_get (VDict cfg) "validation_rules" (VDict []) = Ok (VDict rules) ->
  rule_mapping rules = true ->
  open_read env (Validator.arg_properties_file args) = Ok props_text ->
  json_load env props_text = Ok data ->
  property_set (match data with VDict d => d | _ => [] end) = true ->
  exists r lines,
    Validator.validate_all_properties
      {| Validator.config := VDict cfg; Validator.validation_rules := VDict rules |}
      (match data with VDict d => d | _ => [] end) = Ok r /\
    let status := if Validator.overall_valid r then 0 else 1 in
    run (Validator.main env args) w =
    (status,
     World (stdout w ++ lines ++ ["::debug::Exiting with code " ++ str_of_Z status])
           (stderr w) (written w)).
Proof.
  intros Hco Hcl Hrules Hok Hpo Hpl Hps.
  destruct (@main_run_lines env args cfg_text props_text cfg rules data w
                            Hco Hcl Hrules Hok Hpo Hpl Hps)
    as (r & report & Hscan & Hrun).
  exists r.
  exists ((if truthy (VDict (match data with VDict d => d | _ => [] end))
           then [] else ["::warning::No properties found in input file"])
            ++ report)%list.
  split; [exact Hscan |]. cbv zeta. rewrite Hrun.
  now rewrite <- (app_assoc _ report).
Qed.

Lemma validator_writes_to_stdout_only_witness :
  exists r lines,
    Validator.validate_all_properties
      {| Validator.config := sample_config;
         Validator.validation_rules := VDict sample_rules |}
      [(VStr "env", VStr "staging")] = Ok r /\
    let status := if Validator.overall_valid r then 0 else 1 in
    run (Validator.main
           (sample_env sample_config (VDict [(VStr "env", VStr "staging")]) VNone)
           sample_args) fresh_world =
    (status,
     World ([] ++ lines ++ ["::debug::Exiting with code " ++ str_of_Z status]) [] []).
Proof.
  exact (@validator_writes_to_stdout_only
           (sample_env sample_config (VDict [(VStr "env", VStr "staging")]) VNone)
           sample_args "rules.yaml" "properties.json" _ sample_rules
           (VDict [(VStr "env", VStr "staging")]) fresh_world
           eq_refl eq_refl eq_refl eq_refl eq_refl eq_refl eq_refl).
Defined.

Lemma forallb_pointwise {A : Type} (f g : A -> bool) (xs : list A) :
  (forall x, f x = g x) -> forallb f xs = forallb g xs.
Proof.
  intros H. induction xs as [| x xs IH]; cbn; [reflexivity |].
  now rewrite H, IH.
Qed.

(** X10. A properties file that holds well-formed JSON other than an
    object (a list, a number, a text, [null]) is read as the empty
    PropertySet: with a well-formed rule mapping the run warns that no
    properties were found, reports every rule with [required: true] as
    missing and nothing else, and leaves with status 0 only if no rule is
    required. *)
Theorem properties_file_not_an_object
        (env : environment) (args : Validator.arguments)
        (cfg_text props_text : string)
        (cfg rules : list (pyval * pyval)) (data : pyval) (w : world) :
  open_read env (Validator.arg_config args) = Ok cfg_text ->
  yaml_safe_load env cfg_text = Ok (VDict cfg) ->
  py_get (VDict cfg) "validation_rules" (VDict []) = Ok (VDict rules) ->
  rule_mapping rules = true ->
  open_read env (Validator.arg_properties_file args) = Ok props_text ->
  json_load env props_text = Ok data ->
  is_mapping data = false ->
  exists r rest,
    Validator.validate_all_properties
      {| Validator.config := VDict cfg; Validator.validation_rules := VDict rules |}
      [] = Ok r /\
    Validator.missing_required r =
      map fst (filter (fun item => required (snd item)) rules) /\
    Validator.unknown_properties r = [] /\
    Validator.errors r = [] /\
    run (Validator.main env args) w =
    (if forallb (fun item => negb (required (snd item))) rules then 0 else 1,
     World (stdout w ++ "::warning::No properties found in input file" :: rest)
           (stderr w) (written w)).
Proof.
  intros Hco Hcl Hrules Hok Hpo Hpl Hshape.
  assert (Hps : property_set (match data with VDict d => d | _ => [] end) = true)
    by (destruct data; try reflexivity; discriminate).
  destruct (@main_run_lines env args cfg_text props_text cfg rules data w
                            Hco Hcl Hrules Hok Hpo Hpl Hps)
    as (r & report & Hscan & Hrun).
  set (self := {| Validator.config := VDict cfg;
                  Validator.validation_rules := VDict rules |}) in *.
  assert (Hscan' : Validator.validate_all_properties self [] = Ok r)
    by (destruct data; try discriminate Hshape; exact Hscan).
  assert (Hrun' :
            run (Validator.main env args) w =
            (if Validator.overall_valid r then 0 else 1,
             World (stdout w
                      ++ ["::warning::No properties found in input file"]
                      ++ report
                      ++ ["::debug::Exiting with code "
                            ++ str_of_Z (if Validator.overall_valid r then 0 else 1)])
                   (stderr w) (written w)))
    by (destruct data; try discriminate Hshape; exact Hrun).
  clear Hscan Hrun. rename Hscan' into Hscan. rename Hrun' into Hrun.
  destruct (@validate_all_properties_scan self rules [] eq_refl Hok eq_refl)
    as (r0 & Hscan0 & Hverdict & _).
  destruct (@required_loop_exact rules Hok [] rules Validator.initial_results
                                 (fun _ H => H)) as (r1 & E1 & Hm1 & He1 & Hu1).
  assert (Hr : r = r1).
  { revert Hscan. unfold Validator.validate_all_properties.
    cbn [self Validator.validation_rules py_items rbind]. rewrite E1.
    cbn. congruence. }
  assert (Hr0 : r0 = r) by congruence. subst r0 r1.
  exists r. eexists. split; [exact Hscan |].
  split; [| split; [exact Hu1 | split; [exact He1 |]]].
  - rewrite Hm1. cbn [Validator.missing_required Validator.initial_results app].
    f_equal. apply filter_ext. intros [name rule]. unfold satisfied. cbn.
    now destruct (required rule).
  - rewrite Hrun. rewrite Hverdict. cbn [forallb andb].
    rewrite andb_true_r.
    replace (forallb (satisfied []) rules)
      with (forallb (fun item => negb (required (snd item))) rules).
    + reflexivity.
    + apply forallb_pointwise. intros [name rule]. unfold satisfied. cbn.
      now rewrite orb_false_r.
Qed.

Lemma properties_file_not_an_object_witness :
  exists r rest,
    Validator.validate_all_properties
      {| Validator.config := sample_config;
         Validator.validation_rules := VDict sample_rules |} [] = Ok r /\
    Validator.missing_required r = [VStr "env"] /\
    Validator.unknown_properties r = [] /\
    Validator.errors r = [] /\
    run (Validator.main (sample_env sample_config (VList [VStr "env"]) VNone)
                        sample_args) fresh_world =
    (1, World ("::warning::No properties found in input file" :: rest) [] []).
Proof.
  exact (@properties_file_not_an_object
           (sample_env sample_config (VList [VStr "env"]) VNone)
           sample_args "rules.yaml" "properties.json" _ sample_rules
           (VList [VStr "env"]) fresh_world
           eq_refl eq_refl eq_refl eq_refl eq_refl eq_refl eq_refl).
Defined.

(** * Further properties of the extractor *)

(** ** Loading *)

Lemma extract_properties_outcome
        (env : environment) (yaml_file_path : string) (w : world) :
  (exists properties,
      Extractor.extract_properties_from_yaml env yaml_file_path w =
      (Ret properties, w)) \/
  (exists line,
      Extractor.extract_properties_from_yaml env yaml_file_path w =
      (Exit 1, complained line w)).
Proof.
  unfold Extractor.extract_properties_from_yaml, try_except, bind, lift.
  destruct (open_read env yaml_file_path) as [text | e].
  - destruct (yaml_safe_load env text) as [data | e].
    + destruct (Extractor.extract data) as [properties | e].
      * left. now exists properties.
      * right. destruct (exn_is FileNotFoundError e);
          [| destruct (exn_is YAMLError e)]; eexists; reflexivity.
    + right. destruct (exn_is FileNotFoundError e);
        [| destruct (exn_is YAMLError e)]; eexists; reflexivity.
  - right. destruct (exn_is FileNotFoundError e);
      [| destruct (exn_is YAMLError e)]; eexists; reflexivity.
Qed.

(** X11. Loading the source document never ends in an uncaught
    exception: either it returns a PropertySet and leaves the console as
    it was, or it writes one line to the error stream and leaves with
    status 1. *)
Theorem extractor_load_never_raises
        (env : environment) (yaml_file_path : string) (w : world) :
  (exists properties,
      Extractor.extract_properties_from_yaml env yaml_file_path w =
      (Ret properties, w)) \/
  (exists line,
      Extractor.extract_properties_from_yaml env yaml_file_path w =
      (Exit 1, complained line w)).
Proof. exact (extract_properties_outcome env yaml_file_path w). Qed.

(** ** What the loop over the records keeps *)

(** A record either leaves the PropertySet as it is or stores its value
    under its name. *)
Lemma collect_inv (prop : pyval) (acc acc' : dict pyval) :
  Extractor.collect prop acc = Ok acc' ->
  acc' = acc \/
  exists name value,
    py_getitem prop (VStr "name") = Ok name /\
    py_getitem prop (VStr "value") = Ok value /\
    hashable name = true /\
    acc' = dict_set name value acc.
Proof.
  unfold Extractor.collect.
  destruct (py_in (VStr "name") prop) as [has_name | e]; cbn [rbind]; [| discriminate].
  destruct (if has_name then py_in (VStr "value") prop else Ok false)
    as [has_both | e]; cbn [rbind]; [| discriminate].
  destruct has_both; [| intros [= <-]; now left].
  destruct (py_getitem prop (VStr "value")) as [value | e]; cbn [rbind];
    [| discriminate].
  destruct (py_getitem prop (VStr "name")) as [name | e]; cbn [rbind];
    [| discriminate].
  unfold Extractor.py_setitem. destruct (hashable name) eqn:Hh; [| discriminate].
  intros [= <-]. right. exists name, value. auto.
Qed.

Lemma distinct_snoc (keys : list pyval) (k : pyval) :
  hashable k = true ->
  distinct keys = true ->
  existsb (py_eqb k) keys = false ->
  distinct (keys ++ [k]) = true.
Proof.
  intros Hk. induction keys as [| k' keys IH]; cbn; [reflexivity |].
  intros Hd Hnew. apply andb_prop in Hd. destruct Hd as [Hfresh Hd].
  apply orb_false_elim in Hnew. destruct Hnew as [Hne Hnew].
  rewrite existsb_app. cbn. rewrite orb_false_r.
  apply negb_true_iff in Hfresh. rewrite Hfresh. cbn.
  rewrite (py_eqb_sym_hashable k k' Hk), Hne. cbn. auto.
Qed.

Lemma dict_set_keeps_dict (k v : pyval) (d : dict pyval) :
  hashable k = true ->
  property_set d = true /\ distinct (dict_keys d) = true ->
  property_set (dict_set k v d) = true /\ distinct (dict_keys (dict_set k v d)) = true.
Proof.
  intros Hk [Hh Hd].
  assert (Hkeys : forall d' : dict pyval,
             property_set d' = forallb hashable (dict_keys d')).
  { intros d'. unfold property_set, dict_keys.
    induction d' as [| x d' IH]; cbn; [reflexivity | now rewrite IH]. }
  rewrite Hkeys in *. rewrite dict_keys_set.
  destruct (existsb (py_eqb k) (dict_keys d)) eqn:E; [auto |].
  split.
  - rewrite forallb_app, Hh. cbn. now rewrite Hk.
  - now apply distinct_snoc.
Qed.

Lemma extract_inv (data : pyval) (properties : dict pyval) :
  Extractor.extract data = Ok properties ->
  properties = [] \/
  exists inner records props,
    py_getitem data (VStr "data") = Ok inner /\
    py_getitem inner (VStr "additionalProperties") = Ok records /\
    py_iter records = Ok props /\
    for_each props Extractor.collect [] = Ok properties.
Proof.
  unfold Extractor.extract.
  destruct (py_in (VStr "data") data) as [has_data | e]; cbn [rbind]; [| discriminate].
  destruct has_data.
  - destruct (py_getitem data (VStr "data")) as [inner | e] eqn:Ed; cbn [rbind];
      [| discriminate].
    destruct (py_in (VStr "additionalProperties") inner) as [located | e];
      cbn [rbind]; [| discriminate].
    destruct located; [| intros [= <-]; now left].
    destruct (py_getitem inner (VStr "additionalProperties")) as [records | e] eqn:El;
      cbn [rbind]; [| discriminate].
    destruct (py_iter records) as [props | e] eqn:Ei; cbn [rbind]; [| discriminate].
    intros E. right. exists inner, records, props. repeat split; assumption.
  - cbn [rbind]. intros [= <-]. now left.
Qed.

(** X12. Whatever the source document holds, a PropertySet the extractor
    returns is a proper dict: every name can be a dict key and no two
    names are equal. *)
Theorem extracted_names_are_distinct_keys (data : pyval) (properties : dict pyval) :
  Extractor.extract data = Ok properties ->
  property_set properties = true /\ distinct (dict_keys properties) = true.
Proof.
  intros E. destruct (extract_inv data E) as [-> | (inner & records & props & _ & _ & _ & Hloop)].
  - split; reflexivity.
  - apply (for_each_invariant
             (fun d => property_set d = true /\ distinct (dict_keys d) = true)
             props Extractor.collect []); [| split; reflexivity | exact Hloop].
    intros x t t' _ Ht Hc.
    destruct (collect_inv x t Hc) as [-> | (name & value & _ & _ & Hh & ->)];
      [exact Ht | now apply dict_set_keeps_dict].
Qed.

Lemma extracted_names_are_distinct_keys_witness :
  property_set [(VStr "env", VStr "prod"); (VStr "tier", VStr "gold")] = true /\
  distinct (dict_keys [(VStr "env", VStr "prod"); (VStr "tier", VStr "gold")]) = true.
Proof.
  exact (@extracted_names_are_distinct_keys
           (VDict (api_with [record "env" "dev"; record "tier" "gold";
                             record "env" "prod"]))
           [(VStr "env", VStr "prod"); (VStr "tier", VStr "gold")] eq_refl).
Defined.

Lemma In_dict_set {V : Type} (a k : pyval) (b v : V) (d : dict V) :
  hashable k = true ->
  In (a, b) (dict_set k v d) ->
  In (a, b) d \/ (b = v /\ py_eqb k a = true).
Proof.
  intros Hk. induction d as [| [k' v'] d IH]; cbn.
  - intros [[= <- <-] | []]. right. split; [reflexivity |].
    now apply py_eqb_refl_hashable.
  - destruct (py_eqb k k') eqn:E; cbn.
    + intros [[= <- <-] | Hin]; auto.
    + intros [Heq | Hin]; [auto |]. destruct (IH Hin); auto.
Qed.

(** X13. The extractor invents nothing: every property of the
    PropertySet it returns comes from a record of
    [data.additionalProperties] that holds its value under [value] and,
    under [name], a name equal to the property's. *)
Theorem extracted_property_has_a_record
        (data : pyval) (properties : dict pyval) (name value : pyval) :
  Extractor.extract data = Ok properties ->
  In (name, value) properties ->
  exists inner records props r n,
    py_getitem data (VStr "data") = Ok inner /\
    py_getitem inner (VStr "additionalProperties") = Ok records /\
    py_iter records = Ok props /\
    In r props /\
    py_getitem r (VStr "name") = Ok n /\ py_eqb n name = true /\
    py_getitem r (VStr "value") = Ok value.
Proof.
  intros E Hin.
  destruct (extract_inv data E) as [-> | (inner & records & props & Hd & Hl & Hi & Hloop)];
    [destruct Hin |].
  exists inner, records, props.
  assert (H : forall k v, In (k, v) properties ->
                          exists r n, In r props /\
                                      py_getitem r (VStr "name") = Ok n /\
                                      py_eqb n k = true /\
                                      py_getitem r (VStr "value") = Ok v).
  { apply (for_each_invariant
             (fun d : dict pyval =>
                forall k v, In (k, v) d ->
                            exists r n, In r props /\
                                        py_getitem r (VStr "name") = Ok n /\
                                        py_eqb n k = true /\
                                        py_getitem r (VStr "value") = Ok v)
             props Extractor.collect []); [| intros k v [] | exact Hloop].
    intros x t t' Hx Ht Hc k v Hkv.
    destruct (collect_inv x t Hc) as [-> | (n & val & Hn & Hv & Hh & ->)];
      [now apply Ht |].
    destruct (In_dict_set k n v val t Hh Hkv) as [Hold | [-> Heq]];
      [now apply Ht |].
    exists x, n. auto. }
  destruct (H name value Hin) as (r & n & Hr & Hn & Heq & Hv).
  exists r, n. auto 10.
Qed.

Lemma extracted_property_has_a_record_witness :
  exists inner records props r n,
    py_getitem (VDict (api_with [record "env" "dev"; record "env" "prod"]))
               (VStr "data") = Ok inner /\
    py_getitem inner (VStr "additionalProperties") = Ok records /\
    py_iter records = Ok props /\
    In r props /\
    py_getitem r (VStr "name") = Ok n /\ py_eqb n (VStr "env") = true /\
    py_getitem r (VStr "value") = Ok (VStr "prod").
Proof.
  exact (@extracted_property_has_a_record
           (VDict (api_with [record "env" "dev"; record "env" "prod"]))
           [(VStr "env", VStr "prod")] (VStr "env") (VStr "prod")
           eq_refl (or_introl eq_refl)).
Defined.

(** ** The exit status of the extractor *)










(** ** Where the content goes *)

Lemma output_properties_delivers
      (env : environment) (properties : dict pyval) (output_format : string)
      (output_file : option string) (content : string) (w : world) :
  Extractor.output_content env properties output_format = Ok content ->
  (forall path, output_path output_file = Some path -> open_write env path = Ok tt) ->
  Extractor.output_properties env properties output_format output_file w =
  (Ret tt, delivered output_file content w).
Proof.
  intros Hcontent Hwrite.
  unfold Extractor.output_properties, Extractor.write_file, delivered, output_path,
    bind, lift, print, printed in *.
  rewrite Hcontent. destruct output_file as [path |]; [| reflexivity].
  destruct (String.eqb path ""); cbn [negb]; [reflexivity |].
  now rewrite (Hwrite path eq_refl).
Qed.

(** X16. [output_properties] sends the content to one place. Without
    [--output], or with an empty path, it prints the content. With a
    path that can be opened it writes the content to the file and prints
    only the confirmation. With a path that cannot be opened the
    exception goes up and nothing is written or printed. *)
Theorem content_goes_to_one_place
        (env : environment) (properties : dict pyval) (output_format : string)
        (content : string) (w : world) :
  Extractor.output_content env properties output_format = Ok content ->
  Extractor.output_properties env properties output_format None w =
    (Ret tt, printed content w) /\
  Extractor.output_properties env properties output_format (Some "") w =
    (Ret tt, printed content w) /\
  (forall path,
      path <> "" -> open_write env path = Ok tt ->
      Extractor.output_properties env properties output_format (Some path) w =
      (Ret tt, World (stdout w ++ ["Properties written to: " ++ path]) (stderr w)
                     (written w ++ [(path, content)]))) /\
  (forall path e,
      path <> "" -> open_write env path = Err e ->
      Extractor.output_properties env properties output_format (Some path) w =
      (Raise e, w)).
Proof.
  intros Hcontent.
  unfold Extractor.output_properties, Extractor.write_file, bind, lift, print, printed.
  rewrite Hcontent. repeat split.
  - intros path Hpath Hopen. apply String.eqb_neq in Hpath. rewrite Hpath.
    cbn [negb]. now rewrite Hopen.
  - intros path e Hpath Hopen. apply String.eqb_neq in Hpath. rewrite Hpath.
    cbn [negb]. now rewrite Hopen.
Qed.

Lemma content_goes_to_one_place_witness :
  Extractor.output_properties
    (sample_env sample_config (VDict []) VNone)
    [(VStr "env", VStr "dev")] "github" (Some "out.txt") fresh_world =
  (Ret tt, {| stdout := ["Properties written to: out.txt"];
              stderr := [];
              written := [("out.txt", "env=dev")] |}).
Proof.
  exact (proj1 (proj2 (proj2
           (@content_goes_to_one_place
              (sample_env sample_config (VDict []) VNone)
              [(VStr "env", VStr "dev")] "github" "env=dev" fresh_world eq_refl)))
           "out.txt" ltac:(discriminate) eq_refl).
Defined.

(** ** Whole runs of the extractor *)

Section ExtractorRun.
Variable env : environment.
Variable args : Extractor.arguments.
Variable text : string.
Variable data : pyval.
Variable properties : dict pyval.
Hypothesis opened : open_read env (Extractor.arg_yaml_file args) = Ok text.
Hypothesis loaded : yaml_safe_load env text = Ok data.
Hypothesis extracted : Extractor.extract data = Ok properties.
Hypothesis found : properties <> [].

(** The run up to the call of [output_properties]. *)
Lemma extractor_run_to_output (w : world) :
  run (Extractor.script env args) w =
  match Extractor.output_properties env properties (Extractor.arg_format args)
          (Extractor.arg_output args) (counted args properties (announced args w)) with
  | (Ret _, w') => (0, w')
  | (Exit code, w') => (code, w')
  | (Raise e, w') =>
      (1, World (stdout w') (stderr w' ++ traceback e) (written w'))
  end.
Proof.
  assert (Hload : forall w0,
             Extractor.extract_properties_from_yaml
               env (Extractor.arg_yaml_file args) w0 = (Ret properties, w0)).
  { intros w0. unfold Extractor.extract_properties_from_yaml, try_except, bind, lift.
    now rewrite opened, loaded, extracted. }
  unfold run, Extractor.script, Extractor.main.
  unfold announced, counted, complained, traceback.
  destruct properties as [| item rest]; [contradiction |].
  unfold bind, when, eprint, ret.
  destruct (Extractor.arg_verbose args); rewrite Hload; cbn [truthy negb];
    cbn [stdout stderr written];
    match goal with
    | |- context [Extractor.output_properties ?e ?p ?f ?o ?w0] =>
        destruct (Extractor.output_properties e p f o w0) as [[[] | code | ex] w1]
    end; reflexivity.
Qed.

End ExtractorRun.

(** X17. A run that finds properties and can deliver them ends with
    status 0 after exactly this: the verbose notices on the error stream
    if asked for, and the content of the requested format in the file
    (with the confirmation on standard output) or on standard output. *)
Theorem extractor_successful_run
        (env : environment) (args : Extractor.arguments) (text content : string)
        (data : pyval) (properties : dict pyval) (w : world) :
  open_read env (Extractor.arg_yaml_file args) = Ok text ->
  yaml_safe_load env text = Ok data ->
  Extractor.extract data = Ok properties ->
  properties <> [] ->
  Extractor.output_content env properties (Extractor.arg_format args) = Ok content ->
  (forall path, output_path (Extractor.arg_output args) = Some path ->
                open_write env path = Ok tt) ->
  run (Extractor.script env args) w =
  (0, delivered (Extractor.arg_output args) content
                (counted args properties (announced args w))).
Proof.
  intros Hopen Hload Hextract Hfound Hcontent Hwrite.
  rewrite (extractor_run_to_output env args Hopen Hload Hextract Hfound).
  now rewrite (output_properties_delivers env properties _ _ _ Hcontent Hwrite).
Qed.

Lemma extractor_successful_run_witness :
  run (Extractor.script
         (sample_env sample_config (VDict [])
                     (VDict (api_with [record "Env" "dev"; record "tier" "gold"])))
         {| Extractor.arg_yaml_file := "api.yaml";
            Extractor.arg_format := "env";
            Extractor.arg_output := Some "build.env";
            Extractor.arg_verbose := true |}) fresh_world =
  (0, {| stdout := ["Properties written to: build.env"];
         stderr := ["Extracting properties from: api.yaml"; "Found 2 properties"];
         written := [("build.env", "ENV=dev" ++ Extractor.nl ++ "TIER=gold")] |}).
Proof.
  apply (@extractor_successful_run
           (sample_env sample_config (VDict [])
                       (VDict (api_with [record "Env" "dev"; record "tier" "gold"])))
           {| Extractor.arg_yaml_file := "api.yaml";
              Extractor.arg_format := "env";
              Extractor.arg_output := Some "build.env";
              Extractor.arg_verbose := true |}
           "api.yaml" ("ENV=dev" ++ Extractor.nl ++ "TIER=gold")
           (VDict (api_with [record "Env" "dev"; record "tier" "gold"]))
           [(VStr "Env", VStr "dev"); (VStr "tier", VStr "gold")] fresh_world);
    try reflexivity; discriminate.
Defined.

(** X18. An empty PropertySet ends the run before anything is
    formatted: status 0, the notice on the error stream, nothing on
    standard output and no file written, whatever format and output file
    were asked for. *)
Theorem extractor_empty_result
        (env : environment) (args : Extractor.arguments) (text : string)
        (data : pyval) (w : world) :
  open_read env (Extractor.arg_yaml_file args) = Ok text ->
  yaml_safe_load env text = Ok data ->
  Extractor.extract data = Ok [] ->
  run (Extractor.script env args) w =
  (0, World (stdout w)
            (stderr (announced args w)
               ++ ["No properties found in additionalProperties section"])
            (written w)).
Proof.
  intros Hopen Hload Hextract.
  rewrite (extractor_empty_run env args Hopen Hload w Hextract).
  unfold complained, announced.
  now destruct (Extractor.arg_verbose args).
Qed.

Lemma extractor_empty_result_witness :
  run (Extractor.script
         (sample_env sample_config (VDict []) (VDict (api_with [])))
         {| Extractor.arg_yaml_file := "api.yaml";
            Extractor.arg_format := "json";
            Extractor.arg_output := Some "out.json";
            Extractor.arg_verbose := false |}) fresh_world =
  (0, {| stdout := [];
         stderr := ["No properties found in additionalProperties section"];
         written := [] |}).
Proof.
  exact (@extractor_empty_result
           (sample_env sample_config (VDict []) (VDict (api_with [])))
           {| Extractor.arg_yaml_file := "api.yaml";
              Extractor.arg_format := "json";
              Extractor.arg_output := Some "out.json";
              Extractor.arg_verbose := false |}
           "api.yaml" (VDict (api_with [])) fresh_world eq_refl eq_refl eq_refl).
Defined.

(** ** Names that are not texts *)

Lemma format_lines_stops (f : string -> string) (key : pyval -> res string)
      (sep : string) (before after : dict pyval) (k v : pyval) (e : exn) :
  (forall s, key (VStr s) = Ok (f s)) ->
  forallb is_text (dict_keys before) = true ->
  key k = Err e ->
  Extractor.format_lines key sep (before ++ (k, v) :: after)%list = Err e.
Proof.
  intros Hkey Hbefore Hk. induction before as [| [k' v'] before IH]; cbn.
  - now rewrite Hk.
  - cbn in Hbefore. apply andb_prop in Hbefore. destruct Hbefore as [Hk' Hbefore].
    destruct k' as [| | | s | |]; try discriminate.
    rewrite Hkey. cbn [rbind]. now rewrite (IH Hbefore).
Qed.

Lemma console_lines (properties : dict pyval) :
  exists lines,
    Extractor.format_lines (fun k => Ok (py_str k)) ": " properties = Ok lines /\
    List.length lines = List.length properties.
Proof.
  induction properties as [| [k v] properties (lines & E & Hlen)].
  - now exists [].
  - eexists. cbn. rewrite E. cbn. split; [reflexivity |]. cbn. now rewrite Hlen.
Qed.

(** X19. A name that is not a text (YAML reads [name: 42] as an integer)
    breaks the [env] and [github] formats and nothing else: [k.upper()]
    and [k.lower()] raise [AttributeError] at the first such name, nobody
    catches it, and the run ends with status 1 and the interpreter's
    report on the error stream, with no content printed; the [console]
    format of the same PropertySet is built, one line for each
    property. *)
Theorem non_text_name_breaks_env_and_github
        (env : environment) (before after : dict pyval) (k v : pyval) :
  forallb is_text (dict_keys before) = true ->
  is_text k = false ->
  let properties := (before ++ (k, v) :: after)%list in
  Extractor.output_content env properties "env" = Err (no_attribute k "upper") /\
  Extractor.output_content env properties "github" = Err (no_attribute k "lower") /\
  (exists lines,
      Extractor.output_content env properties "console" =
        Ok (String.concat Extractor.nl lines) /\
      List.length lines = List.length properties) /\
  (forall args text data w,
      open_read env (Extractor.arg_yaml_file args) = Ok text ->
      yaml_safe_load env text = Ok data ->
      Extractor.extract data = Ok properties ->
      Extractor.arg_format args = "env" ->
      run (Extractor.script env args) w =
      (1, World (stdout w)
                (stderr (counted args properties (announced args w))
                   ++ traceback (no_attribute k "upper"))
                (written w))).
Proof.
  intros Hbefore Hk properties.
  assert (Hupper : Extractor.py_upper k = Err (no_attribute k "upper"))
    by (destruct k; try reflexivity; discriminate).
  assert (Hlower : Extractor.py_lower k = Err (no_attribute k "lower"))
    by (destruct k; try reflexivity; discriminate).
  assert (Henv : Extractor.output_content env properties "env" =
                 Err (no_attribute k "upper")).
  { unfold Extractor.output_content. cbn [String.eqb Ascii.eqb Bool.eqb].
    unfold properties.
    now rewrite (format_lines_stops Extractor.str_upper Extractor.py_upper "="
                   before after k v (fun s => eq_refl) Hbefore Hupper). }
  split; [exact Henv |]. split; [| split].
  - unfold Extractor.output_content. cbn [String.eqb Ascii.eqb Bool.eqb].
    unfold properties.
    now rewrite (format_lines_stops Extractor.str_lower Extractor.py_lower "="
                   before after k v (fun s => eq_refl) Hbefore Hlower).
  - destruct (console_lines properties) as (lines & E & Hlen).
    exists lines. split; [| exact Hlen].
    unfold Extractor.output_content. cbn [String.eqb Ascii.eqb Bool.eqb].
    now rewrite E.
  - intros args text data w Hopen Hload Hextract Hformat.
    assert (Hfound : properties <> []) by (unfold properties; now destruct before).
    rewrite (extractor_run_to_output env args Hopen Hload Hextract Hfound).
    unfold Extractor.output_properties, bind, lift. rewrite Hformat, Henv.
    unfold counted, announced, complained.
    destruct (Extractor.arg_verbose args); reflexivity.
Qed.

Lemma non_text_name_breaks_env_and_github_witness :
  run (Extractor.script
         (sample_env sample_config (VDict [])
                     (VDict (api_with [VDict [(VStr "name", VInt 42);
                                              (VStr "value", VStr "x")]])))
         (extractor_args "env")) fresh_world =
  (1, {| stdout := [];
         stderr := ["Traceback (most recent call last):";
                    "AttributeError: 'int' object has no attribute 'upper'"];
         written := [] |}).
Proof.
  exact (proj2 (proj2 (proj2
           (@non_text_name_breaks_env_and_github
              (sample_env sample_config (VDict [])
                          (VDict (api_with [VDict [(VStr "name", VInt 42);
                                                   (VStr "value", VStr "x")]])))
              [] [] (VInt 42) (VStr "x") eq_refl eq_refl)))
           (extractor_args "env") "api.yaml" _ fresh_world
           eq_refl eq_refl eq_refl eq_refl).
Defined.

(** X20. The leniency towards records stops at names that cannot be dict
    keys: a record whose [name] is a sequence or a mapping ends the
    extraction with [TypeError], whatever the records after it hold, and
    the run ends with the message on the error stream and status 1,
    without any property delivered. *)
Theorem unhashable_name_stops_extraction
        (top inner fields : list (pyval * pyval)) (before after : list pyval)
        (name value : pyval) :
  dict_get (VStr "data") top = Some (VDict inner) ->
  dict_get (VStr "additionalProperties") inner =
    Some (VList (before ++ VDict fields :: after)%list) ->
  forallb complete before = true ->
  dict_get (VStr "name") fields = Some name ->
  dict_get (VStr "value") fields = Some value ->
  hashable name = false ->
  Extractor.extract (VDict top) = Err (unhashable name) /\
  (forall env args text w,
      open_read env (Extractor.arg_yaml_file args) = Ok text ->
      yaml_safe_load env text = Ok (VDict top) ->
      run (Extractor.script env args) w =
      (1, complained ("Error: unhashable type: '" ++ type_name name ++ "'")
                     (announced args w))).
Proof.
  intros Hd Hl Hbefore Hname Hvalue Hh.
  assert (E : Extractor.extract (VDict top) = Err (unhashable name)).
  { rewrite (extract_located _ Hd Hl). cbn [py_iter rbind]. rewrite for_each_app.
    destruct (collect_loop before [] Hbefore eq_refl) as (props & -> & _).
    cbn [rbind for_each]. rewrite (collect_complete fields props Hname Hvalue).
    unfold Extractor.py_setitem. now rewrite Hh. }
  split; [exact E |].
  intros env args text w Hopen Hload.
  exact (extractor_type_error_run env args Hopen Hload w E eq_refl).
Qed.

Lemma unhashable_name_stops_extraction_witness :
  Extractor.extract
    (VDict (api_with [record "env" "dev";
                      VDict [(VStr "name", VList [VStr "a"]); (VStr "value", VStr "x")];
                      record "tier" "gold"])) =
  Err (Exn TypeError "unhashable type: 'list'").
Proof.
  exact (proj1 (@unhashable_name_stops_extraction
                  (api_with [record "env" "dev";
                             VDict [(VStr "name", VList [VStr "a"]);
                                    (VStr "value", VStr "x")];
                             record "tier" "gold"])
                  _ [(VStr "name", VList [VStr "a"]); (VStr "value", VStr "x")]
                  [record "env" "dev"] [record "tier" "gold"]
                  (VList [VStr "a"]) (VStr "x")
                  eq_refl eq_refl eq_refl eq_refl eq_refl eq_refl)).
Defined.

(** * Further properties of the value check *)

(** X21. For a property whose rule is well formed, [validate_property]
    answers valid exactly when the value equals one of the rule's
    [valid_values] (with Python's [==], under which [True] equals [1]),
    and otherwise answers invalid with the message that names the
    property, the value and the accepted values. *)
Theorem validate_property_checks_membership
        (self : Validator.PropertyValidator) (rules : list (pyval * pyval))
        (name value rule : pyval) :
  Validator.validation_rules self = VDict rules ->
  hashable name = true ->
  dict_get name rules = Some rule ->
  rule_schema rule = true ->
  Validator.validate_property self name value =
  Ok (if accepts rule value
      then {| Validator.valid := true; Validator.error := None |}
      else {| Validator.valid := false;
              Validator.error :=
                Some ("Property '" ++ py_str name ++ "' has invalid value '"
                        ++ py_str value ++ "'. Valid values are: "
                        ++ py_str (rule_values rule)) |}).
Proof.
  intros Hrules Hh Hget Hschema.
  destruct (rule_schema_values rule value Hschema) as (Hvals & Hmem).
  exact (validate_property_known self Hrules name value Hh Hget Hvals Hmem).
Qed.

Lemma validate_property_checks_membership_witness :
  Validator.validate_property
    {| Validator.config := VNone;
       Validator.validation_rules :=
         VDict [(VStr "replicas",
                 VDict [(VStr "valid_values", VList [VInt 1; VInt 3])])] |}
    (VStr "replicas") (VBool true) =
  Ok {| Validator.valid := true; Validator.error := None |}.
Proof.
  exact (@validate_property_checks_membership
           {| Validator.config := VNone;
              Validator.validation_rules :=
                VDict [(VStr "replicas",
                        VDict [(VStr "valid_values", VList [VInt 1; VInt 3])])] |}
           [(VStr "replicas", VDict [(VStr "valid_values", VList [VInt 1; VInt 3])])]
           (VStr "replicas") (VBool true)
           (VDict [(VStr "valid_values", VList [VInt 1; VInt 3])])
           eq_refl eq_refl eq_refl eq_refl).
Defined.

Lemma is_substring_empty (s : string) : is_substring "" s = true.
Proof. now destruct s. Qed.

(** X22. A rule whose [valid_values] is written as one text instead of a
    sequence is checked by occurrence: a text value is accepted exactly
    when it occurs in that text, so the empty text is always accepted,
    and a value that is not a text raises [TypeError] instead of giving a
    verdict. *)
Theorem text_valid_values_accept_by_occurrence
        (self : Validator.PropertyValidator) (rules fields : list (pyval * pyval))
        (name : pyval) (accepted : string) :
  Validator.validation_rules self = VDict rules ->
  hashable name = true ->
  dict_get name rules = Some (VDict fields) ->
  dict_get (VStr "valid_values") fields = Some (VStr accepted) ->
  (forall t,
      Validator.validate_property self name (VStr t) =
      Ok (if is_substring t accepted
          then {| Validator.valid := true; Validator.error := None |}
          else invalid_value name (VStr t) (VStr accepted))) /\
  Validator.validate_property self name (VStr "") =
    Ok {| Validator.valid := true; Validator.error := None |} /\
  (forall value,
      is_text value = false ->
      Validator.validate_property self name value =
      Err (Exn TypeError
               ("'in <string>' requires string as left operand, not "
                  ++ type_name value))).
Proof.
  intros Hrules Hh Hget Hvals.
  assert (Hvalues : py_get (VDict fields) "valid_values" (VList []) =
                    Ok (VStr accepted)) by (cbn; now rewrite Hvals).
  assert (Htext : forall t,
             Validator.validate_property self name (VStr t) =
             Ok (if is_substring t accepted
                 then {| Validator.valid := true; Validator.error := None |}
                 else invalid_value name (VStr t) (VStr accepted))).
  { intros t.
    exact (validate_property_known self Hrules name (VStr t) Hh Hget Hvalues
                                   eq_refl). }
  split; [exact Htext |]. split.
  - rewrite Htext. now rewrite is_substring_empty.
  - intros value Hvalue. unfold Validator.validate_property.
    rewrite Hrules. cbn [py_in]. rewrite Hh. cbn [rbind].
    rewrite (dict_contains_get _ _ Hget). cbn [negb py_getitem].
    rewrite Hh, Hget. cbn [rbind]. rewrite Hvalues. cbn [rbind].
    destruct value; try discriminate; reflexivity.
Qed.

Lemma text_valid_values_accept_by_occurrence_witness :
  Validator.validate_property
    {| Validator.config := VNone;
       Validator.validation_rules :=
         VDict [(VStr "env", VDict [(VStr "valid_values", VStr "dev,prod")])] |}
    (VStr "env") (VStr "v,pro") =
  Ok {| Validator.valid := true; Validator.error := None |}.
Proof.
  exact (proj1 (@text_valid_values_accept_by_occurrence
                  {| Validator.config := VNone;
                     Validator.validation_rules :=
                       VDict [(VStr "env",
                               VDict [(VStr "valid_values", VStr "dev,prod")])] |}
                  [(VStr "env", VDict [(VStr "valid_values", VStr "dev,prod")])]
                  [(VStr "valid_values", VStr "dev,prod")]
                  (VStr "env") "dev,prod" eq_refl eq_refl eq_refl eq_refl)
               "v,pro").
Defined.
